(** * SkyBook flight booking front end: the booking wizard and the search forms

    A shallow embedding of the client-side JavaScript of the repository:
    - [static/js/home.js]: the homepage search form, its passenger selector
      and the lookup form;
    - the second homepage script (drop-down passenger selector,
      [populateInfants], the trip options and the search form);
    - the booking page script: the five-step wizard ([bookingState],
      [handleSearch], [displayFlights], [handlePayment], [navigateToStep],
      [initBookingFlow], [saveBookingState], the validators).

    Conventions of the embedding.
    - A JavaScript string is a [string] of code units below 256 (Latin-1).
    - A JavaScript number that counts something is a [Z]; a price is an IEEE 754
      binary64 [float], multiplied with the primitive operation.
    - Objects of a fixed shape are records; [null], [undefined] and the empty
      object [{}] of an optional field are [None].
    - The page is a [World]: the session record, [localStorage], the form
      controls with their values, the ids of the other elements, the text
      written into elements, the rendered flight cards and the error toasts.
    - An [async] handler runs to completion as one step (the timers only delay).
    - The host behaves: [localStorage.setItem] stores what it is given and the
      DOM calls do not throw. What can throw in the scripts themselves
      ([JSON.parse], reading a property of [null], the simulated payment) is
      modelled with [result]. The convention on [setItem] is lifted once, in
      [FallibleStorage], for the [try] block of the confirm button. *)

From Stdlib Require Import ZArith Lia List Bool Ascii String.
From Stdlib Require Import Floats.PrimFloat Floats.FloatOps Floats.SpecFloat.
From Stdlib Require Import Numbers.Cyclic.Int63.Uint63.
From stdpp Require Import base option list gmap strings pretty.

Set Warnings "-inexact-float".
Local Open Scope string_scope.
Local Open Scope Z_scope.

(** ** JavaScript built-ins used by the scripts *)

Module JS.

(** *** Character classes of regular expressions *)

(** [\s] (and the characters removed by [trim]): TAB, LF, VT, FF, CR, SP, NBSP. *)
Definition isWhiteSpace (c : ascii) : bool :=
  let n := N_of_ascii c in
  ((9 <=? n)%N && (n <=? 13)%N) || (n =? 32)%N || (n =? 160)%N.

(** [\d]: the ten ASCII digits. *)
Definition isDigit (c : ascii) : bool :=
  let n := N_of_ascii c in (48 <=? n)%N && (n <=? 57)%N.

(** *** String methods *)

Fixpoint filterChars (keep : ascii -> bool) (s : string) : string :=
  match s with
  | EmptyString => EmptyString
  | String c r => if keep c then String c (filterChars keep r) else filterChars keep r
  end.

Fixpoint allChars (p : ascii -> bool) (s : string) : bool :=
  match s with
  | EmptyString => true
  | String c r => p c && allChars p r
  end.

(** [s.replace(/\s/g, '')] *)
Definition removeWhiteSpace (s : string) : string :=
  filterChars (fun c => negb (isWhiteSpace c)) s.

(** [s.replace(/\D/g, '')] *)
Definition removeNonDigits (s : string) : string := filterChars isDigit s.

Definition len (s : string) : Z := Z.of_nat (String.length s).

Fixpoint trimStart (s : string) : string :=
  match s with
  | EmptyString => EmptyString
  | String c r => if isWhiteSpace c then trimStart r else s
  end.

Fixpoint trimEnd (s : string) : string :=
  match s with
  | EmptyString => EmptyString
  | String c r =>
      match trimEnd r with
      | EmptyString => if isWhiteSpace c then EmptyString else String c EmptyString
      | r' => String c r'
      end
  end.

(** [s.trim()] *)
Definition trim (s : string) : string := trimEnd (trimStart s).

Definition mapChars (f : ascii -> ascii) (s : string) : string :=
  string_of_list_ascii (List.map f (list_ascii_of_string s)).

(** [toLowerCase] on code units below 256: A-Z and the Latin-1 capitals
    U+00C0-U+00DE (U+00D7 apart) move up by 32. *)
Definition lowerChar (c : ascii) : ascii :=
  let n := N_of_ascii c in
  if ((65 <=? n)%N && (n <=? 90)%N)
     || ((192 <=? n)%N && (n <=? 222)%N && negb (n =? 215)%N)
  then ascii_of_N (n + 32) else c.

Definition toLowerCase (s : string) : string := mapChars lowerChar s.

(** [toUpperCase], exact on ASCII text; its one caller applies it to the
    base-36 digits of [Math.random().toString(36)]. *)
Definition upperChar (c : ascii) : ascii :=
  let n := N_of_ascii c in
  if (97 <=? n)%N && (n <=? 122)%N then ascii_of_N (n - 32) else c.

Definition toUpperCase (s : string) : string := mapChars upperChar s.

(** [s.substring(i, j)] for [0 <= i <= j]. *)
Definition substring (i j : nat) (s : string) : string :=
  String.substring i (j - i) s.

(** [s.substr(i, n)] for [0 <= i]. *)
Definition substr (i n : nat) (s : string) : string := String.substring i n s.

(** [s.slice(-n)]: the last [n] code units (all of [s] when it is shorter). *)
Definition sliceLast (n : nat) (s : string) : string :=
  String.substring (String.length s - n) n s.

(** A string is falsy exactly when it is empty. *)
Definition truthy (s : string) : bool :=
  match s with EmptyString => false | _ => true end.

(** [a || b] on strings. *)
Definition orElse (a b : string) : string := if truthy a then a else b.

(** [a === b] on strings. *)
Definition strEq (a b : string) : bool := bool_decide (a = b).

(** *** Numbers *)

(** The double of an integer (exact below [2^53] in magnitude). *)
Definition Z2F (z : Z) : float :=
  if z <? 0 then PrimFloat.opp (PrimFloat.of_uint63 (Uint63.of_Z (- z)))
  else PrimFloat.of_uint63 (Uint63.of_Z z).

(** [String(n)] of an integer. *)
Definition numberString (n : Z) : string := pretty n.

(** [parseInt(s, 10)] of a string of decimal digits. *)
Definition parseDigits (s : string) : Z :=
  fold_left (fun acc c => 10 * acc + (Z.of_N (N_of_ascii c) - 48))
            (list_ascii_of_string s) 0.

(** The part of the host that the embedding leaves open: [Number::toString] of
    a double of magnitude [10^21] or more (exponential notation). *)
Class Host := { NumberToString : float -> string }.

(** The integer [n] closest to [m * 2^e * 100], the larger one on a tie. *)
Definition scaled100 (m : positive) (e : Z) : Z :=
  if 0 <=? e then Z.pos m * 2 ^ e * 100
  else (2 * (Z.pos m * 100) + 2 ^ (- e)) / 2 ^ (- e + 1).

(** [m * 2^e >= 10^21] *)
Definition atLeast1e21 (m : positive) (e : Z) : bool :=
  if 0 <=? e then 10 ^ 21 <=? Z.pos m * 2 ^ e
  else 10 ^ 21 * 2 ^ (- e) <=? Z.pos m.

Definition twoDigits (n : Z) : string :=
  if n <? 10 then "0" +:+ pretty n else pretty n.

(** The digits of [n / 100] with two decimals. *)
Definition fixedDigits (n : Z) : string :=
  pretty (n / 100) +:+ "." +:+ twoDigits (n mod 100).

(** [x.toFixed(2)] (ECMA-262, Number.prototype.toFixed). *)
Definition toFixed2 `{Host} (x : float) : string :=
  match Prim2SF x with
  | S754_nan => "NaN"
  | S754_infinity s => if s then "-Infinity" else "Infinity"
  | S754_zero _ => "0.00"
  | S754_finite s m e =>
      (if s then "-" else "") +:+
      (if atLeast1e21 m e then NumberToString (PrimFloat.abs x)
       else fixedDigits (scaled100 m e))
  end.

(** A host for the closed examples: the exponential notation of huge numbers
    is never reached in them. *)
Definition exampleHost : Host := {| NumberToString := fun _ => "" |}.

End JS.

(** ** Data shared by the pages: search criteria, session record, storage *)

Module Data.

(** [passengers]: [{ adults, children, infants }]. *)
Record Passengers := mkPassengers { adults : Z; children : Z; infants : Z }.

(** The search criteria object ([formData] on the homepage, [searchData] on
    the booking page). A key that an object does not have is [None]. *)
Record SearchData := mkSearchData {
  from : string;
  to : string;
  departureDate : string;
  returnDate : option string;
  tripType : option string;
  passengers : option Passengers
}.

(** A flight offer as [searchFlightsAPI] builds it. *)
Record Flight := mkFlight {
  id : string;
  airline : string;
  flightNumber : string;
  departureCity : string;
  arrivalCity : string;
  departureTime : string;
  arrivalTime : string;
  departureAirport : string;
  arrivalAirport : string;
  duration : string;
  price : float;
  availableSeats : Z
}.

Record PassengerData := mkPassengerData {
  name : string;
  email : string;
  phone : string;
  specialRequests : string
}.

Record PaymentData := mkPaymentData {
  cardName : string;
  cardLastFour : string;
  expiryDate : string
}.

Record BookingDetails := mkBookingDetails {
  bookingReference : string;
  bookingId : Z;
  timestamp : string;
  status : string
}.

(** [bookingState]. [passengerData], [paymentData] and [bookingDetails] are
    never [null]: [None] is their initial empty object [{}], which is truthy. *)
Record BookingState := mkBookingState {
  currentStep : Z;
  searchData : option SearchData;
  selectedFlight : option Flight;
  passengerData : option PassengerData;
  paymentData : option PaymentData;
  bookingDetails : option BookingDetails
}.

(** The text held by a [localStorage] slot, up to what [JSON.parse] makes of
    it: text that does not parse, the text [null], or the serialization of an
    object of the slot's shape. [JSON.stringify] of a record is [Json] of it and
    [JSON.parse] gives the record back: JSON carries strings, finite numbers and
    [null] without loss, and [stringify] drops the keys that are [undefined].
    (The numbers of the records are finite: counts, clock readings and the
    price literals of the mocked search.) *)
Inductive text (A : Type) : Type :=
| Malformed (raw : string)
| JsonNull
| Json (a : A).
Arguments Malformed {A} raw.
Arguments JsonNull {A}.
Arguments Json {A} a.

(** [localStorage]: the pending search of the homepage (key [flightSearch])
    and the wizard session (key [bookingState]). *)
Record Storage := mkStorage {
  flightSearch : option (text SearchData);
  bookingStateSlot : option (text BookingState)
}.

(** Exceptions: a computation returns or throws. *)
Inductive result (A : Type) : Type :=
| Ok (a : A)
| Throw (e : string).
Arguments Ok {A} a.
Arguments Throw {A} e.

Definition JSON_stringify {A : Type} (a : A) : text A := Json a.

(** [JSON.parse]: a [SyntaxError] on malformed text; [None] is [null]. *)
Definition JSON_parse {A : Type} (t : text A) : result (option A) :=
  match t with
  | Malformed _ => Throw "SyntaxError"
  | JsonNull => Ok None
  | Json a => Ok (Some a)
  end.

(** [if (saved)] on the result of [getItem]: [null] and the empty string are falsy. *)
Definition getItemTruthy {A : Type} (slot : option (text A)) : option (text A) :=
  match slot with
  | Some (Malformed "") => None
  | other => other
  end.

(** The passenger summary written into the display element. *)
Definition passengerText (p : Passengers) : string :=
  JS.numberString (adults p) +:+ " Adult" +:+ (if adults p =? 1 then "" else "s")
  +:+ (if 0 <? children p
       then ", " +:+ JS.numberString (children p) +:+ " Child"
            +:+ (if children p =? 1 then "" else "ren")
       else "")
  +:+ (if 0 <? infants p
       then ", " +:+ JS.numberString (infants p) +:+ " Infant"
            +:+ (if infants p =? 1 then "" else "s")
       else "").

End Data.

(** ** The homepage ([static/js/home.js]) *)

Module Home.
Import JS Data.

Inductive PassengerType := Adults | Children | Infants.
Inductive Action := Increase | Decrease.

Definition count (type : PassengerType) (p : Passengers) : Z :=
  match type with
  | Adults => adults p
  | Children => children p
  | Infants => infants p
  end.

Definition setCount (type : PassengerType) (n : Z) (p : Passengers) : Passengers :=
  match type with
  | Adults => mkPassengers n (children p) (infants p)
  | Children => mkPassengers (adults p) n (infants p)
  | Infants => mkPassengers (adults p) (children p) n
  end.

(** The click handler of a [.passenger-btn] in [initPassengerSelector]. *)
Definition passengerClick (type : PassengerType) (action : Action)
    (p : Passengers) : Passengers :=
  match action with
  | Increase =>
      let max := match type with Infants => adults p | _ => 9 end in
      if count type p <? max then setCount type (count type p + 1) p else p
  | Decrease =>
      let min := match type with Adults => 1 | _ => 0 end in
      if min <? count type p then setCount type (count type p - 1) p else p
  end.

(** The bound the selectors are meant to keep (section 3 of the
    specification): no more infants than adults. *)
Definition infantsWithinAdults (p : Passengers) : Prop := infants p <= adults p.

(** The global [passengers] when the script is loaded. *)
Definition initialPassengers : Passengers := mkPassengers 1 0 0.

(** A sequence of clicks, first click first. *)
Definition clicks (l : list (PassengerType * Action)) (p : Passengers) : Passengers :=
  fold_left (fun q c => passengerClick (fst c) (snd c) q) l p.

(** The homepage: the global [passengers], the storage, the form controls with
    their values, the selectors that match an element of the document, the
    [data-type] of the active trip option, the messages put into the document
    (in order; that the next message and a timer take them out again is not
    modelled) and the address the page was sent to. *)
Record Page := mkPage {
  passengers : Passengers;
  localStorage : Storage;
  inputs : gmap string string;
  elements : gset string;
  tripOption : option string;
  errors : list string;
  successes : list string;
  location : option string
}.

(** The insertion test of [showError] and [showSuccess]: the message element
    is put into a form that has a [.form-grid] or a [.bookings-form]
    descendant, and stays outside the document when there is no such form.
    [elements] has the selector [form .form-grid] (or [form .bookings-form])
    exactly when the document has a form with such a descendant. *)
Definition hasMessageForm (w : Page) : bool :=
  bool_decide ("form .form-grid" ∈ elements w)
  || bool_decide ("form .bookings-form" ∈ elements w).

Definition showError (msg : string) (w : Page) : Page :=
  if hasMessageForm w then
    mkPage (passengers w) (localStorage w) (inputs w) (elements w) (tripOption w)
           (errors w ++ [msg]) (successes w) (location w)
  else w.

Definition showSuccess (msg : string) (w : Page) : Page :=
  if hasMessageForm w then
    mkPage (passengers w) (localStorage w) (inputs w) (elements w) (tripOption w)
           (errors w) (successes w ++ [msg]) (location w)
  else w.

(** The validated search is stored under [flightSearch], the success message
    is built and the page moves to the booking page (the two timers only delay
    this). *)
Definition storeAndRedirect (formData : SearchData) (w : Page) : Page :=
  let w1 :=
    mkPage (passengers w)
           (mkStorage (Some (JSON_stringify formData))
                      (bookingStateSlot (localStorage w)))
           (inputs w) (elements w) (tripOption w) (errors w) (successes w)
           (location w) in
  let w2 := showSuccess "Searching for flights... Redirecting to results" w1 in
  mkPage (passengers w2) (localStorage w2) (inputs w2) (elements w2) (tripOption w2)
         (errors w2) (successes w2) (Some "/book/").

(** The [submit] listener installed by [initFlightSearchForm]. *)
Definition submitSearch (w : Page) : Page :=
  match inputs w !! "fromCity", inputs w !! "toCity", inputs w !! "departureDate" with
  | Some fromCity, Some toCity, Some departure =>
      let returnDate := inputs w !! "returnDate" in
      let tripType :=
        match tripOption w with
        | Some t => if truthy t then t else "one-way"
        | None => "one-way"
        end in
      let formData :=
        mkSearchData (trim fromCity) (trim toCity) departure None (Some tripType)
                     (Some (mkPassengers (adults (passengers w))
                                         (children (passengers w))
                                         (infants (passengers w)))) in
      if negb (truthy (from formData)) then
        showError "Please enter departure city" w
      else if negb (truthy (to formData)) then
        showError "Please enter destination city" w
      else if strEq (toLowerCase (from formData)) (toLowerCase (to formData)) then
        showError "Departure and destination cities must be different" w
      else if negb (truthy (departureDate formData)) then
        showError "Please select departure date" w
      else
        let validated :=
          if strEq tripType "round-trip" then
            match returnDate with
            | Some r =>
                if truthy r
                then Ok (mkSearchData (from formData) (to formData)
                           (departureDate formData) (Some r) (Some tripType)
                           (Data.passengers formData))
                else Throw "Please select a return date for round trip"
            | None => Throw "Please select a return date for round trip"
            end
          else Ok formData in
        match validated with
        | Throw msg => showError msg w
        | Ok formData' =>
            if decide (".search-btn" ∈ elements w)
            then storeAndRedirect formData' w
            else w
        end
  | _, _, _ => showError "Form elements not found. Please refresh the page." w
  end.

End Home.

(** ** The homepage with drop-down passenger fields ([populateList], [populateInfants]) *)

Module HomeFields.
Import JS Data.

(** The selector: the local [passengers] of [initPassengerSelector] and the
    largest value offered by the infants list as it was last built. *)
Record Selector := mkSelector {
  passengers : Passengers;
  infantsMax : Z
}.

(** After the initial population: adults 1..9, children 0..6 and
    [populateInfants()] with one adult. *)
Definition initialSelector : Selector := mkSelector (mkPassengers 1 0 0) 1.

(** Is the item [i] in the list that [populateList] built for [type]? *)
Definition offered (type : Home.PassengerType) (i : Z) (s : Selector) : bool :=
  match type with
  | Home.Adults => (1 <=? i) && (i <=? 9)
  | Home.Children => (0 <=? i) && (i <=? 6)
  | Home.Infants => (0 <=? i) && (i <=? infantsMax s)
  end.

(** [populateInfants]: the infants list is rebuilt for the current adults; the
    chosen infant count is only read, for the label. *)
Definition populateInfants (s : Selector) : Selector :=
  mkSelector (passengers s) (adults (passengers s)).

(** The click listener of the list item [i] of [type]. *)
Definition selectItem (type : Home.PassengerType) (i : Z) (s : Selector) : Selector :=
  if offered type i s then
    let s' := mkSelector (Home.setCount type i (passengers s)) (infantsMax s) in
    match type with
    | Home.Adults => populateInfants s'
    | _ => s'
    end
  else s.

End HomeFields.

(** ** The booking page: validators *)

Module Validators.
Import JS.

(** [isValidEmail]: [/^[^\s@]+@[^\s@]+\.[^\s@]+$/]. The first class stops at the
    first [@]; what follows it has no blank and no [@], and a dot that is
    neither its first nor its last character. *)
Definition plainChar (c : ascii) : bool :=
  negb (isWhiteSpace c) && negb (Ascii.eqb c "@").

Fixpoint splitAt (s : string) : option (string * string) :=
  match s with
  | EmptyString => None
  | String c r =>
      if Ascii.eqb c "@" then Some (EmptyString, r)
      else match splitAt r with
           | Some (a, b) => Some (String c a, b)
           | None => None
           end
  end.

Definition hasInnerDot (s : string) : bool :=
  match list_ascii_of_string s with
  | [] => false
  | _ :: r => existsb (fun c => Ascii.eqb c ".") (removelast r)
  end.

Definition isValidEmail (email : string) : bool :=
  match splitAt email with
  | Some (user, host) =>
      truthy user && allChars plainChar user
      && allChars plainChar host && hasInnerDot host
  | None => false
  end.

(** [isValidCardNumber]: the two regular expression tests and the length check,
    as written. *)
Definition isValidCardNumber (number : string) : bool :=
  let cleanNumber := removeWhiteSpace number in
  if negb (allChars isDigit cleanNumber && (1 <=? len cleanNumber))
     || (len cleanNumber <? 13) || (19 <? len cleanNumber)
  then false
  else allChars isDigit cleanNumber
       && (13 <=? len cleanNumber) && (len cleanNumber <=? 19).

(** [isValidExpiryDate], given [new Date().getFullYear()] and
    [new Date().getMonth()]. *)
Definition isValidExpiryDate (fullYear monthIndex : Z) (expiry : string) : bool :=
  match list_ascii_of_string expiry with
  | [m1; m2; sep; y1; y2] =>
      if isDigit m1 && isDigit m2 && Ascii.eqb sep "/" && isDigit y1 && isDigit y2
      then
        let month := parseDigits (string_of_list_ascii [m1; m2]) in
        let year := parseDigits (string_of_list_ascii [y1; y2]) in
        let currentYear := fullYear mod 100 in
        let currentMonth := monthIndex + 1 in
        if (month <? 1) || (12 <? month) then false
        else if year <? currentYear then false
        else if (year =? currentYear) && (month <? currentMonth) then false
        else true
      else false
  | _ => false
  end.

(** [isValidCVV]: [/^\d{3,4}$/]. *)
Definition isValidCVV (cvv : string) : bool :=
  allChars isDigit cvv && (3 <=? len cvv) && (len cvv <=? 4).

(** [value.replace(/(\d{4})(?=\d)/g, '$1 ')]: scanning from the left, four digits
    followed by a digit get a space after them. *)
Fixpoint groupFours (l : list ascii) : list ascii :=
  match l with
  | a :: r =>
      match r with
      | b :: c :: d :: (e :: _) as rest =>
          if isDigit a && isDigit b && isDigit c && isDigit d && isDigit e
          then a :: b :: c :: d :: " "%char :: groupFours rest
          else a :: groupFours r
      | _ => l
      end
  | [] => []
  end.

(** [formatCardNumber]: the value the [input] listener leaves in the field. *)
Definition formatCardNumber (value : string) : string :=
  let digits := removeNonDigits (removeWhiteSpace value) in
  let grouped := string_of_list_ascii (groupFours (list_ascii_of_string digits)) in
  substring 0 19 grouped.

(** [formatExpiryDate]. *)
Definition formatExpiryDate (value : string) : string :=
  let digits := removeNonDigits value in
  let v := if 2 <=? len digits
           then substring 0 2 digits +:+ "/" +:+ substring 2 4 digits
           else digits in
  substring 0 5 v.

End Validators.

(** ** The booking page: the wizard *)

Module Booking.
Import JS Data Validators.

(** A rendered [.flight-card]: its flight and the two price texts. *)
Record Card := mkCard {
  cardFlight : Flight;
  cardTotal : string;
  cardPerPerson : string
}.

(** The booking page. [elements] holds the ids (and the two class selectors of
    the passenger selector) that exist in the document; a form control exists
    when [inputs] has its id. [selector] is the local [passengers] of
    [initPassengerSelector], once it ran. The summaries written with
    [innerHTML] and the classes of the progress bar are not modelled. *)
Record World := mkWorld {
  bookingState : BookingState;
  localStorage : Storage;
  inputs : gmap string string;
  elements : gset string;
  texts : gmap string string;
  display : gmap string string;
  cards : list Card;
  activeStep : option Z;
  selector : option Passengers;
  errors : list string
}.

(** *** Field updates *)

Definition setState (s : BookingState) (w : World) : World :=
  mkWorld s (localStorage w) (inputs w) (elements w) (texts w) (display w)
          (cards w) (activeStep w) (selector w) (errors w).

Definition setStorage (l : Storage) (w : World) : World :=
  mkWorld (bookingState w) l (inputs w) (elements w) (texts w) (display w)
          (cards w) (activeStep w) (selector w) (errors w).

Definition setInputs (i : gmap string string) (w : World) : World :=
  mkWorld (bookingState w) (localStorage w) i (elements w) (texts w) (display w)
          (cards w) (activeStep w) (selector w) (errors w).

Definition setTexts (t : gmap string string) (w : World) : World :=
  mkWorld (bookingState w) (localStorage w) (inputs w) (elements w) t (display w)
          (cards w) (activeStep w) (selector w) (errors w).

Definition setDisplay (d : gmap string string) (w : World) : World :=
  mkWorld (bookingState w) (localStorage w) (inputs w) (elements w) (texts w) d
          (cards w) (activeStep w) (selector w) (errors w).

Definition setCards (c : list Card) (w : World) : World :=
  mkWorld (bookingState w) (localStorage w) (inputs w) (elements w) (texts w)
          (display w) c (activeStep w) (selector w) (errors w).

Definition setActiveStep (a : option Z) (w : World) : World :=
  mkWorld (bookingState w) (localStorage w) (inputs w) (elements w) (texts w)
          (display w) (cards w) a (selector w) (errors w).

Definition setSelector (p : option Passengers) (w : World) : World :=
  mkWorld (bookingState w) (localStorage w) (inputs w) (elements w) (texts w)
          (display w) (cards w) (activeStep w) p (errors w).

Definition withSearchData (d : option SearchData) (s : BookingState) : BookingState :=
  mkBookingState (currentStep s) d (selectedFlight s) (passengerData s)
                 (paymentData s) (bookingDetails s).

Definition withCurrentStep (n : Z) (s : BookingState) : BookingState :=
  mkBookingState n (searchData s) (selectedFlight s) (passengerData s)
                 (paymentData s) (bookingDetails s).

Definition withSelectedFlight (f : option Flight) (s : BookingState) : BookingState :=
  mkBookingState (currentStep s) (searchData s) f (passengerData s)
                 (paymentData s) (bookingDetails s).

Definition withPassengerData (p : option PassengerData) (s : BookingState) : BookingState :=
  mkBookingState (currentStep s) (searchData s) (selectedFlight s) p
                 (paymentData s) (bookingDetails s).

Definition withPaymentData (p : option PaymentData) (s : BookingState) : BookingState :=
  mkBookingState (currentStep s) (searchData s) (selectedFlight s) (passengerData s)
                 p (bookingDetails s).

Definition withBookingDetails (b : option BookingDetails) (s : BookingState) : BookingState :=
  mkBookingState (currentStep s) (searchData s) (selectedFlight s) (passengerData s)
                 (paymentData s) b.

(** [el.textContent = t] and [el.style.display = d], when the element exists. *)
Definition setText (elt t : string) (w : World) : World :=
  if decide (elt ∈ elements w) then setTexts (<[elt := t]> (texts w)) w else w.

Definition setStyleDisplay (elt d : string) (w : World) : World :=
  if decide (elt ∈ elements w) then setDisplay (<[elt := d]> (display w)) w else w.

(** [input.value = v], when the control exists. *)
Definition setValue (elt v : string) (w : World) : World :=
  match inputs w !! elt with
  | Some _ => setInputs (<[elt := v]> (inputs w)) w
  | None => w
  end.

(** *** The session record and the small helpers *)

(** The [bookingState] literal at the top of the script. *)
Definition initialBookingState : BookingState :=
  mkBookingState 1 None None None None None.

Definition defaultPassengers : Passengers := mkPassengers 1 0 0.

(** [bookingState.searchData?.passengers] *)
Definition statePassengers (s : BookingState) : option Passengers :=
  match searchData s with
  | Some d => passengers d
  | None => None
  end.

(** [bookingState.searchData?.passengers || { adults: 1, children: 0, infants: 0 }] *)
Definition passengersOrDefault (s : BookingState) : Passengers :=
  match statePassengers s with
  | Some p => p
  | None => defaultPassengers
  end.

(** The number of seats paid for: [passengers.adults + passengers.children]. *)
Definition seats (p : Passengers) : Z := adults p + children p.

(** [n || d] on numbers: zero is falsy. *)
Definition numOr (n : option Z) (d : Z) : Z :=
  match n with
  | Some v => if v =? 0 then d else v
  | None => d
  end.

Definition showError (message : string) (w : World) : World :=
  mkWorld (bookingState w) (localStorage w) (inputs w) (elements w) (texts w)
          (display w) (cards w) (activeStep w) (selector w) (errors w ++ [message]).

Definition showLoading (show : bool) (w : World) : World :=
  setStyleDisplay "loadingFlights" (if show then "block" else "none") w.

(** [saveBookingState] *)
Definition saveBookingState (w : World) : World :=
  setStorage (mkStorage (flightSearch (localStorage w))
                        (Some (JSON_stringify (bookingState w)))) w.

(** The id [step-${step}]. *)
Definition stepId (step : Z) : string := "step-" +:+ numberString step.

(** [navigateToStep]: every step loses [active]; when the target exists it
    becomes active, the step is recorded and the state saved. *)
Definition navigateToStep (step : Z) (w : World) : World :=
  let w1 := setActiveStep None w in
  if decide (stepId step ∈ elements w1) then
    let w2 := setActiveStep (Some step) w1 in
    saveBookingState (setState (withCurrentStep step (bookingState w2)) w2)
  else w1.

(** *** Search *)

(** [searchFlightsAPI]: the three mocked offers. *)
Definition searchFlightsAPI (searchData : SearchData) : list Flight :=
  [ mkFlight "SB123" "SkyBook Airlines" "SB123"
             (orElse (from searchData) "Abuja") (orElse (to searchData) "Lagos")
             "08:00" "09:30" "ABV" "LOS" "1h 30m" 199.99 42;
    mkFlight "SB456" "SkyBook Airlines" "SB456"
             (orElse (from searchData) "Abuja") (orElse (to searchData) "Lagos")
             "14:30" "16:00" "ABV" "LOS" "1h 30m" 249.99 24;
    mkFlight "SB789" "SkyBook Airlines" "SB789"
             (orElse (from searchData) "Abuja") (orElse (to searchData) "Lagos")
             "19:15" "20:45" "ABV" "LOS" "1h 30m" 179.99 3 ].

(** The card that [displayFlights] builds for one flight. *)
Definition renderCard `{Host} (s : BookingState) (flight : Flight) : Card :=
  let totalPassengers :=
    numOr (adults <$> statePassengers s) 1 + numOr (children <$> statePassengers s) 0 in
  let totalPrice := PrimFloat.mul (price flight) (Z2F totalPassengers) in
  mkCard flight ("$" +:+ toFixed2 totalPrice)
         ("$" +:+ toFixed2 (price flight) +:+ " per person").

(** [displayFlights] *)
Definition displayFlights `{Host} (flights : list Flight) (w : World) : World :=
  if decide ("flightsResults" ∈ elements w) then
    let w1 := setCards [] w in
    match flights with
    | [] => setStyleDisplay "noFlights" "block" w1
    | _ =>
        let w2 := setStyleDisplay "noFlights" "none" w1 in
        setCards (renderCard (bookingState w2) <$> flights) w2
    end
  else w.

(** [selectFlight(flightId, flights)], [flights] being the array the cards were
    rendered from. *)
Definition selectFlight (flightId : string) (w : World) : World :=
  match List.find (fun f => strEq (id f) flightId) (cardFlight <$> cards w) with
  | Some flight => setState (withSelectedFlight (Some flight) (bookingState w)) w
  | None => w
  end.

(** [handleSearch]. Reading the value of a control that does not exist throws
    before anything is changed. *)
Definition handleSearch `{Host} (w : World) : World :=
  match inputs w !! "bookingFrom", inputs w !! "bookingTo",
        inputs w !! "bookingDeparture", inputs w !! "bookingReturn" with
  | Some bookingFrom, Some bookingTo, Some bookingDeparture, Some bookingReturn =>
      let searchData :=
        mkSearchData (trim bookingFrom) (trim bookingTo) bookingDeparture
                     (Some bookingReturn) None
                     (Some (passengersOrDefault (bookingState w))) in
      if negb (truthy (from searchData)) then
        showError "Please enter departure city" w
      else if negb (truthy (to searchData)) then
        showError "Please enter destination city" w
      else if strEq (toLowerCase (from searchData)) (toLowerCase (to searchData)) then
        showError "Departure and destination must be different" w
      else if negb (truthy (departureDate searchData)) then
        showError "Please select departure date" w
      else
        let w1 := setState (withSearchData (Some searchData) (bookingState w)) w in
        let w2 := showLoading true w1 in
        let flights := searchFlightsAPI searchData in
        let w3 := displayFlights flights w2 in
        let w4 := navigateToStep 2 w3 in
        showLoading false w4
  | _, _, _, _ => w
  end.

(** *** Passenger details *)

(** [validatePassengerStep] *)
Definition validatePassengerStep (w : World) : bool * World :=
  match selectedFlight (bookingState w) with
  | None => (false, showError "Please select a flight to continue" w)
  | Some _ => (true, w)
  end.

(** [document.getElementById(id)?.value.trim()], [None] for [undefined]. *)
Definition trimmedValue (elt : string) (w : World) : option string :=
  trim <$> (inputs w !! elt).

(** [!v] for such a value. *)
Definition missing (v : option string) : bool :=
  match v with
  | Some s => negb (truthy s)
  | None => true
  end.

(** [validatePassengerDetails] *)
Definition validatePassengerDetails (w : World) : bool * World :=
  let name := trimmedValue "passengerName" w in
  let email := trimmedValue "passengerEmail" w in
  let phone := trimmedValue "passengerPhone" w in
  if missing name then (false, showError "Please enter passenger name" w)
  else if missing email then (false, showError "Please enter email address" w)
  else if negb (isValidEmail (default "" email)) then
    (false, showError "Please enter a valid email address" w)
  else if missing phone then (false, showError "Please enter phone number" w)
  else
    let passengerData :=
      mkPassengerData (default "" name) (default "" email) (default "" phone)
                      (default "" (trimmedValue "specialRequests" w)) in
    (true, setState (withPassengerData (Some passengerData) (bookingState w)) w).

(** [updatePaymentSummary]: the text of [#totalPrice]. *)
Definition updatePaymentSummary `{Host} (w : World) : World :=
  match selectedFlight (bookingState w) with
  | None => w
  | Some flight =>
      let passengers := passengersOrDefault (bookingState w) in
      let totalPassengers := seats passengers in
      let totalPrice := PrimFloat.mul (price flight) (Z2F totalPassengers) in
      setText "totalPrice" ("$" +:+ toFixed2 totalPrice) w
  end.

(** *** Payment *)

(** What the handlers read from the clock and from [Math.random]:
    [Date.now()], [new Date().toISOString()], [getFullYear()], [getMonth()]
    and [Math.random().toString(36)]. *)
Record Env := mkEnv {
  now : Z;
  isoString : string;
  fullYear : Z;
  monthIndex : Z;
  random36 : string
}.

Record PaymentResult := mkPaymentResult {
  success : bool;
  transactionId : string
}.

(** [validatePaymentForm] *)
Definition validatePaymentForm (env : Env) (w : World) : bool * World :=
  let cardName := trimmedValue "cardName" w in
  let cardNumber := removeWhiteSpace <$> trimmedValue "cardNumber" w in
  let cardExpiry := trimmedValue "cardExpiry" w in
  let cardCVV := trimmedValue "cardCVV" w in
  if missing cardName then (false, showError "Please enter cardholder name" w)
  else if missing cardNumber then (false, showError "Please enter card number" w)
  else if negb (isValidCardNumber (default "" cardNumber)) then
    (false, showError "Please enter a valid card number" w)
  else if missing cardExpiry then (false, showError "Please enter expiry date" w)
  else if negb (isValidExpiryDate (fullYear env) (monthIndex env) (default "" cardExpiry))
  then (false, showError "Please enter a valid expiry date (MM/YY)" w)
  else if missing cardCVV then (false, showError "Please enter CVV" w)
  else if negb (isValidCVV (default "" cardCVV)) then
    (false, showError "Please enter a valid CVV" w)
  else
    let paymentData :=
      mkPaymentData (default "" cardName)
                    (sliceLast 4 (default "" cardNumber))
                    (default "" cardExpiry) in
    (true, setState (withPaymentData (Some paymentData) (bookingState w)) w).

(** [processPayment] *)
Definition processPayment (env : Env) : result PaymentResult :=
  Ok (mkPaymentResult true ("TXN_" +:+ numberString (now env))).

(** [createBooking] *)
Definition createBooking (env : Env) : result BookingDetails :=
  let bookingRef := "SKB-" +:+ toUpperCase (substr 2 6 (random36 env)) in
  Ok (mkBookingDetails bookingRef (now env) (isoString env) "confirmed").

(** [updateConfirmation]: the text of [#bookingReference]. The three objects
    tested first are never [null]; only the flight can be. *)
Definition updateConfirmation (w : World) : World :=
  match selectedFlight (bookingState w) with
  | None => w
  | Some _ =>
      setText "bookingReference"
              (default "" (bookingReference <$> bookingDetails (bookingState w))) w
  end.

(** Sequencing of computations that may throw. *)
#[export] Instance result_bind : MBind result :=
  fun A B k r => match r with Ok a => k a | Throw e => Throw e end.

(** The [try] block of [handlePayment]. *)
Definition confirmBooking (env : Env) (w : World) : result World :=
  _ ← processPayment env;
  bookingResult ← createBooking env;
  let s := withCurrentStep 5 (withBookingDetails (Some bookingResult) (bookingState w)) in
  let w1 := saveBookingState (setState s w) in
  let w2 := navigateToStep 5 w1 in
  Ok (updateConfirmation w2).

(** [handlePayment] *)
Definition handlePayment (env : Env) (w : World) : World :=
  let (valid, w1) := validatePaymentForm env w in
  if negb valid then w1
  else if decide ("confirmBookingBtn" ∈ elements w1) then
    match confirmBooking env w1 with
    | Ok w2 => w2
    | Throw _ => showError "Payment failed. Please try again." w1
    end
  else w1.

(** *** Page load *)

(** The body of the [try] in [initBookingFlow] after [JSON.parse]: reading a
    property of [null] throws before anything is assigned. *)
Definition restoreState (parsedState : option BookingState) (w : World) : result World :=
  match parsedState with
  | None => Throw "TypeError"
  | Some parsed =>
      let s := bookingState w in
      let restored :=
        mkBookingState
          (numOr (Some (currentStep parsed)) 1)
          (match searchData s with
           | None => searchData parsed
           | Some d => Some d
           end)
          (selectedFlight parsed)
          (passengerData parsed)
          (paymentData parsed)
          (bookingDetails parsed) in
      Ok (navigateToStep (currentStep restored) (setState restored w))
  end.

(** [initBookingFlow] *)
Definition initBookingFlow (w : World) : World :=
  match getItemTruthy (bookingStateSlot (localStorage w)) with
  | Some savedState =>
      match parsedState ← JSON_parse savedState; restoreState parsedState w with
      | Ok w' => w'
      | Throw _ => w
      end
  | None => w
  end.

(** [loadSearchData]: the pending search of the homepage replaces the search
    criteria, fills the search form and is removed from the storage. With the
    text [null] the criteria are set to [null] before the first property read
    throws. *)
Definition loadSearchData (w : World) : World :=
  match getItemTruthy (flightSearch (localStorage w)) with
  | Some savedSearch =>
      match JSON_parse savedSearch with
      | Throw _ => w
      | Ok None => setState (withSearchData None (bookingState w)) w
      | Ok (Some searchData) =>
          let w1 := setState (withSearchData (Some searchData) (bookingState w)) w in
          let w2 := setValue "bookingFrom" (orElse (from searchData) "") w1 in
          let w3 := setValue "bookingTo" (orElse (to searchData) "") w2 in
          let w4 := setValue "bookingDeparture" (orElse (departureDate searchData) "") w3 in
          let w5 :=
            match tripType searchData, returnDate searchData with
            | Some t, Some r =>
                if strEq t "round-trip" && truthy r then setValue "bookingReturn" r w4
                else w4
            | _, _ => w4
            end in
          let w6 :=
            match passengers searchData with
            | Some p => setText "bookingPassengers" (passengerText p) w5
            | None => w5
            end in
          setStorage (mkStorage None (bookingStateSlot (localStorage w6))) w6
      end
  | None => w
  end.

(** [initPassengerSelector] up to its first display: the local [passengers]. *)
Definition initPassengerSelector (w : World) : World :=
  if decide (".passenger-display" ∈ elements w ∧ ".passenger-options" ∈ elements w)
  then
    let s := statePassengers (bookingState w) in
    let passengers :=
      mkPassengers (numOr (adults <$> s) 1) (numOr (children <$> s) 0)
                   (numOr (infants <$> s) 0) in
    setText "bookingPassengers" (passengerText passengers)
            (setSelector (Some passengers) w)
  else w.

(** The document as the HTML gives it: the form controls with their initial
    values and the other elements. *)
Record Document := mkDocument {
  docInputs : gmap string string;
  docElements : gset string
}.

(** Modelled from the spec: the HTML of the booking page is not among the
    sources; on a load the document shows the first step, Search (section 4.1),
    as the active one. *)
Definition initialActiveStep (doc : Document) : option Z :=
  if decide (stepId 1 ∈ docElements doc) then Some 1 else None.

(** The page when its script starts: the [bookingState] literal, the storage
    as it was left, the document as the HTML gives it. *)
Definition freshWorld (doc : Document) (storage : Storage) : World :=
  mkWorld initialBookingState storage (docInputs doc) (docElements doc)
          ∅ ∅ [] (initialActiveStep doc) None [].

(** The [DOMContentLoaded] listener. *)
Definition pageLoad (doc : Document) (storage : Storage) : World :=
  initPassengerSelector (loadSearchData (initBookingFlow (freshWorld doc storage))).

(** *** The passenger selector of the booking page *)

(** The click listener of a [.passenger-btn]. *)
Definition selectorClick (type : Home.PassengerType) (action : Home.Action)
    (w : World) : World :=
  match selector w with
  | None => w
  | Some p =>
      match action, type with
      | Home.Increase, Home.Infants =>
          if adults p <=? infants p then w
          else
            let p' := Home.setCount type (Home.count type p + 1) p in
            setText "bookingPassengers" (passengerText p') (setSelector (Some p') w)
      | Home.Increase, _ =>
          let p' := Home.setCount type (Home.count type p + 1) p in
          setText "bookingPassengers" (passengerText p') (setSelector (Some p') w)
      | Home.Decrease, _ =>
          let min := match type with Home.Adults => 1 | _ => 0 end in
          let p' := if min <? Home.count type p
                    then Home.setCount type (Home.count type p - 1) p else p in
          setText "bookingPassengers" (passengerText p') (setSelector (Some p') w)
      end
  end.

(** The click listener of [#applyPassengerChanges]:
    [bookingState.searchData = {...bookingState.searchData, passengers}].
    Spreading [null] gives an object whose other keys are [undefined]; the
    record has empty strings there. *)
Definition selectorApply (w : World) : World :=
  match selector w with
  | None => w
  | Some p =>
      let w1 := setText "bookingPassengers" (passengerText p) w in
      let d :=
        match searchData (bookingState w1) with
        | Some d => mkSearchData (from d) (to d) (departureDate d) (returnDate d)
                                 (tripType d) (Some p)
        | None => mkSearchData "" "" "" None None (Some p)
        end in
      setState (withSearchData (Some d) (bookingState w1)) w1
  end.

(** Two pages with the same session: the record, the storage, the active
    step, the elements, the selector and the errors shown agree; the values of
    the controls, the texts, the styles and the cards may differ. *)
Definition sameSession (w w' : World) : Prop :=
  bookingState w' = bookingState w
  /\ localStorage w' = localStorage w
  /\ activeStep w' = activeStep w
  /\ elements w' = elements w
  /\ selector w' = selector w
  /\ errors w' = errors w.

(** A session record that fits its step: the step is one of the five, a
    flight is selected from PassengerDetails on, and the passenger details are
    entered from Payment on. *)
Definition goodState (s : BookingState) : Prop :=
  1 <= currentStep s <= 5
  /\ (3 <= currentStep s -> selectedFlight s <> None)
  /\ (4 <= currentStep s -> passengerData s <> None).

(** The wizard-session slot is empty or holds such a record. *)
Definition storedGood (slot : option (text BookingState)) : Prop :=
  match slot with
  | None => True
  | Some (Json p) => goodState p
  | Some _ => False
  end.

(** The invariant of the wizard: the record fits its step, the active panel
    is the one of the recorded step, and so is what the storage holds. *)
Definition wizardInvariant (w : World) : Prop :=
  goodState (bookingState w)
  /\ (forall k, activeStep w = Some k -> currentStep (bookingState w) = k)
  /\ storedGood (bookingStateSlot (localStorage w)).

(** *** Events *)

(** Typing into a control: the value is set; the listeners of the card number,
    the expiry date and the departure date then rewrite it or its neighbour. *)
Definition typeInto (elt value : string) (w : World) : World :=
  match inputs w !! elt with
  | None => w
  | Some _ =>
      if strEq elt "cardNumber" then setValue elt (formatCardNumber value) w
      else if strEq elt "cardExpiry" then setValue elt (formatExpiryDate value) w
      else if strEq elt "bookingDeparture" then
        let w1 := setValue elt value w in
        match inputs w1 !! "bookingReturn" with
        | Some r => if truthy r && String.ltb r value
                    then setValue "bookingReturn" "" w1 else w1
        | None => w1
        end
      else setValue elt value w
  end.

Inductive Event :=
| TypeInto (elt value : string)
| SubmitSearch
| SelectorClick (type : Home.PassengerType) (action : Home.Action)
| SelectorApply
| ClickCard (flightId : string)
| ContinueToPassengers
| ModifySearch
| BackToSearch
| ContinueToPayment
| BackToFlights
| ConfirmBooking (env : Env)
| BackToPassenger
| Reload (doc : Document) (pending : option SearchData).

(** The listeners installed by [initEventListeners], [displayFlights] and
    [initPassengerSelector]; a reload runs the page again on the storage, after
    the homepage stored a pending search or not. *)
Definition handle `{Host} (e : Event) (w : World) : World :=
  match e with
  | TypeInto elt value => typeInto elt value w
  | SubmitSearch => handleSearch w
  | SelectorClick type action => selectorClick type action w
  | SelectorApply => selectorApply w
  | ClickCard flightId => selectFlight flightId w
  | ContinueToPassengers =>
      let (valid, w1) := validatePassengerStep w in
      if valid then navigateToStep 3 w1 else w1
  | ModifySearch => navigateToStep 1 w
  | BackToSearch => navigateToStep 1 w
  | ContinueToPayment =>
      let (valid, w1) := validatePassengerDetails w in
      if valid then updatePaymentSummary (navigateToStep 4 w1) else w1
  | BackToFlights => navigateToStep 2 w
  | ConfirmBooking env => handlePayment env w
  | BackToPassenger => navigateToStep 3 w
  | Reload doc pending =>
      let storage :=
        match pending with
        | Some d => mkStorage (Some (JSON_stringify d)) (bookingStateSlot (localStorage w))
        | None => localStorage w
        end in
      pageLoad doc storage
  end.

(** Modelled from the spec: the HTML of the booking page is not among the
    sources. Following the transition table of section 4.1, a control sits in
    the panel of the step it leaves, and only the active panel can be used:
    the search form and the passenger selector in Search (1), the flight cards
    and the buttons to continue, to modify the search and to go back to it in
    FlightResults (2), the passenger form and its two buttons in
    PassengerDetails (3), the payment form and its two buttons in Payment (4).
    Typing and reloading are always possible. *)
Definition panel (e : Event) : option Z :=
  match e with
  | TypeInto _ _ => None
  | Reload _ _ => None
  | SubmitSearch => Some 1
  | SelectorClick _ _ => Some 1
  | SelectorApply => Some 1
  | ClickCard _ => Some 2
  | ContinueToPassengers => Some 2
  | ModifySearch => Some 2
  | BackToSearch => Some 2
  | ContinueToPayment => Some 3
  | BackToFlights => Some 3
  | ConfirmBooking _ => Some 4
  | BackToPassenger => Some 4
  end.

Definition enabled (e : Event) (w : World) : Prop :=
  match panel e with
  | Some k => activeStep w = Some k
  | None => True
  end.

(** The pages a visitor can get to: a first load with no stored session, then
    any enabled events. *)
Inductive reachable `{Host} : World -> Prop :=
| reach_load doc pending :
    reachable (pageLoad doc (mkStorage pending None))
| reach_step w e :
    reachable w -> enabled e w -> reachable (handle e w).

End Booking.

(** ** The confirm button on a storage that can refuse a write *)

Module FallibleStorage.
Import JS Data Validators Booking.

(** Everywhere else [localStorage.setItem] stores what it is given. Here that
    convention is lifted for [handlePayment]: the host may refuse a write, and
    [setItem] then throws (a full or a disabled storage), depending on what
    the storage holds and on the record to be written. *)
Record StorageHost := mkStorageHost {
  refuses : Storage -> BookingState -> bool
}.

(** A part of the [try] block: the page it reached, and whether it threw
    there. What was assigned before a throw stays assigned. *)
Definition saveBookingState (host : StorageHost) (w : World) : World * bool :=
  if refuses host (localStorage w) (bookingState w) then (w, true)
  else (Booking.saveBookingState w, false).

Definition navigateToStep (host : StorageHost) (step : Z) (w : World) : World * bool :=
  let w1 := setActiveStep None w in
  if decide (stepId step ∈ elements w1) then
    let w2 := setActiveStep (Some step) w1 in
    saveBookingState host (setState (withCurrentStep step (bookingState w2)) w2)
  else (w1, false).

(** The [try] block of [handlePayment]. *)
Definition confirmBooking (host : StorageHost) (env : Env) (w : World) : World * bool :=
  match processPayment env with
  | Throw _ => (w, true)
  | Ok _ =>
      match createBooking env with
      | Throw _ => (w, true)
      | Ok bookingResult =>
          let s := withCurrentStep 5
                     (withBookingDetails (Some bookingResult) (bookingState w)) in
          let (w1, thrown1) := saveBookingState host (setState s w) in
          if thrown1 then (w1, true)
          else
            let (w2, thrown2) := navigateToStep host 5 w1 in
            if thrown2 then (w2, true) else (updateConfirmation w2, false)
      end
  end.

(** [handlePayment], with its [catch]. *)
Definition handlePayment (host : StorageHost) (env : Env) (w : World) : World :=
  let (valid, w1) := validatePaymentForm env w in
  if negb valid then w1
  else if decide ("confirmBookingBtn" ∈ elements w1) then
    let (w2, thrown) := confirmBooking host env w1 in
    if thrown then showError "Payment failed. Please try again." w2 else w2
  else w1.

(** A storage that takes no write any more. *)
Definition fullStorage : StorageHost := mkStorageHost (fun _ _ => true).

End FallibleStorage.

(** ** The homepage: looking up a booking ([initMyBookingsForm]) *)

Module HomeLookup.
Import JS Data Validators.

Definition setInputs (i : gmap string string) (w : Home.Page) : Home.Page :=
  Home.mkPage (Home.passengers w) (Home.localStorage w) i
              (Home.elements w) (Home.tripOption w) (Home.errors w)
              (Home.successes w) (Home.location w).

(** The [submit] listener of the form [.bookings-form]: the lookup itself is
    only announced, with [showSuccess] of the homepage script; on success the
    two fields are emptied. *)
Definition submitLookup (w : Home.Page) : Home.Page :=
  match Home.inputs w !! "bookingRef", Home.inputs w !! "bookingEmail" with
  | Some bookingRef, Some bookingEmail =>
      let refValue := trim bookingRef in
      let emailValue := trim bookingEmail in
      if negb (truthy refValue) then
        Home.showError "Please enter your booking reference" w
      else if negb (truthy emailValue) then
        Home.showError "Please enter your email address" w
      else if negb (isValidEmail emailValue) then
        Home.showError "Please enter a valid email address" w
      else
        let w1 := Home.showSuccess "Searching for your booking..." w in
        setInputs (<["bookingEmail" := ""]> (<["bookingRef" := ""]> (Home.inputs w1))) w1
  | _, _ => w
  end.

End HomeLookup.

(** ** The homepage with drop-down passenger fields: the search form *)

Module HomeFieldsForm.
Import JS Data.

(** The page of the second homepage script: the global [passengers] declared
    at its top, the selector (the local [passengers] of
    [initPassengerSelector], which hides the global one inside that
    function), the storage, the form controls, the [data-type] of the active
    trip option ([None] when no option is active, [Some None] when the active
    one has no such attribute), the display of the return date group and the
    address the page was sent to. *)
Record Page := mkPage {
  passengers : Passengers;
  selector : HomeFields.Selector;
  localStorage : Storage;
  inputs : gmap string string;
  activeTrip : option (option string);
  returnGroupDisplay : option string;
  location : option string
}.

(** [showError] of this script builds the message element and never puts it
    into the document (the insertion is commented out): the page stays as it
    is. *)
Definition showError (message : string) (w : Page) : Page := w.

(** The [submit] listener installed by [initFlightSearchForm]. Reading the
    value of a missing control, or the attribute of a missing active option,
    throws before anything is changed. *)
Definition submitSearch (w : Page) : Page :=
  match inputs w !! "fromCity", inputs w !! "toCity", inputs w !! "departureDate",
        inputs w !! "returnDate", activeTrip w with
  | Some fromValue, Some toValue, Some departureDate, Some returnDate, Some tripType =>
      let fromCity := trim fromValue in
      let toCity := trim toValue in
      if negb (truthy fromCity) || negb (truthy toCity) || negb (truthy departureDate)
      then showError "Please fill in all required fields" w
      else if strEq (toLowerCase fromCity) (toLowerCase toCity)
      then showError "Departure and destination cannot be the same" w
      else if bool_decide (tripType = Some "round-trip") && negb (truthy returnDate)
      then showError "Please select return date for round trip" w
      else
        let searchData :=
          mkSearchData fromCity toCity departureDate
                       (if truthy returnDate then Some returnDate else None)
                       tripType (Some (passengers w)) in
        mkPage (passengers w) (selector w)
               (mkStorage (Some (JSON_stringify searchData))
                          (bookingStateSlot (localStorage w)))
               (inputs w) (activeTrip w) (returnGroupDisplay w) (Some "/book/")
  | _, _, _, _, _ => w
  end.

(** The click listener of a list item of the drop-downs: the selector only. *)
Definition selectItem (type : Home.PassengerType) (i : Z) (w : Page) : Page :=
  mkPage (passengers w) (HomeFields.selectItem type i (selector w)) (localStorage w)
         (inputs w) (activeTrip w) (returnGroupDisplay w) (location w).

(** The click listener of a trip option with the given [data-type]; it is
    installed only when the return date group exists. Writing the value of a
    return date control that does not exist throws, after the option and the
    group were updated. *)
Definition chooseTrip (tripType : option string) (w : Page) : Page :=
  let display := if bool_decide (tripType = Some "round-trip") then "block" else "none" in
  let cleared :=
    if bool_decide (tripType = Some "one-way")
    then match inputs w !! "returnDate" with
         | Some _ => <["returnDate" := ""]> (inputs w)
         | None => inputs w
         end
    else inputs w in
  mkPage (passengers w) (selector w) (localStorage w) cleared (Some tripType)
         (Some display) (location w).

(** Typing into a control; the [change] listener of the departure date empties
    a return date that is earlier. *)
Definition typeInto (elt value : string) (w : Page) : Page :=
  match inputs w !! elt with
  | None => w
  | Some _ =>
      let typed := <[elt := value]> (inputs w) in
      let checked :=
        if strEq elt "departureDate" && truthy value then
          match typed !! "returnDate" with
          | Some r => if truthy r && String.ltb r value
                      then <["returnDate" := ""]> typed else typed
          | None => typed
          end
        else typed in
      mkPage (passengers w) (selector w) (localStorage w) checked (activeTrip w)
             (returnGroupDisplay w) (location w)
  end.

Inductive Event :=
| SelectItem (type : Home.PassengerType) (i : Z)
| ChooseTrip (tripType : option string)
| TypeInto (elt value : string)
| Submit.

Definition handle (e : Event) (w : Page) : Page :=
  match e with
  | SelectItem type i => selectItem type i w
  | ChooseTrip tripType => chooseTrip tripType w
  | TypeInto elt value => typeInto elt value w
  | Submit => submitSearch w
  end.

Definition run (events : list Event) (w : Page) : Page :=
  fold_left (fun w e => handle e w) events w.

(** The page when the script has run: the global [passengers] literal and the
    selector after its initial population. *)
Definition loaded (controls : gmap string string) (trip : option (option string))
    (display : option string) (storage : Storage) : Page :=
  mkPage (mkPassengers 1 0 0) HomeFields.initialSelector storage controls trip
         display None.

End HomeFieldsForm.

(** ** A sample page and a sample visit *)

Module Examples.
Import JS Data Booking.

(** A booking page with every control and every element the script looks for. *)
Definition exampleDoc : Document :=
  mkDocument
    (list_to_map
       [("bookingFrom", ""); ("bookingTo", ""); ("bookingDeparture", "");
        ("bookingReturn", ""); ("passengerName", ""); ("passengerEmail", "");
        ("passengerPhone", ""); ("specialRequests", ""); ("cardName", "");
        ("cardNumber", ""); ("cardExpiry", ""); ("cardCVV", "")])
    (list_to_set
       ["step-1"; "step-2"; "step-3"; "step-4"; "step-5"; "flightsResults";
        "noFlights"; "loadingFlights"; "totalPrice"; "bookingReference";
        "confirmBookingBtn"; "bookingPassengers"; ".passenger-display";
        ".passenger-options"]).

(** 3 November 2026; [Math.random()] gave a number whose base-36 form is the
    string below. *)
Definition exampleEnv : Env :=
  mkEnv 1793664000000 "2026-11-03T00:00:00.000Z" 2026 10 "0.k3j5h2kd9f".

(** The search that the homepage stored: a round trip for two adults, a child
    and an infant. *)
Definition roundTripSearch : SearchData :=
  mkSearchData "Abuja" "Lagos" "2026-12-01" (Some "2026-12-10") (Some "round-trip")
               (Some (mkPassengers 2 1 1)).

Definition run (events : list Event) (w : World) : World :=
  fold_left (fun w e => @handle exampleHost e w) events w.

(** The visitor arrives from the homepage and empties the return date. *)
Definition arrived : World :=
  run [TypeInto "bookingReturn" ""]
      (pageLoad exampleDoc (mkStorage (Some (Json roundTripSearch)) None)).

(** Then searches, picks the first flight, gives the passenger details and
    fills the payment form, typing the card number with hyphens. *)
Definition beforeConfirm : World :=
  run [SubmitSearch; ClickCard "SB123"; ContinueToPassengers;
       TypeInto "passengerName" "Ada Obi"; TypeInto "passengerEmail" "ada@example.org";
       TypeInto "passengerPhone" "0800 000 0000"; ContinueToPayment;
       TypeInto "cardName" "Ada Obi"; TypeInto "cardNumber" "4111-1111-1111-1111";
       TypeInto "cardExpiry" "1227"; TypeInto "cardCVV" "123"]
      arrived.

(** And confirms the booking. *)
Definition confirmed : World := run [ConfirmBooking exampleEnv] beforeConfirm.

(** A stored session at the Payment step with nothing else in it. *)
Definition paymentStepOnly : Storage :=
  mkStorage None (Some (Json (mkBookingState 4 None None None None None))).

(** A stored session whose text does not parse. *)
Definition corruptSession : Storage := mkStorage None (Some (Malformed "{oops")).

(** The homepage with a round trip chosen and no return date given. *)
Definition homeRoundTripNoReturn : Home.Page :=
  Home.mkPage Home.initialPassengers (mkStorage None None)
              (list_to_map [("fromCity", "Abuja"); ("toCity", "Lagos");
                            ("departureDate", "2026-12-01"); ("returnDate", "")])
              (list_to_set [".search-btn"; "form .form-grid"]) (Some "round-trip")
              [] [] None.

End Examples.

(** ** Sample homepages *)

Module HomeExamples.
Import JS Data.

(** The homepage with a one-way search typed in for two adults, and the
    lookup form filled in. *)
Definition homeOneWay : Home.Page :=
  Home.mkPage (mkPassengers 2 0 0) (mkStorage None None)
              (list_to_map [("fromCity", " Abuja "); ("toCity", "Lagos");
                            ("departureDate", "2026-12-01"); ("returnDate", "");
                            ("bookingRef", "SKB-K3J5H2");
                            ("bookingEmail", "ada@example.org")])
              (list_to_set [".search-btn"; "form .form-grid"]) (Some "one-way")
              [] [] None.

(** The drop-down variant as it is loaded, with a round trip typed in. *)
Definition fieldsRoundTrip : HomeFieldsForm.Page :=
  HomeFieldsForm.loaded
    (list_to_map [("fromCity", "Abuja"); ("toCity", "Lagos");
                  ("departureDate", "2026-12-01"); ("returnDate", "2026-12-10")])
    (Some (Some "round-trip")) (Some "block") (mkStorage None None).

End HomeExamples.

(** * Properties of the scripts *)

(** ** The card number validator *)

Section CardNumberFacts.
Import JS Data Validators Booking.

Lemma isValidCardNumber_iff (number : string) :
  isValidCardNumber number = true <->
  allChars isDigit (removeWhiteSpace number) = true
  /\ 13 <= len (removeWhiteSpace number) <= 19.
Proof.
  unfold isValidCardNumber. cbv zeta.
  destruct (allChars isDigit (removeWhiteSpace number)); simpl;
    destruct (Z.leb_spec 1 (len (removeWhiteSpace number)));
    destruct (Z.ltb_spec (len (removeWhiteSpace number)) 13);
    destruct (Z.ltb_spec 19 (len (removeWhiteSpace number)));
    destruct (Z.leb_spec 13 (len (removeWhiteSpace number)));
    destruct (Z.leb_spec (len (removeWhiteSpace number)) 19);
    simpl; split; try discriminate; try lia; intros [? ?]; try discriminate; lia.
Qed.

(** C8, the claim as stated fails: the hyphenated number of the scenario has
    no blank to strip, keeps its hyphens and is rejected by the validator. *)
Lemma hyphenated_card_number_rejected :
  removeWhiteSpace "4111-1111-1111-1111" = "4111-1111-1111-1111"
  /\ isValidCardNumber "4111-1111-1111-1111" = false.
Proof. split; vm_compute; reflexivity. Qed.

(** C8 (amended): [isValidCardNumber] accepts a string exactly when, with its
    blanks removed, it is 13 to 19 decimal digits. The number written with
    spaces is accepted, the one written with hyphens is rejected (the hyphens
    are removed by the input listener [formatCardNumber], which leaves the
    spaced form in the field), and "123" is rejected. *)
Theorem isValidCardNumber_accepts_13_to_19_digits :
  (forall number : string,
      isValidCardNumber number = true <->
      allChars isDigit (removeWhiteSpace number) = true
      /\ 13 <= len (removeWhiteSpace number) <= 19)
  /\ isValidCardNumber "4111 1111 1111 1111" = true
  /\ len (removeWhiteSpace "4111 1111 1111 1111") = 16
  /\ isValidCardNumber "4111-1111-1111-1111" = false
  /\ formatCardNumber "4111-1111-1111-1111" = "4111 1111 1111 1111"
  /\ isValidCardNumber "123" = false.
Proof.
  split; [exact isValidCardNumber_iff |].
  repeat split; vm_compute; reflexivity.
Qed.

End CardNumberFacts.

(** ** The passenger selectors of the homepage *)

Section SelectorFacts.
Import Data Home.

(** X1: on the homepage selector, asking for one infant more when the infants
    already equal (or exceed) the adults changes no count: a no-op. *)
Lemma increase_infants_at_bound_is_noop (p : Passengers) :
  adults p <= infants p -> passengerClick Infants Increase p = p.
Proof.
  intros Hle. unfold passengerClick; simpl.
  destruct (Z.ltb_spec (infants p) (adults p)); [lia | reflexivity].
Qed.

(** X2: every click of the homepage selector other than "one adult less"
    keeps the infants within the adults. *)
Lemma click_keeps_infant_bound (type : PassengerType) (action : Action) (p : Passengers) :
  (type, action) <> (Adults, Decrease) ->
  infantsWithinAdults p -> infantsWithinAdults (passengerClick type action p).
Proof.
  unfold infantsWithinAdults, passengerClick.
  intros Hne Hp. destruct type, action; try congruence; simpl;
    repeat match goal with
           | |- context [if ?a <? ?b then _ else _] => destruct (Z.ltb_spec a b)
           end; simpl; lia.
Qed.

(** C4, at the failing input: from the initial selector, one more adult and
    two infants are accepted; one adult less then leaves two infants with one
    adult, on the homepage and in its drop-down variant alike. *)
Theorem decrease_adults_breaks_infant_bound :
  clicks [(Adults, Increase); (Infants, Increase); (Infants, Increase)]
         initialPassengers = mkPassengers 2 0 2
  /\ passengerClick Adults Decrease (mkPassengers 2 0 2) = mkPassengers 1 0 2
  /\ ~ infantsWithinAdults (passengerClick Adults Decrease (mkPassengers 2 0 2))
  /\ HomeFields.passengers
       (HomeFields.selectItem Adults 1
          (HomeFields.selectItem Infants 2
             (HomeFields.selectItem Adults 2 HomeFields.initialSelector)))
     = mkPassengers 1 0 2.
Proof.
  repeat split; try reflexivity.
  unfold infantsWithinAdults; simpl; lia.
Qed.

(** X5: whatever is clicked on the homepage selector, there is at least one
    adult and at most nine, and the children and the infants stay between
    zero and nine. *)
Theorem clicks_keep_counts_in_range :
  forall l : list (PassengerType * Action),
    1 <= adults (clicks l initialPassengers) <= 9
    /\ 0 <= children (clicks l initialPassengers) <= 9
    /\ 0 <= infants (clicks l initialPassengers) <= 9.
Proof.
  intros l. unfold clicks.
  assert (forall p : Passengers,
             (1 <= adults p <= 9 /\ 0 <= children p <= 9 /\ 0 <= infants p <= 9) ->
             let q := fold_left (fun q c => passengerClick (fst c) (snd c) q) l p in
             1 <= adults q <= 9 /\ 0 <= children q <= 9 /\ 0 <= infants q <= 9) as Hgen.
  { induction l as [| [type action] l IH]; intros p Hp; [exact Hp |].
    cbn [fold_left fst snd]. apply IH.
    unfold passengerClick. destruct type, action; simpl;
      repeat match goal with
             | |- context [if ?a <? ?b then _ else _] => destruct (Z.ltb_spec a b)
             end; simpl; lia. }
  apply Hgen. simpl. lia.
Qed.

Lemma increase_infants_at_bound_witness :
  passengerClick Infants Increase (mkPassengers 2 0 2) = mkPassengers 2 0 2.
Proof. apply (increase_infants_at_bound_is_noop (mkPassengers 2 0 2)). simpl. lia. Defined.

Lemma click_keeps_infant_bound_witness :
  infantsWithinAdults (passengerClick Adults Increase (mkPassengers 2 0 2)).
Proof.
  apply (click_keeps_infant_bound Adults Increase (mkPassengers 2 0 2)).
  - discriminate.
  - unfold infantsWithinAdults. simpl. lia.
Defined.

End SelectorFacts.

(** ** The wizard of the booking page *)

Section WizardFacts.
Import JS Data Validators Booking.
Context `{Host}.

(** *** What the small operations leave alone *)

Ltac open_ops :=
  unfold showLoading, setText, setStyleDisplay, setValue, showError,
         saveBookingState, navigateToStep in *.

Ltac frame :=
  intros; open_ops; repeat case_decide; repeat case_match; simpl in *;
  repeat split; try reflexivity; try congruence; try done.

Lemma navigateToStep_display step w : display (navigateToStep step w) = display w.
Proof. frame. Qed.

Lemma navigateToStep_errors step w : errors (navigateToStep step w) = errors w.
Proof. frame. Qed.

(** When the panel exists, [navigateToStep] records the step and persists the
    record it leaves. *)
Lemma navigateToStep_present step w :
  stepId step ∈ elements w ->
  bookingState (navigateToStep step w) = withCurrentStep step (bookingState w)
  /\ activeStep (navigateToStep step w) = Some step
  /\ bookingStateSlot (localStorage (navigateToStep step w))
     = Some (Json (withCurrentStep step (bookingState w))).
Proof. frame. Qed.

Lemma navigateToStep_absent step w :
  stepId step ∉ elements w ->
  bookingState (navigateToStep step w) = bookingState w
  /\ activeStep (navigateToStep step w) = None
  /\ localStorage (navigateToStep step w) = localStorage w.
Proof. frame. Qed.

Lemma showLoading_noFlights show w :
  display (showLoading show w) !! "noFlights" = display w !! "noFlights".
Proof.
  unfold showLoading, setStyleDisplay. case_decide; [| reflexivity].
  simpl. by rewrite lookup_insert_ne.
Qed.

Lemma displayFlights_noFlights (flights : list Flight) w :
  flights <> [] ->
  display (displayFlights flights w) !! "noFlights" = display w !! "noFlights"
  \/ display (displayFlights flights w) !! "noFlights" = Some "none".
Proof.
  intros Hne. unfold displayFlights.
  case_decide; [| by left].
  destruct flights as [| f l]; [done |].
  unfold setStyleDisplay; simpl. case_decide; simpl; [right | left]; [| done].
  by rewrite lookup_insert_eq.
Qed.

(** *** The mocked search *)

(** C10: [searchFlightsAPI] always answers with exactly three offers, whose
    cities are the searched ones (Abuja and Lagos when a field is empty); so
    [displayFlights] is never handed an empty list by a search, and
    [handleSearch] never turns the no-flights notice on: it leaves its display
    as it was or sets it to "none". *)
Theorem searchFlightsAPI_three_offers :
  forall searchData : SearchData,
    length (searchFlightsAPI searchData) = 3%nat
    /\ Forall (fun f => departureCity f = orElse (from searchData) "Abuja"
                        /\ arrivalCity f = orElse (to searchData) "Lagos")
              (searchFlightsAPI searchData)
    /\ searchFlightsAPI searchData <> []
    /\ forall w : World,
        display (handleSearch w) !! "noFlights" = display w !! "noFlights"
        \/ display (handleSearch w) !! "noFlights" = Some "none".
Proof.
  intros searchData. split; [reflexivity |].
  split; [repeat constructor |].
  split; [discriminate |].
  intros w. unfold handleSearch.
  repeat case_match; try (by left).
  rewrite showLoading_noFlights, navigateToStep_display.
  match goal with
  | |- context [displayFlights ?fl ?w0] =>
      destruct (displayFlights_noFlights fl w0) as [Heq | Heq]; [discriminate | |]
  end.
  - left. rewrite Heq. rewrite showLoading_noFlights. reflexivity.
  - by right.
Qed.

(** *** The simulated payment *)

Lemma validatePaymentForm_errors env w :
  exists new, errors (snd (validatePaymentForm env w)) = (errors w ++ new)%list
              /\ "Payment failed. Please try again." ∉ new.
Proof.
  unfold validatePaymentForm.
  repeat case_match; simpl;
    try (eexists [_]; split; [reflexivity |];
         rewrite list_elem_of_singleton; discriminate).
  exists []. rewrite app_nil_r. split; [reflexivity | apply not_elem_of_nil].
Qed.

Lemma updateConfirmation_errors w : errors (updateConfirmation w) = errors w.
Proof. unfold updateConfirmation. frame. Qed.

(** *** Prices *)

Lemma showLoading_core show w :
  bookingState (showLoading show w) = bookingState w
  /\ localStorage (showLoading show w) = localStorage w
  /\ activeStep (showLoading show w) = activeStep w
  /\ errors (showLoading show w) = errors w
  /\ elements (showLoading show w) = elements w
  /\ cards (showLoading show w) = cards w.
Proof. frame. Qed.

Lemma displayFlights_core (flights : list Flight) w :
  bookingState (displayFlights flights w) = bookingState w
  /\ localStorage (displayFlights flights w) = localStorage w
  /\ activeStep (displayFlights flights w) = activeStep w
  /\ errors (displayFlights flights w) = errors w
  /\ elements (displayFlights flights w) = elements w.
Proof. unfold displayFlights. frame. Qed.

Lemma displayFlights_cards (flights : list Flight) w :
  "flightsResults" ∈ elements w ->
  cards (displayFlights flights w) = renderCard (bookingState w) <$> flights.
Proof.
  intros Hin. unfold displayFlights. case_decide; [| done].
  destruct flights; unfold setStyleDisplay; simpl; case_decide; reflexivity.
Qed.

Lemma renderCard_total (s : BookingState) (flight : Flight) :
  adults (passengersOrDefault s) <> 0 ->
  cardTotal (renderCard s flight)
  = "$" +:+ toFixed2 (PrimFloat.mul (price flight) (Z2F (seats (passengersOrDefault s)))).
Proof.
  unfold renderCard, passengersOrDefault, seats, numOr. simpl.
  destruct (statePassengers s) as [p |]; simpl; [| reflexivity].
  intros Hne. destruct (Z.eqb_spec (adults p) 0); [done |].
  destruct (Z.eqb_spec (children p) 0) as [-> |]; reflexivity.
Qed.

(** C2: with at least one adult among the passengers in force (those of the
    search, or one adult when there are none), every card rendered by
    [displayFlights] and the total of the payment summary show the price of a
    seat multiplied, as doubles, by adults + children, printed with two
    decimals after a dollar sign; the infants do not enter the multiplier. An
    offer at 199.99 for two adults and a child shows 599.97. *)
Theorem displayed_total_is_price_times_adults_and_children :
  forall w : World,
    adults (passengersOrDefault (bookingState w)) <> 0 ->
    let p := passengersOrDefault (bookingState w) in
    let total (f : Flight) :=
      "$" +:+ toFixed2 (PrimFloat.mul (price f) (Z2F (adults p + children p))) in
    (forall flights : list Flight,
        "flightsResults" ∈ elements w ->
        cardTotal <$> cards (displayFlights flights w) = total <$> flights)
    /\ (forall flight : Flight,
           selectedFlight (bookingState w) = Some flight ->
           "totalPrice" ∈ elements w ->
           texts (updatePaymentSummary w) !! "totalPrice" = Some (total flight))
    /\ (forall n : Z, seats (Home.setCount Home.Infants n p) = adults p + children p)
    /\ toFixed2 (PrimFloat.mul 199.99 (Z2F (2 + 1))) = "599.97".
Proof.
  intros w Hadults p total. split; [| split; [| split]].
  - intros flights Hin. rewrite (displayFlights_cards _ _ Hin).
    rewrite <- list_fmap_compose. apply list_fmap_ext.
    intros i f _. unfold compose. by rewrite renderCard_total.
  - intros flight Hsel Hin. unfold updatePaymentSummary. rewrite Hsel.
    unfold setText. case_decide; [| done]. simpl. by rewrite lookup_insert_eq.
  - intros n. reflexivity.
  - vm_compute. reflexivity.
Qed.

(** *** The search forms *)

Lemma snoc_neq {A : Type} (l : list A) (x : A) : (l ++ [x])%list <> l.
Proof.
  intros Heq. apply (f_equal (@length A)) in Heq.
  rewrite length_app in Heq. simpl in Heq. lia.
Qed.

(** What [handleSearch] does when the four controls exist, by the outcome of
    its checks. *)
Lemma handleSearch_cases w bookingFrom bookingTo bookingDeparture bookingReturn :
  inputs w !! "bookingFrom" = Some bookingFrom ->
  inputs w !! "bookingTo" = Some bookingTo ->
  inputs w !! "bookingDeparture" = Some bookingDeparture ->
  inputs w !! "bookingReturn" = Some bookingReturn ->
  stepId 2 ∈ elements w ->
  let searchData :=
    mkSearchData (trim bookingFrom) (trim bookingTo) bookingDeparture
                 (Some bookingReturn) None
                 (Some (passengersOrDefault (bookingState w))) in
  if truthy (trim bookingFrom) && truthy (trim bookingTo)
     && negb (strEq (toLowerCase (trim bookingFrom)) (toLowerCase (trim bookingTo)))
     && truthy bookingDeparture
  then
    bookingState (handleSearch w)
    = withCurrentStep 2 (withSearchData (Some searchData) (bookingState w))
    /\ activeStep (handleSearch w) = Some 2
    /\ errors (handleSearch w) = errors w
    /\ bookingStateSlot (localStorage (handleSearch w))
       = Some (Json (bookingState (handleSearch w)))
  else
    bookingState (handleSearch w) = bookingState w
    /\ localStorage (handleSearch w) = localStorage w
    /\ activeStep (handleSearch w) = activeStep w
    /\ exists message, errors (handleSearch w) = (errors w ++ [message])%list.
Proof.
  intros Hf Ht Hd Hr Hstep searchData. unfold handleSearch.
  rewrite Hf, Ht, Hd, Hr. cbv zeta. cbn [from to departureDate].
  destruct (truthy (trim bookingFrom)); cbn [negb andb]; [| by eauto 10].
  destruct (truthy (trim bookingTo)); cbn [negb andb]; [| by eauto 10].
  destruct (strEq _ _); cbn [negb andb]; [by eauto 10 |].
  destruct (truthy bookingDeparture); cbn [negb andb]; [| by eauto 10].
  fold searchData.
  set (w1 := setState (withSearchData (Some searchData) (bookingState w)) w).
  set (w3 := displayFlights (searchFlightsAPI searchData) (showLoading true w1)).
  assert (elements w3 = elements w) as Hel.
  { unfold w3.
    destruct (displayFlights_core (searchFlightsAPI searchData) (showLoading true w1))
      as (_ & _ & _ & _ & ->).
    by destruct (showLoading_core true w1) as (_ & _ & _ & _ & -> & _). }
  assert (bookingState w3 = bookingState w1 /\ errors w3 = errors w) as [Hst Herr].
  { unfold w3.
    destruct (displayFlights_core (searchFlightsAPI searchData) (showLoading true w1))
      as (-> & _ & _ & -> & _).
    by destruct (showLoading_core true w1) as (-> & _ & _ & -> & _). }
  destruct (showLoading_core false (navigateToStep 2 w3)) as (-> & -> & -> & -> & _).
  rewrite navigateToStep_errors.
  destruct (navigateToStep_present 2 w3) as (-> & -> & ->); [by rewrite Hel |].
  by rewrite Hst, Herr.
Qed.

(** What the two message functions of the homepage leave alone, and when the
    message gets into the document. *)
Lemma homeShowError_frame (msg : string) (page : Home.Page) :
  Home.localStorage (Home.showError msg page) = Home.localStorage page
  /\ Home.location (Home.showError msg page) = Home.location page
  /\ Home.inputs (Home.showError msg page) = Home.inputs page
  /\ Home.successes (Home.showError msg page) = Home.successes page
  /\ Home.errors (Home.showError msg page)
     = if Home.hasMessageForm page then (Home.errors page ++ [msg])%list
       else Home.errors page.
Proof. unfold Home.showError. by destruct (Home.hasMessageForm page). Qed.

Lemma homeShowSuccess_frame (msg : string) (page : Home.Page) :
  Home.localStorage (Home.showSuccess msg page) = Home.localStorage page
  /\ Home.location (Home.showSuccess msg page) = Home.location page
  /\ Home.inputs (Home.showSuccess msg page) = Home.inputs page
  /\ Home.errors (Home.showSuccess msg page) = Home.errors page
  /\ Home.successes (Home.showSuccess msg page)
     = if Home.hasMessageForm page then (Home.successes page ++ [msg])%list
       else Home.successes page.
Proof. unfold Home.showSuccess. by destruct (Home.hasMessageForm page). Qed.

Lemma storeAndRedirect_frame (formData : SearchData) (page : Home.Page) :
  Home.localStorage (Home.storeAndRedirect formData page)
  = mkStorage (Some (Json formData)) (bookingStateSlot (Home.localStorage page))
  /\ Home.location (Home.storeAndRedirect formData page) = Some "/book/"
  /\ Home.errors (Home.storeAndRedirect formData page) = Home.errors page.
Proof.
  unfold Home.storeAndRedirect. cbv zeta.
  cbn [Home.localStorage Home.location Home.errors].
  match goal with
  | |- context [Home.showSuccess ?m ?p] =>
      destruct (homeShowSuccess_frame m p) as (-> & _ & _ & -> & _)
  end.
  done.
Qed.

Ltac rejected :=
  match goal with
  | |- context [Home.showError ?m ?p] =>
      destruct (homeShowError_frame m p) as (-> & -> & _ & _ & ->)
  end; by eauto 10.

Lemma homeSubmit_cases (page : Home.Page) fromCity toCity departure :
  Home.inputs page !! "fromCity" = Some fromCity ->
  Home.inputs page !! "toCity" = Some toCity ->
  Home.inputs page !! "departureDate" = Some departure ->
  ".search-btn" ∈ Home.elements page ->
  if truthy (trim fromCity) && truthy (trim toCity)
     && negb (strEq (toLowerCase (trim fromCity)) (toLowerCase (trim toCity)))
     && truthy departure
     && (if bool_decide (Home.tripOption page = Some "round-trip")
         then match Home.inputs page !! "returnDate" with
              | Some r => truthy r
              | None => false
              end
         else true)
  then
    (exists formData,
        Home.localStorage (Home.submitSearch page)
        = mkStorage (Some (Json formData)) (bookingStateSlot (Home.localStorage page))
        /\ from formData = trim fromCity /\ to formData = trim toCity
        /\ departureDate formData = departure)
    /\ Home.location (Home.submitSearch page) = Some "/book/"
    /\ Home.errors (Home.submitSearch page) = Home.errors page
  else
    Home.localStorage (Home.submitSearch page) = Home.localStorage page
    /\ Home.location (Home.submitSearch page) = Home.location page
    /\ exists message,
        Home.errors (Home.submitSearch page)
        = if Home.hasMessageForm page then (Home.errors page ++ [message])%list
          else Home.errors page.
Proof.
  intros Hf Ht Hd Hbtn. unfold Home.submitSearch.
  rewrite Hf, Ht, Hd. cbv zeta. cbn [from to departureDate Data.passengers].
  destruct (truthy (trim fromCity)); cbn [negb andb]; [| rejected].
  destruct (truthy (trim toCity)); cbn [negb andb]; [| rejected].
  destruct (strEq (toLowerCase (trim fromCity)) (toLowerCase (trim toCity)));
    cbn [negb andb]; [rejected |].
  destruct (truthy departure); cbn [negb andb]; [| rejected].
  case_bool_decide as Htrip.
  - rewrite Htrip. cbn [truthy]. unfold strEq. rewrite bool_decide_eq_true_2 by done.
    destruct (Home.inputs page !! "returnDate") as [r |] eqn:Hr; [| rejected].
    destruct (truthy r); [| rejected].
    rewrite decide_True by done.
    match goal with
    | |- context [Home.storeAndRedirect ?fd page] =>
        destruct (storeAndRedirect_frame fd page) as (-> & -> & ->)
    end.
    by eauto 10.
  - assert (strEq (match Home.tripOption page with
                   | Some t => if truthy t then t else "one-way"
                   | None => "one-way"
                   end) "round-trip" = false) as ->.
    { unfold strEq. apply bool_decide_eq_false_2.
      destruct (Home.tripOption page) as [t |]; [| discriminate].
      destruct t; cbn [truthy]; [discriminate |]. intros Heq. apply Htrip. by rewrite Heq. }
    rewrite decide_True by done.
    match goal with
    | |- context [Home.storeAndRedirect ?fd page] =>
        destruct (storeAndRedirect_frame fd page) as (-> & -> & ->)
    end.
    by eauto 10.
Qed.

(** C1 (amended): when the search form of the wizard is submitted, the step
    from Search to FlightResults is taken exactly when origin and destination
    are non-empty after trimming and differ without regard to case, and a
    departure date is present; the wizard's form has no trip type and an empty
    return date does not hold it back. When a check fails one error is shown
    and the session record, the storage and the active step are unchanged.
    The return date of a round trip is required by the homepage form only,
    which stores the pending search exactly under the four conditions; when
    one of them fails it stores nothing, stays on the page and builds one
    error message, which gets into the document exactly when the page has a
    form with a [.form-grid] or a [.bookings-form] descendant to put it in. *)
Theorem search_transition_guard :
  (forall (w : World) (bookingFrom bookingTo bookingDeparture bookingReturn : string),
      inputs w !! "bookingFrom" = Some bookingFrom ->
      inputs w !! "bookingTo" = Some bookingTo ->
      inputs w !! "bookingDeparture" = Some bookingDeparture ->
      inputs w !! "bookingReturn" = Some bookingReturn ->
      stepId 2 ∈ elements w ->
      let guard :=
        truthy (trim bookingFrom) && truthy (trim bookingTo)
        && negb (strEq (toLowerCase (trim bookingFrom)) (toLowerCase (trim bookingTo)))
        && truthy bookingDeparture in
      (guard = true <->
       activeStep (handleSearch w) = Some 2 /\ errors (handleSearch w) = errors w)
      /\ (guard = true ->
          currentStep (bookingState (handleSearch w)) = 2
          /\ bookingStateSlot (localStorage (handleSearch w))
             = Some (Json (bookingState (handleSearch w))))
      /\ (guard = false ->
          bookingState (handleSearch w) = bookingState w
          /\ localStorage (handleSearch w) = localStorage w
          /\ activeStep (handleSearch w) = activeStep w
          /\ exists message, errors (handleSearch w) = (errors w ++ [message])%list))
  /\ (forall (page : Home.Page) (fromCity toCity departure : string),
         Home.inputs page !! "fromCity" = Some fromCity ->
         Home.inputs page !! "toCity" = Some toCity ->
         Home.inputs page !! "departureDate" = Some departure ->
         ".search-btn" ∈ Home.elements page ->
         let guard :=
           truthy (trim fromCity) && truthy (trim toCity)
           && negb (strEq (toLowerCase (trim fromCity)) (toLowerCase (trim toCity)))
           && truthy departure
           && (if bool_decide (Home.tripOption page = Some "round-trip")
               then match Home.inputs page !! "returnDate" with
                    | Some r => truthy r
                    | None => false
                    end
               else true) in
         (guard = true ->
          Home.location (Home.submitSearch page) = Some "/book/"
          /\ Home.errors (Home.submitSearch page) = Home.errors page
          /\ exists formData,
              flightSearch (Home.localStorage (Home.submitSearch page))
              = Some (Json formData))
         /\ (guard = false ->
             Home.localStorage (Home.submitSearch page) = Home.localStorage page
             /\ Home.location (Home.submitSearch page) = Home.location page
             /\ exists message,
                 Home.errors (Home.submitSearch page)
                 = if Home.hasMessageForm page
                   then (Home.errors page ++ [message])%list
                   else Home.errors page)).
Proof.
  split.
  - intros w f t d r Hf Ht Hd Hr Hstep guard.
    pose proof (handleSearch_cases w f t d r Hf Ht Hd Hr Hstep) as Hc.
    cbv zeta in Hc. fold guard in Hc. destruct guard.
    + destruct Hc as (Hs & Ha & He & Hl). split; [done |]. split; [| done].
      intros _. split; [| done]. by rewrite Hs.
    + destruct Hc as (Hs & Hl & Ha & msg & He). split; [| split; [done |]].
      * split; [done |]. intros [_ He']. rewrite He in He'.
        by apply snoc_neq in He'.
      * intros _. eauto.
  - intros page f t d Hf Ht Hd Hbtn guard.
    pose proof (homeSubmit_cases page f t d Hf Ht Hd Hbtn) as Hc.
    fold guard in Hc. destruct guard.
    + destruct Hc as ((formData & Hl & _) & Hloc & He). split; [| done].
      intros _. split; [done |]. split; [done |]. exists formData. by rewrite Hl.
    + split; [done |]. intros _. exact Hc.
Qed.

(** *** Operations on the view leave the session alone *)

Ltac proj :=
  cbn [bookingState localStorage inputs elements texts display cards activeStep
       selector errors setState setStorage setInputs setTexts setDisplay setCards
       setActiveStep setSelector showError
       currentStep searchData selectedFlight passengerData paymentData bookingDetails
       withSearchData withCurrentStep withSelectedFlight withPassengerData
       withPaymentData withBookingDetails flightSearch bookingStateSlot] in *.

Lemma sameSession_refl w : sameSession w w.
Proof. by repeat split. Qed.

Lemma sameSession_trans w1 w2 w3 :
  sameSession w1 w2 -> sameSession w2 w3 -> sameSession w1 w3.
Proof.
  intros (? & ? & ? & ? & ? & ?) (? & ? & ? & ? & ? & ?).
  repeat split; congruence.
Qed.

Lemma setText_sameSession elt t w : sameSession w (setText elt t w).
Proof. unfold setText. case_decide; by repeat split. Qed.

Lemma setValue_sameSession elt v w : sameSession w (setValue elt v w).
Proof. unfold setValue. case_match; by repeat split. Qed.

Lemma setStyleDisplay_sameSession elt d w : sameSession w (setStyleDisplay elt d w).
Proof. unfold setStyleDisplay. case_decide; by repeat split. Qed.

Ltac same_session :=
  repeat first
    [ apply sameSession_refl
    | eapply sameSession_trans;
      [| first [ apply setText_sameSession | apply setValue_sameSession
               | apply setStyleDisplay_sameSession ] ] ].

Lemma typeInto_sameSession elt value w : sameSession w (typeInto elt value w).
Proof.
  unfold typeInto. destruct (inputs w !! elt); [| apply sameSession_refl].
  repeat case_match; same_session.
Qed.

(** [loadSearchData] touches the search criteria, the pending slot and the
    view only. *)
Lemma loadSearchData_keeps w :
  exists d,
    bookingState (loadSearchData w) = withSearchData d (bookingState w)
    /\ bookingStateSlot (localStorage (loadSearchData w)) = bookingStateSlot (localStorage w)
    /\ activeStep (loadSearchData w) = activeStep w
    /\ elements (loadSearchData w) = elements w
    /\ errors (loadSearchData w) = errors w.
Proof.
  unfold loadSearchData.
  destruct (getItemTruthy (flightSearch (localStorage w))) as [savedSearch |];
    [| exists (searchData (bookingState w)); by destruct (bookingState w)].
  destruct savedSearch as [raw | | searchData]; cbn [JSON_parse].
  - exists (Data.searchData (bookingState w)). by destruct (bookingState w).
  - by exists None.
  - exists (Some searchData). cbv zeta.
    match goal with
    | |- context [setStorage _ ?w6] =>
        assert (sameSession
                  (setState (withSearchData (Some searchData) (bookingState w)) w) w6)
          as (Hs & Hl & Ha & He & _ & Hr)
    end.
    { repeat case_match; same_session. }
    proj. by rewrite Hs, Hl, Ha, He, Hr.
Qed.

Lemma initPassengerSelector_keeps w :
  bookingState (initPassengerSelector w) = bookingState w
  /\ localStorage (initPassengerSelector w) = localStorage w
  /\ activeStep (initPassengerSelector w) = activeStep w
  /\ elements (initPassengerSelector w) = elements w
  /\ errors (initPassengerSelector w) = errors w.
Proof.
  unfold initPassengerSelector. case_decide; [| done].
  match goal with
  | |- context [setText ?e ?t ?w0] =>
      destruct (setText_sameSession e t w0) as (-> & -> & -> & -> & _ & ->)
  end.
  done.
Qed.

(** *** Payment and confirmation *)

(** A successful validation read the four controls, found a card number of 13
    to 19 digits, and stored the name, the last four digits and the expiry. *)
Lemma validatePaymentForm_true env w w' :
  validatePaymentForm env w = (true, w') ->
  exists cardName cardNumber cardExpiry cardCVV,
    inputs w !! "cardName" = Some cardName
    /\ inputs w !! "cardNumber" = Some cardNumber
    /\ inputs w !! "cardExpiry" = Some cardExpiry
    /\ inputs w !! "cardCVV" = Some cardCVV
    /\ isValidCardNumber (removeWhiteSpace (trim cardNumber)) = true
    /\ w' = setState
              (withPaymentData
                 (Some (mkPaymentData (trim cardName)
                          (sliceLast 4 (removeWhiteSpace (trim cardNumber)))
                          (trim cardExpiry)))
                 (bookingState w)) w.
Proof.
  unfold validatePaymentForm, trimmedValue. cbv zeta.
  destruct (inputs w !! "cardName") as [cardName |];
    cbn [fmap option_fmap option_map missing default from_option Datatypes.id negb];
    [| discriminate].
  destruct (truthy (trim cardName)); cbn [negb]; [| discriminate].
  destruct (inputs w !! "cardNumber") as [cardNumber |];
    cbn [fmap option_fmap option_map missing default from_option Datatypes.id negb];
    [| discriminate].
  destruct (truthy (removeWhiteSpace (trim cardNumber))); cbn [negb]; [| discriminate].
  destruct (isValidCardNumber (removeWhiteSpace (trim cardNumber))) eqn:Hnum;
    cbn [negb]; [| discriminate].
  destruct (inputs w !! "cardExpiry") as [cardExpiry |];
    cbn [fmap option_fmap option_map missing default from_option Datatypes.id negb];
    [| discriminate].
  destruct (truthy (trim cardExpiry)); cbn [negb]; [| discriminate].
  destruct (isValidExpiryDate _ _ _); cbn [negb]; [| discriminate].
  destruct (inputs w !! "cardCVV") as [cardCVV |];
    cbn [fmap option_fmap option_map missing default from_option Datatypes.id negb];
    [| discriminate].
  destruct (truthy (trim cardCVV)); cbn [negb]; [| discriminate].
  destruct (isValidCVV _); cbn [negb]; [| discriminate].
  intros [= <-]. by eauto 10.
Qed.

Lemma validatePaymentForm_false env w w' :
  validatePaymentForm env w = (false, w') -> exists message, w' = showError message w.
Proof.
  unfold validatePaymentForm. cbv zeta.
  repeat (match goal with
          | |- context [if ?b then _ else _] => destruct b
          end; [try (intros [= <-]; by eauto) | try (intros [= <-]; by eauto)]).
Qed.

(** C3 (amended): when a booking is created (the payment form is valid and
    the confirm button, the confirmation panel and the reference element
    exist, a flight being selected), the wizard is in Confirmation (step 5)
    with the booking returned by [createBooking], its reference is shown
    verbatim, and the wizard-session slot holds the final session record: it
    is written, not cleared. The pending-search slot is left as it was (it is
    emptied earlier, when a page load consumes the pending search). *)
Theorem booking_success_persists_session_and_shows_reference :
  forall (env : Env) (w : World),
    fst (validatePaymentForm env w) = true ->
    "confirmBookingBtn" ∈ elements w ->
    stepId 5 ∈ elements w ->
    "bookingReference" ∈ elements w ->
    selectedFlight (bookingState w) <> None ->
    exists booking : BookingDetails,
      createBooking env = Ok booking
      /\ currentStep (bookingState (handlePayment env w)) = 5
      /\ activeStep (handlePayment env w) = Some 5
      /\ bookingDetails (bookingState (handlePayment env w)) = Some booking
      /\ texts (handlePayment env w) !! "bookingReference" = Some (bookingReference booking)
      /\ bookingStateSlot (localStorage (handlePayment env w))
         = Some (Json (bookingState (handlePayment env w)))
      /\ flightSearch (localStorage (handlePayment env w))
         = flightSearch (localStorage w).
Proof.
  intros env w Hvalid Hbtn Hstep Href Hflight.
  unfold handlePayment.
  destruct (validatePaymentForm env w) as [valid w1] eqn:Hv. simpl in Hvalid. subst valid.
  destruct (validatePaymentForm_true _ _ _ Hv) as (n & c & e & v & _ & _ & _ & _ & _ & ->).
  cbn [negb]. proj. case_decide; [| done].
  eexists. split; [reflexivity |].
  unfold confirmBooking, processPayment, createBooking.
  cbn [mbind result_bind].
  unfold updateConfirmation, navigateToStep, saveBookingState. proj.
  case_decide; [| done]. proj.
  destruct (selectedFlight (bookingState w)); [| done].
  unfold setText. proj. case_decide; [| done]. proj.
  by rewrite lookup_insert_eq.
Qed.

(** *** Restoring the session *)

(** C7: when the wizard-session slot holds text that [JSON.parse] rejects,
    [initBookingFlow] catches the exception and changes nothing: on a page
    load the controller is the fresh session at step 1, and after the whole
    load listener the step is still 1, nothing is selected or entered and no
    error is shown. *)
Theorem corrupt_session_restores_fresh_state :
  forall (doc : Document) (storage : Storage) (raw : string),
    bookingStateSlot storage = Some (Malformed raw) ->
    JSON_parse (Malformed raw : text BookingState) = Throw "SyntaxError"
    /\ initBookingFlow (freshWorld doc storage) = freshWorld doc storage
    /\ bookingState (initBookingFlow (freshWorld doc storage)) = initialBookingState
    /\ currentStep (bookingState (pageLoad doc storage)) = 1
    /\ selectedFlight (bookingState (pageLoad doc storage)) = None
    /\ passengerData (bookingState (pageLoad doc storage)) = None
    /\ paymentData (bookingState (pageLoad doc storage)) = None
    /\ bookingDetails (bookingState (pageLoad doc storage)) = None
    /\ errors (pageLoad doc storage) = [].
Proof.
  intros doc storage raw Hslot.
  assert (initBookingFlow (freshWorld doc storage) = freshWorld doc storage) as Hinit.
  { unfold initBookingFlow. simpl. rewrite Hslot. by destruct raw. }
  split; [reflexivity |]. split; [exact Hinit |].
  split; [by rewrite Hinit |].
  unfold pageLoad. rewrite Hinit.
  destruct (initPassengerSelector_keeps (loadSearchData (freshWorld doc storage)))
    as (-> & _ & _ & _ & ->).
  destruct (loadSearchData_keeps (freshWorld doc storage)) as (d & -> & _ & _ & _ & ->).
  done.
Qed.

(** *** The invariant of the wizard *)

Lemma wizardInvariant_view w w' :
  bookingState w' = bookingState w ->
  activeStep w' = activeStep w ->
  bookingStateSlot (localStorage w') = bookingStateSlot (localStorage w) ->
  wizardInvariant w -> wizardInvariant w'.
Proof. unfold wizardInvariant. intros -> -> ->. done. Qed.

Lemma wizardInvariant_sameSession w w' :
  sameSession w w' -> wizardInvariant w -> wizardInvariant w'.
Proof.
  intros (Hs & Hl & Ha & _). apply wizardInvariant_view; [done | done |].
  by rewrite Hl.
Qed.

Lemma wizardInvariant_showError message w :
  wizardInvariant w -> wizardInvariant (showError message w).
Proof. by apply wizardInvariant_view. Qed.

(** Moving to a step that the record fits keeps the invariant, whether the
    panel exists or not. *)
Lemma wizardInvariant_navigate step w :
  goodState (bookingState w) ->
  goodState (withCurrentStep step (bookingState w)) ->
  storedGood (bookingStateSlot (localStorage w)) ->
  wizardInvariant (navigateToStep step w).
Proof.
  intros Hg Hg' Hst. unfold wizardInvariant.
  destruct (decide (stepId step ∈ elements w)) as [Hin | Hout].
  - destruct (navigateToStep_present step w Hin) as (-> & -> & ->).
    split; [done |]. split; [| done]. by intros k [= <-].
  - destruct (navigateToStep_absent step w Hout) as (-> & -> & ->).
    split; [done |]. split; [| done]. by intros k [=].
Qed.

Lemma goodState_lower step s :
  goodState s -> 1 <= step <= currentStep s -> goodState (withCurrentStep step s).
Proof.
  unfold goodState. proj. intros (Hr & Hf & Hp) Hstep.
  split; [lia |]. split; intros ?; [apply Hf | apply Hp]; lia.
Qed.

Lemma goodState_withSearchData d s : goodState s -> goodState (withSearchData d s).
Proof. done. Qed.

Lemma updatePaymentSummary_sameSession w : sameSession w (updatePaymentSummary w).
Proof.
  unfold updatePaymentSummary. case_match; [| apply sameSession_refl].
  apply setText_sameSession.
Qed.

Lemma updateConfirmation_sameSession w : sameSession w (updateConfirmation w).
Proof.
  unfold updateConfirmation. case_match; [| apply sameSession_refl].
  apply setText_sameSession.
Qed.

Lemma showLoading_sameSession show w : sameSession w (showLoading show w).
Proof. apply setStyleDisplay_sameSession. Qed.

Lemma displayFlights_keeps (flights : list Flight) w :
  bookingState (displayFlights flights w) = bookingState w
  /\ localStorage (displayFlights flights w) = localStorage w
  /\ activeStep (displayFlights flights w) = activeStep w
  /\ elements (displayFlights flights w) = elements w.
Proof. destruct (displayFlights_core flights w) as (? & ? & ? & ? & ?). done. Qed.

Lemma handleSearch_inv w : wizardInvariant w -> wizardInvariant (handleSearch w).
Proof.
  intros Hinv. unfold handleSearch.
  destruct (inputs w !! "bookingFrom") as [f |]; [| done].
  destruct (inputs w !! "bookingTo") as [t |]; [| done].
  destruct (inputs w !! "bookingDeparture") as [d |]; [| done].
  destruct (inputs w !! "bookingReturn") as [r |]; [| done].
  cbv zeta. cbn [from to departureDate].
  destruct (truthy (trim f)); cbn [negb]; [| by apply wizardInvariant_showError].
  destruct (truthy (trim t)); cbn [negb]; [| by apply wizardInvariant_showError].
  destruct (strEq _ _); [by apply wizardInvariant_showError |].
  destruct (truthy d); cbn [negb]; [| by apply wizardInvariant_showError].
  eapply wizardInvariant_sameSession; [apply showLoading_sameSession |].
  destruct Hinv as (Hg & Ha & Hst).
  match goal with
  | |- wizardInvariant (navigateToStep 2 (displayFlights ?fl (showLoading true ?w1))) =>
      destruct (displayFlights_keeps fl (showLoading true w1)) as (Hs & Hl & _);
      destruct (showLoading_sameSession true w1) as (Hs' & Hl' & _)
  end.
  apply wizardInvariant_navigate; rewrite ?Hs, ?Hl, ?Hs', ?Hl'; proj; [done | | done].
  unfold goodState in *. proj. split; [lia |]. split; intros; lia.
Qed.

Lemma selectFlight_inv flightId w : wizardInvariant w -> wizardInvariant (selectFlight flightId w).
Proof.
  intros (Hg & Ha & Hst). unfold selectFlight. case_match; [| done].
  unfold wizardInvariant. proj. split; [| done].
  unfold goodState in *. proj. destruct Hg as (? & ? & ?). done.
Qed.

Lemma selectorClick_inv type action w :
  wizardInvariant w -> wizardInvariant (selectorClick type action w).
Proof.
  intros Hinv. unfold selectorClick.
  repeat case_match; try done;
    (eapply wizardInvariant_sameSession; [apply setText_sameSession |]);
    by eapply wizardInvariant_view.
Qed.

Lemma selectorApply_inv w : wizardInvariant w -> wizardInvariant (selectorApply w).
Proof.
  intros Hinv. unfold selectorApply. case_match; [| done]. cbv zeta.
  match goal with
  | |- context [setText ?e ?t w] =>
      pose proof (wizardInvariant_sameSession _ _ (setText_sameSession e t w) Hinv) as Hinv';
      set (w1 := setText e t w) in *
  end.
  destruct Hinv' as (Hg & Ha & Hst). unfold wizardInvariant. proj. done.
Qed.

Lemma validatePassengerDetails_true w w' :
  validatePassengerDetails w = (true, w') ->
  exists passengerData,
    w' = setState (withPassengerData (Some passengerData) (bookingState w)) w.
Proof.
  unfold validatePassengerDetails. cbv zeta.
  repeat (match goal with
          | |- context [if ?b then _ else _] => destruct b
          end; [try discriminate | try discriminate]);
    intros [= <-]; eauto.
Qed.

Lemma validatePassengerDetails_false w w' :
  validatePassengerDetails w = (false, w') -> exists message, w' = showError message w.
Proof.
  unfold validatePassengerDetails. cbv zeta.
  repeat (match goal with
          | |- context [if ?b then _ else _] => destruct b
          end; [try (intros [= <-]; by eauto) | try (intros [= <-]; by eauto)]).
Qed.

Lemma handlePayment_inv env w :
  wizardInvariant w -> currentStep (bookingState w) = 4 -> wizardInvariant (handlePayment env w).
Proof.
  intros Hinv Hfour. unfold handlePayment.
  destruct (validatePaymentForm env w) as [[|] w1] eqn:Hv; cbn [negb].
  - destruct (validatePaymentForm_true _ _ _ Hv) as (n & c & e & v & _ & _ & _ & _ & _ & ->).
    destruct Hinv as (Hg & Ha & Hst).
    assert (goodState (withPaymentData
                         (Some (mkPaymentData (trim n) (sliceLast 4 (removeWhiteSpace (trim c)))
                                  (trim e))) (bookingState w))) as Hg1 by done.
    proj. case_decide; [| by split].
    unfold confirmBooking, processPayment, createBooking. cbn [mbind result_bind].
    eapply wizardInvariant_sameSession; [apply updateConfirmation_sameSession |].
    destruct Hg as (Hr & Hf & Hp).
    apply wizardInvariant_navigate; unfold saveBookingState, JSON_stringify; proj;
      cbn [storedGood];
      unfold goodState; proj; (split; [lia |]; split; intros _; [apply Hf | apply Hp]; lia).
  - destruct (validatePaymentForm_false _ _ _ Hv) as (msg & ->).
    by apply wizardInvariant_showError.
Qed.

Lemma restoreState_inv doc storage p :
  goodState p ->
  storedGood (bookingStateSlot storage) ->
  exists w', restoreState (Some p) (freshWorld doc storage) = Ok w' /\ wizardInvariant w'.
Proof.
  intros Hp Hst. eexists. split; [reflexivity |].
  assert (numOr (Some (currentStep p)) 1 = currentStep p) as Hstep.
  { unfold numOr. destruct Hp as (? & _). destruct (Z.eqb_spec (currentStep p) 0); lia. }
  proj. cbn [freshWorld initialBookingState]. proj. rewrite Hstep.
  assert (goodState (mkBookingState (currentStep p) (searchData p) (selectedFlight p)
                       (passengerData p) (paymentData p) (bookingDetails p))) as Hg.
  { by destruct p. }
  apply wizardInvariant_navigate; proj; done.
Qed.

Lemma freshWorld_inv doc storage :
  storedGood (bookingStateSlot storage) -> wizardInvariant (freshWorld doc storage).
Proof.
  intros Hst. unfold wizardInvariant, freshWorld, initialActiveStep. proj.
  split; [| split; [| done]].
  - unfold goodState, initialBookingState. proj. split; [lia |]. split; intros; lia.
  - intros k. case_decide; [by intros [= <-] | done].
Qed.

Lemma pageLoad_inv doc storage :
  storedGood (bookingStateSlot storage) -> wizardInvariant (pageLoad doc storage).
Proof.
  intros Hst. unfold pageLoad.
  assert (wizardInvariant (initBookingFlow (freshWorld doc storage))) as Hinit.
  { unfold initBookingFlow. cbn [freshWorld localStorage].
    destruct (bookingStateSlot storage) as [[raw | | p] |] eqn:Hslot; try done.
    - cbn [getItemTruthy JSON_parse mbind result_bind].
      destruct (restoreState_inv doc storage p) as (w' & Hw' & Hinv); [done | by rewrite Hslot |].
      change (mkWorld initialBookingState storage (docInputs doc) (docElements doc) ∅ ∅ []
                (initialActiveStep doc) None []) with (freshWorld doc storage).
      by rewrite Hw'.
    - cbn [getItemTruthy].
      apply (freshWorld_inv doc storage). by rewrite Hslot. }
  destruct (initPassengerSelector_keeps (loadSearchData (initBookingFlow (freshWorld doc storage))))
    as (Hs & Hl & Ha & _).
  destruct (loadSearchData_keeps (initBookingFlow (freshWorld doc storage)))
    as (d & Hs' & Hl' & Ha' & _).
  destruct Hinit as (Hg & Hact & Hstored).
  unfold wizardInvariant. rewrite Hs, Hl, Ha, Hs', Hl', Ha'. proj.
  split; [by apply goodState_withSearchData |]. done.
Qed.

(** Every enabled event keeps the invariant. *)
Lemma handle_inv e w : wizardInvariant w -> enabled e w -> wizardInvariant (handle e w).
Proof.
  intros Hinv Hen. pose proof Hinv as (Hg & Ha & Hst).
  destruct e; unfold enabled in Hen; cbn [panel] in Hen; cbn [handle].
  - eapply wizardInvariant_sameSession; [apply typeInto_sameSession | done].
  - by apply handleSearch_inv.
  - by apply selectorClick_inv.
  - by apply selectorApply_inv.
  - by apply selectFlight_inv.
  - unfold validatePassengerStep.
    destruct (selectedFlight (bookingState w)) eqn:Hsel;
      [| by apply wizardInvariant_showError].
    apply wizardInvariant_navigate; [done | | done].
    unfold goodState. proj. rewrite Hsel. destruct Hg as (? & ? & ?).
    split; [lia |]. split; [done | lia].
  - apply wizardInvariant_navigate; [done | | done].
    apply goodState_lower; [done |]. destruct Hg as (? & _). lia.
  - apply wizardInvariant_navigate; [done | | done].
    apply goodState_lower; [done |]. destruct Hg as (? & _). lia.
  - apply Ha in Hen.
    destruct (validatePassengerDetails w) as [[|] w1] eqn:Hv.
    + destruct (validatePassengerDetails_true _ _ Hv) as (pd & ->).
      eapply wizardInvariant_sameSession; [apply updatePaymentSummary_sameSession |].
      destruct Hg as (Hr & Hf & Hp).
      apply wizardInvariant_navigate; proj; [| | done];
        unfold goodState; proj; (split; [lia |]; split; [intros _; apply Hf; lia | done]).
    + destruct (validatePassengerDetails_false _ _ Hv) as (msg & ->).
      by apply wizardInvariant_showError.
  - apply Ha in Hen. apply wizardInvariant_navigate; [done | | done].
    apply goodState_lower; [done | lia].
  - apply handlePayment_inv; [done | by apply Ha].
  - apply Ha in Hen. apply wizardInvariant_navigate; [done | | done].
    apply goodState_lower; [done | lia].
  - apply pageLoad_inv. by destruct pending.
Qed.

Lemma reachable_inv w : reachable w -> wizardInvariant w.
Proof.
  induction 1 as [doc pending | w e _ IH Hen].
  - by apply pageLoad_inv.
  - by apply handle_inv.
Qed.

(** What a load makes of a stored session record: its step is taken as it
    is stored (1 for a falsy one), whatever the rest of the record holds. *)
Lemma pageLoad_restores_step doc storage p :
  bookingStateSlot storage = Some (Json p) ->
  currentStep (bookingState (pageLoad doc storage))
  = (if currentStep p =? 0 then 1 else currentStep p)
  /\ selectedFlight (bookingState (pageLoad doc storage)) = selectedFlight p
  /\ passengerData (bookingState (pageLoad doc storage)) = passengerData p.
Proof.
  intros Hslot. unfold pageLoad.
  destruct (initPassengerSelector_keeps (loadSearchData (initBookingFlow (freshWorld doc storage))))
    as (-> & _).
  destruct (loadSearchData_keeps (initBookingFlow (freshWorld doc storage)))
    as (d & -> & _).
  proj. unfold initBookingFlow. cbn [freshWorld localStorage]. rewrite Hslot.
  cbn [getItemTruthy JSON_parse mbind result_bind restoreState].
  proj. cbn [initialBookingState numOr]. proj.
  match goal with
  | |- context [navigateToStep ?k ?w0] =>
      destruct (decide (stepId k ∈ elements w0)) as [Hin | Hout];
      [ destruct (navigateToStep_present k w0 Hin) as (-> & _)
      | destruct (navigateToStep_absent k w0 Hout) as (-> & _) ]
  end; proj; done.
Qed.

(** C5 (amended): in every state reached from a first load (no stored
    session) by the controls of the active panel and by reloads, the step is
    one of 1..5, it is never 4 (Payment) while the passenger details are
    absent and never 3 (PassengerDetails) while no flight is selected. A
    session restored from the storage is not checked: the step is the stored
    one (1 when it is falsy) and the flight and the passenger details are the
    stored ones, so the property holds after a restore only for what the
    wizard itself stored. *)
Theorem reachable_step_fits_the_data :
  (forall w : World,
      reachable w ->
      1 <= currentStep (bookingState w) <= 5
      /\ (currentStep (bookingState w) = 4 -> passengerData (bookingState w) <> None)
      /\ (currentStep (bookingState w) = 3 -> selectedFlight (bookingState w) <> None))
  /\ (forall (doc : Document) (storage : Storage) (p : BookingState),
         bookingStateSlot storage = Some (Json p) ->
         currentStep (bookingState (pageLoad doc storage))
         = (if currentStep p =? 0 then 1 else currentStep p)
         /\ selectedFlight (bookingState (pageLoad doc storage)) = selectedFlight p
         /\ passengerData (bookingState (pageLoad doc storage)) = passengerData p).
Proof.
  split.
  - intros w Hreach. destruct (reachable_inv w Hreach) as ((Hr & Hf & Hp) & _).
    split; [done |]. split; intros Heq; [apply Hp | apply Hf]; lia.
  - apply pageLoad_restores_step.
Qed.

(** *** Persisting and restoring; what is kept of the card *)

Lemma length_substring (n m : nat) (s : string) :
  (n + m <= String.length s)%nat -> String.length (String.substring n m s) = m.
Proof.
  revert n m. induction s as [| c s IH]; intros n m Hlen; simpl in Hlen.
  - assert (n = 0%nat /\ m = 0%nat) as [-> ->] by lia. reflexivity.
  - destruct n as [| n]; simpl.
    + destruct m as [| m]; [reflexivity |]. simpl. f_equal. apply IH. lia.
    + apply IH. lia.
Qed.

Lemma sliceLast_length (n : nat) (s : string) :
  (n <= String.length s)%nat -> String.length (sliceLast n s) = n.
Proof. intros Hlen. unfold sliceLast. apply length_substring. lia. Qed.

(** Saving, then loading the page again on the saved storage, restores the
    session record, provided its step is not the falsy step 0. *)
Lemma save_then_restore (doc : Document) (w : World) :
  currentStep (bookingState w) <> 0 ->
  bookingState (initBookingFlow (freshWorld doc (localStorage (saveBookingState w))))
  = bookingState w.
Proof.
  intros Hstep. unfold initBookingFlow, saveBookingState, JSON_stringify.
  cbn [freshWorld localStorage setStorage bookingStateSlot getItemTruthy JSON_parse
       mbind result_bind restoreState].
  proj. cbn [initialBookingState numOr]. proj.
  destruct (Z.eqb_spec (currentStep (bookingState w)) 0) as [| _]; [done |].
  match goal with
  | |- context [navigateToStep ?k ?w0] =>
      destruct (decide (stepId k ∈ elements w0)) as [Hin | Hout];
      [ destruct (navigateToStep_present k w0 Hin) as (-> & _)
      | destruct (navigateToStep_absent k w0 Hout) as (-> & _) ]
  end; proj; by destruct (bookingState w).
Qed.

Lemma navigateToStep_step_nonzero step w :
  step <> 0 -> currentStep (bookingState w) <> 0 ->
  currentStep (bookingState (navigateToStep step w)) <> 0.
Proof.
  intros Hs Hw.
  destruct (decide (stepId step ∈ elements w)) as [Hin | Hout];
    [ destruct (navigateToStep_present step w Hin) as (-> & _)
    | destruct (navigateToStep_absent step w Hout) as (-> & _) ]; done.
Qed.

(** The step of the session record is never the falsy 0: not after a load,
    whatever the storage holds, and not after any event. *)
Lemma pageLoad_step_nonzero doc storage :
  currentStep (bookingState (pageLoad doc storage)) <> 0.
Proof.
  unfold pageLoad.
  destruct (initPassengerSelector_keeps (loadSearchData (initBookingFlow (freshWorld doc storage))))
    as (-> & _).
  destruct (loadSearchData_keeps (initBookingFlow (freshWorld doc storage)))
    as (d & -> & _).
  proj. unfold initBookingFlow. cbn [freshWorld localStorage].
  destruct (getItemTruthy (bookingStateSlot storage)) as [[raw | | p] |];
    cbn [JSON_parse mbind result_bind restoreState]; try done.
  apply navigateToStep_step_nonzero; proj; unfold numOr;
    destruct (Z.eqb_spec (currentStep p) 0); done.
Qed.

Lemma handle_step_nonzero e w :
  currentStep (bookingState w) <> 0 -> currentStep (bookingState (handle e w)) <> 0.
Proof.
  intros Hw. destruct e; cbn [handle].
  - by destruct (typeInto_sameSession elt value w) as (-> & _).
  - unfold handleSearch.
    destruct (inputs w !! "bookingFrom") as [f |]; [| done].
    destruct (inputs w !! "bookingTo") as [t |]; [| done].
    destruct (inputs w !! "bookingDeparture") as [d |]; [| done].
    destruct (inputs w !! "bookingReturn") as [r |]; [| done].
    cbv zeta. cbn [from to departureDate].
    destruct (truthy (trim f)); cbn [negb]; [| done].
    destruct (truthy (trim t)); cbn [negb]; [| done].
    destruct (strEq _ _); [done |].
    destruct (truthy d); cbn [negb]; [| done].
    match goal with
    | |- context [showLoading false ?w4] =>
        destruct (showLoading_sameSession false w4) as (-> & _)
    end.
    apply navigateToStep_step_nonzero; [done |].
    match goal with
    | |- context [displayFlights ?fl (showLoading true ?w1)] =>
        destruct (displayFlights_keeps fl (showLoading true w1)) as (-> & _);
        destruct (showLoading_sameSession true w1) as (-> & _)
    end.
    done.
  - unfold selectorClick. repeat case_match; try done;
      match goal with
      | |- context [setText ?e ?t ?w0] =>
          by destruct (setText_sameSession e t w0) as (-> & _)
      end.
  - unfold selectorApply. case_match; [| done]. cbv zeta. proj.
    match goal with
    | |- context [setText ?e ?t ?w0] =>
        by destruct (setText_sameSession e t w0) as (-> & _)
    end.
  - unfold selectFlight. by case_match.
  - unfold validatePassengerStep.
    destruct (selectedFlight (bookingState w)); [| done].
    by apply navigateToStep_step_nonzero.
  - by apply navigateToStep_step_nonzero.
  - by apply navigateToStep_step_nonzero.
  - destruct (validatePassengerDetails w) as [[|] w1] eqn:Hv.
    + destruct (validatePassengerDetails_true _ _ Hv) as (pd & ->).
      match goal with
      | |- context [updatePaymentSummary ?w0] =>
          destruct (updatePaymentSummary_sameSession w0) as (-> & _)
      end.
      by apply navigateToStep_step_nonzero.
    + by destruct (validatePassengerDetails_false _ _ Hv) as (msg & ->).
  - by apply navigateToStep_step_nonzero.
  - unfold handlePayment.
    destruct (validatePaymentForm env w) as [[|] w1] eqn:Hv; cbn [negb].
    + destruct (validatePaymentForm_true _ _ _ Hv) as (n & c & x & v & _ & _ & _ & _ & _ & ->).
      case_decide; [| done].
      unfold confirmBooking, processPayment, createBooking. cbn [mbind result_bind].
      match goal with
      | |- context [updateConfirmation ?w0] =>
          destruct (updateConfirmation_sameSession w0) as (-> & _)
      end.
      by apply navigateToStep_step_nonzero.
    + by destruct (validatePaymentForm_false _ _ _ Hv) as (msg & ->).
  - by apply navigateToStep_step_nonzero.
  - apply pageLoad_step_nonzero.
Qed.

(** C6: a session record that is saved and then restored by a page load is
    the record that was saved (the stored text parses back to the record, and
    [initBookingFlow] copies it field by field); this holds for every record
    whose step is not the falsy 0, which no load and no event produces. Of the
    card, a successful validation keeps in the session record, and so in
    whatever is saved afterwards, the trimmed holder name, the last four
    digits of a number of at least 13 digits and the trimmed expiry date,
    nothing else: neither the number nor the CVV. *)
Theorem session_round_trip_without_card_secrets :
  (forall (doc : Document) (w : World),
      currentStep (bookingState w) <> 0 ->
      bookingState (initBookingFlow (freshWorld doc (localStorage (saveBookingState w))))
      = bookingState w)
  /\ (forall (doc : Document) (storage : Storage),
         currentStep (bookingState (pageLoad doc storage)) <> 0)
  /\ (forall (e : Event) (w : World),
         currentStep (bookingState w) <> 0 ->
         currentStep (bookingState (handle e w)) <> 0)
  /\ (forall (env : Env) (w w' : World),
         validatePaymentForm env w = (true, w') ->
         exists cardName cardNumber cardExpiry cardCVV : string,
           inputs w !! "cardName" = Some cardName
           /\ inputs w !! "cardNumber" = Some cardNumber
           /\ inputs w !! "cardExpiry" = Some cardExpiry
           /\ inputs w !! "cardCVV" = Some cardCVV
           /\ bookingState w'
              = withPaymentData
                  (Some (mkPaymentData (trim cardName)
                           (sliceLast 4 (removeWhiteSpace (trim cardNumber)))
                           (trim cardExpiry)))
                  (bookingState w)
           /\ localStorage w' = localStorage w
           /\ String.length (sliceLast 4 (removeWhiteSpace (trim cardNumber))) = 4%nat
           /\ (13 <= String.length (removeWhiteSpace (trim cardNumber)))%nat)
  /\ (forall (env : Env) (w w' : World),
         validatePaymentForm env w = (false, w') ->
         bookingState w' = bookingState w /\ localStorage w' = localStorage w).
Proof.
  split; [exact save_then_restore |].
  split; [exact pageLoad_step_nonzero |].
  split; [exact handle_step_nonzero |].
  split.
  - intros env w w' Hv.
    destruct (validatePaymentForm_true _ _ _ Hv)
      as (n & c & x & v & Hn & Hc & Hx & Hcvv & Hvalid & ->).
    exists n, c, x, v. repeat (split; [done |]).
    apply isValidCardNumber_iff in Hvalid as (_ & Hlen).
    assert (removeWhiteSpace (removeWhiteSpace (trim c)) = removeWhiteSpace (trim c)) as Hidem.
    { generalize (trim c). intros s. unfold removeWhiteSpace.
      induction s as [| a s IH]; [reflexivity |]. simpl.
      destruct (isWhiteSpace a) eqn:Ha; simpl; [exact IH |]. rewrite Ha. simpl. by f_equal. }
    rewrite Hidem in Hlen. unfold len in Hlen.
    split; [apply sliceLast_length |]; lia.
  - intros env w w' Hv.
    by destruct (validatePaymentForm_false _ _ _ Hv) as (msg & ->).
Qed.

(** *** The confirm button and the storage *)

(** C9 (amended): the simulated operations themselves always succeed:
    [processPayment] returns a record with [success] true and [createBooking]
    a record with status "confirmed" and a reference that starts with "SKB-".
    The "Payment failed" branch of [handlePayment] is nevertheless reachable,
    for the [try] block also writes to the storage, in [saveBookingState] and
    again in [navigateToStep]. On a host that refuses no write [handlePayment]
    is as modelled everywhere else and never shows the message. In general,
    with a valid payment form and the confirm button present, the message is
    shown exactly when the first write is refused, or the confirmation panel
    exists and the second one is; the record then already carries the booking
    at step 5, and when it was the first write nothing was saved and the
    active panel is still the one of the payment. *)
Theorem payment_fails_exactly_when_a_storage_write_is_refused :
  forall env : Env,
    let booking :=
      mkBookingDetails ("SKB-" +:+ toUpperCase (substr 2 6 (random36 env)))
                       (now env) (isoString env) "confirmed" in
    processPayment env = Ok (mkPaymentResult true ("TXN_" +:+ numberString (now env)))
    /\ createBooking env = Ok booking
    /\ (forall (host : FallibleStorage.StorageHost) (w : World),
           (forall storage record, FallibleStorage.refuses host storage record = false) ->
           FallibleStorage.handlePayment host env w = handlePayment env w
           /\ exists new,
               errors (handlePayment env w) = (errors w ++ new)%list
               /\ "Payment failed. Please try again." ∉ new)
    /\ (forall (host : FallibleStorage.StorageHost) (w : World),
           fst (validatePaymentForm env w) = true ->
           "confirmBookingBtn" ∈ elements w ->
           let record :=
             withCurrentStep 5
               (withBookingDetails (Some booking)
                  (bookingState (snd (validatePaymentForm env w)))) in
           let first := FallibleStorage.refuses host (localStorage w) record in
           let second :=
             bool_decide (stepId 5 ∈ elements w)
             && FallibleStorage.refuses host
                  (mkStorage (flightSearch (localStorage w)) (Some (Json record)))
                  record in
           let w' := FallibleStorage.handlePayment host env w in
           errors w'
           = (if first || second
              then (errors w ++ ["Payment failed. Please try again."])%list
              else errors w)
           /\ bookingState w' = record
           /\ (first = true ->
               localStorage w' = localStorage w /\ activeStep w' = activeStep w)).
Proof.
  intros env booking. split; [reflexivity |]. split; [reflexivity |]. split.
  - intros host w Hnever. split.
    + unfold FallibleStorage.handlePayment, handlePayment.
      destruct (validatePaymentForm env w) as [valid w1].
      destruct valid; cbn [negb]; [| reflexivity].
      case_decide; [| reflexivity].
      unfold FallibleStorage.confirmBooking, confirmBooking, processPayment,
        createBooking.
      cbn [mbind result_bind].
      unfold FallibleStorage.saveBookingState at 1. rewrite Hnever.
      unfold FallibleStorage.navigateToStep, navigateToStep.
      cbv zeta. case_decide; [| reflexivity].
      unfold FallibleStorage.saveBookingState. rewrite Hnever. reflexivity.
    + unfold handlePayment.
      destruct (validatePaymentForm_errors env w) as (new & Hnew & Hnot).
      destruct (validatePaymentForm env w) as [valid w1]; cbn [snd] in Hnew.
      exists new. split; [| exact Hnot].
      destruct valid; cbn [negb]; [| exact Hnew].
      case_decide; [| exact Hnew].
      unfold confirmBooking. cbn [processPayment createBooking mbind result_bind].
      rewrite updateConfirmation_errors, navigateToStep_errors. exact Hnew.
  - intros host w Hvalid Hbtn.
    destruct (validatePaymentForm env w) as [valid w1] eqn:Hv.
    cbn [fst] in Hvalid. subst valid.
    destruct (validatePaymentForm_true _ _ _ Hv)
      as (n & c & x & v & _ & _ & _ & _ & _ & ->).
    unfold FallibleStorage.handlePayment. rewrite Hv. cbv zeta. cbn [negb snd]. proj.
    rewrite decide_True by done.
    unfold FallibleStorage.confirmBooking, processPayment, createBooking.
    unfold FallibleStorage.saveBookingState. proj.
    set (record := withCurrentStep 5 _).
    destruct (FallibleStorage.refuses host (localStorage w) record) eqn:Hfirst;
      cbv beta iota zeta; cbn [orb].
    + proj. done.
    + unfold FallibleStorage.navigateToStep. cbv zeta. proj.
      unfold saveBookingState, JSON_stringify. proj.
      case_bool_decide as Hpanel; cbn [andb].
      * rewrite decide_True by done.
        unfold FallibleStorage.saveBookingState. proj.
        change (withCurrentStep 5 record) with record.
        destruct (FallibleStorage.refuses host
                    (mkStorage (flightSearch (localStorage w)) (Some (Json record)))
                    record); cbv beta iota zeta.
        -- proj. split; [done |]. split; [done |]. discriminate.
        -- match goal with
           | |- context [updateConfirmation ?w0] =>
               destruct (updateConfirmation_sameSession w0) as (-> & _ & _ & _ & _ & ->)
           end.
           unfold saveBookingState. proj. split; [done |]. split; [done |]. discriminate.
      * rewrite decide_False by done. cbv beta iota zeta.
        match goal with
        | |- context [updateConfirmation ?w0] =>
            destruct (updateConfirmation_sameSession w0) as (-> & _ & _ & _ & _ & ->)
        end.
        proj. split; [done |]. split; [done |]. discriminate.
Qed.

(** *** The guards of the two middle steps *)

(** X3: the button to continue from FlightResults moves to PassengerDetails
    (step 3) when a flight is selected; without one it shows an error and
    leaves the session record and the active step as they are. *)
Theorem continue_needs_a_selected_flight :
  forall w : World,
    stepId 3 ∈ elements w ->
    (selectedFlight (bookingState w) <> None ->
     currentStep (bookingState (handle ContinueToPassengers w)) = 3
     /\ activeStep (handle ContinueToPassengers w) = Some 3
     /\ errors (handle ContinueToPassengers w) = errors w)
    /\ (selectedFlight (bookingState w) = None ->
        bookingState (handle ContinueToPassengers w) = bookingState w
        /\ activeStep (handle ContinueToPassengers w) = activeStep w
        /\ errors (handle ContinueToPassengers w)
           = (errors w ++ ["Please select a flight to continue"])%list).
Proof.
  intros w Hin. cbn [handle]. unfold validatePassengerStep.
  destruct (selectedFlight (bookingState w)) as [flight |]; split; try done.
  intros _. rewrite navigateToStep_errors.
  by destruct (navigateToStep_present 3 w Hin) as (-> & -> & _).
Qed.

(** X4: [validatePassengerDetails] accepts exactly when the trimmed name,
    email and phone are non-empty and the email has the form checked by
    [isValidEmail]. *)
Theorem passenger_details_guard :
  forall (w : World) (name email phone : string),
    inputs w !! "passengerName" = Some name ->
    inputs w !! "passengerEmail" = Some email ->
    inputs w !! "passengerPhone" = Some phone ->
    fst (validatePassengerDetails w)
    = truthy (trim name) && truthy (trim email) && isValidEmail (trim email)
      && truthy (trim phone).
Proof.
  intros w name email phone Hn He Hp.
  unfold validatePassengerDetails, trimmedValue. rewrite Hn, He, Hp.
  cbn [fmap option_fmap option_map missing default from_option Datatypes.id].
  destruct (truthy (trim name)); cbn [negb andb fst]; [| done].
  destruct (truthy (trim email)); cbn [negb andb fst]; [| done].
  destruct (isValidEmail (trim email)); cbn [negb andb fst]; [| done].
  destruct (truthy (trim phone)); cbn [negb andb fst]; done.
Qed.

End WizardFacts.

(** ** The claims at concrete pages *)

Section Instances.
Import JS Data Validators Booking Examples.

(** C1, the claim as stated fails: the visitor came with a round trip, the
    return date is empty, and the wizard still moves from Search to
    FlightResults without an error. *)
Lemma round_trip_without_return_date_is_searched :
  activeStep arrived = Some 1
  /\ (tripType <$> searchData (bookingState arrived)) = Some (Some "round-trip")
  /\ inputs arrived !! "bookingReturn" = Some ""
  /\ activeStep (@handleSearch exampleHost arrived) = Some 2
  /\ currentStep (bookingState (@handleSearch exampleHost arrived)) = 2
  /\ errors (@handleSearch exampleHost arrived) = [].
Proof. vm_compute. repeat split; reflexivity. Qed.

Lemma search_transition_guard_witness :
  activeStep (@handleSearch exampleHost arrived) = Some 2
  /\ errors (@handleSearch exampleHost arrived) = errors arrived.
Proof.
  apply (proj1 (@search_transition_guard exampleHost)
           arrived "Abuja" "Lagos" "2026-12-01" "");
    vm_compute; reflexivity.
Defined.

Lemma displayed_total_witness :
  adults (passengersOrDefault (bookingState arrived)) <> 0
  /\ cardTotal <$> cards (@displayFlights exampleHost (searchFlightsAPI roundTripSearch) arrived)
     = (fun f => "$" +:+ @toFixed2 exampleHost
                           (PrimFloat.mul (price f)
                              (Z2F (adults (passengersOrDefault (bookingState arrived))
                                    + children (passengersOrDefault (bookingState arrived))))))
         <$> searchFlightsAPI roundTripSearch.
Proof.
  split; [vm_compute; discriminate |].
  apply (@displayed_total_is_price_times_adults_and_children exampleHost arrived).
  - vm_compute. discriminate.
  - vm_compute. reflexivity.
Defined.

(** C3, the claim as stated fails: after the booking is created the
    wizard-session slot is not cleared, it holds the final session record. *)
Lemma session_slot_is_kept_after_booking :
  currentStep (bookingState confirmed) = 5
  /\ (status <$> bookingDetails (bookingState confirmed)) = Some "confirmed"
  /\ texts confirmed !! "bookingReference" = Some "SKB-K3J5H2"
  /\ bookingStateSlot (localStorage confirmed) = Some (Json (bookingState confirmed))
  /\ bookingStateSlot (localStorage confirmed) <> None.
Proof. vm_compute. repeat split; try reflexivity. discriminate. Qed.

Lemma booking_success_witness :
  exists booking : BookingDetails,
    createBooking exampleEnv = Ok booking
    /\ currentStep (bookingState (handlePayment exampleEnv beforeConfirm)) = 5
    /\ activeStep (handlePayment exampleEnv beforeConfirm) = Some 5
    /\ bookingDetails (bookingState (handlePayment exampleEnv beforeConfirm)) = Some booking
    /\ texts (handlePayment exampleEnv beforeConfirm) !! "bookingReference"
       = Some (bookingReference booking)
    /\ bookingStateSlot (localStorage (handlePayment exampleEnv beforeConfirm))
       = Some (Json (bookingState (handlePayment exampleEnv beforeConfirm)))
    /\ flightSearch (localStorage (handlePayment exampleEnv beforeConfirm))
       = flightSearch (localStorage beforeConfirm).
Proof.
  apply (booking_success_persists_session_and_shows_reference exampleEnv beforeConfirm);
    vm_compute; first [reflexivity | discriminate].
Defined.

(** C9, the claim as stated fails: on a storage that takes no write the
    visitor's valid payment ends in "Payment failed", while the record already
    carries the confirmed booking at step 5; nothing was saved and the payment
    panel is still the active one. *)
Lemma payment_fails_on_a_full_storage :
  fst (validatePaymentForm exampleEnv beforeConfirm) = true
  /\ errors (FallibleStorage.handlePayment FallibleStorage.fullStorage
               exampleEnv beforeConfirm)
     = ["Payment failed. Please try again."]
  /\ (status <$> bookingDetails
                   (bookingState
                      (FallibleStorage.handlePayment FallibleStorage.fullStorage
                         exampleEnv beforeConfirm)))
     = Some "confirmed"
  /\ currentStep (bookingState
                    (FallibleStorage.handlePayment FallibleStorage.fullStorage
                       exampleEnv beforeConfirm)) = 5
  /\ activeStep (FallibleStorage.handlePayment FallibleStorage.fullStorage
                   exampleEnv beforeConfirm) = Some 4
  /\ localStorage (FallibleStorage.handlePayment FallibleStorage.fullStorage
                     exampleEnv beforeConfirm)
     = localStorage beforeConfirm.
Proof. vm_compute. repeat split; reflexivity. Qed.

(** C5, the claim as stated fails: a stored session at step 4 with no
    passenger details is restored as it is, and a stored step 7 too. *)
Lemma restored_step_is_not_checked :
  currentStep (bookingState (pageLoad exampleDoc paymentStepOnly)) = 4
  /\ passengerData (bookingState (pageLoad exampleDoc paymentStepOnly)) = None
  /\ currentStep
       (bookingState
          (pageLoad exampleDoc
             (mkStorage None (Some (Json (mkBookingState 7 None None None None None))))))
     = 7.
Proof. vm_compute. repeat split; reflexivity. Qed.

Lemma reachable_step_witness :
  1 <= currentStep (bookingState beforeConfirm) <= 5
  /\ (currentStep (bookingState beforeConfirm) = 4 ->
      passengerData (bookingState beforeConfirm) <> None)
  /\ (currentStep (bookingState beforeConfirm) = 3 ->
      selectedFlight (bookingState beforeConfirm) <> None).
Proof.
  apply (proj1 (@reachable_step_fits_the_data exampleHost)).
  unfold beforeConfirm, arrived, run. cbn [fold_left].
  repeat (apply (@reach_step exampleHost); [| vm_compute; first [reflexivity | exact I]]).
  apply (@reach_load exampleHost).
Defined.

Lemma session_round_trip_witness :
  bookingState
    (initBookingFlow (freshWorld exampleDoc (localStorage (saveBookingState beforeConfirm))))
  = bookingState beforeConfirm.
Proof.
  apply (proj1 (@session_round_trip_without_card_secrets exampleHost)).
  vm_compute. discriminate.
Defined.

Lemma corrupt_session_witness :
  JSON_parse (Malformed "{oops" : text BookingState) = Throw "SyntaxError"
  /\ initBookingFlow (freshWorld exampleDoc corruptSession) = freshWorld exampleDoc corruptSession
  /\ bookingState (initBookingFlow (freshWorld exampleDoc corruptSession)) = initialBookingState
  /\ currentStep (bookingState (pageLoad exampleDoc corruptSession)) = 1
  /\ selectedFlight (bookingState (pageLoad exampleDoc corruptSession)) = None
  /\ passengerData (bookingState (pageLoad exampleDoc corruptSession)) = None
  /\ paymentData (bookingState (pageLoad exampleDoc corruptSession)) = None
  /\ bookingDetails (bookingState (pageLoad exampleDoc corruptSession)) = None
  /\ errors (pageLoad exampleDoc corruptSession) = [].
Proof.
  apply (corrupt_session_restores_fresh_state exampleDoc corruptSession "{oops").
  reflexivity.
Defined.

(** The homepage refuses a round trip without a return date and stores
    nothing. *)
Example home_requires_return_date :
  Home.errors (Home.submitSearch homeRoundTripNoReturn)
  = ["Please select a return date for round trip"]
  /\ Home.localStorage (Home.submitSearch homeRoundTripNoReturn) = mkStorage None None
  /\ Home.location (Home.submitSearch homeRoundTripNoReturn) = None.
Proof. vm_compute. repeat split; reflexivity. Qed.

Lemma continue_needs_a_selected_flight_witness :
  currentStep (bookingState (@handle exampleHost ContinueToPassengers
                               (run [SubmitSearch; ClickCard "SB123"] arrived))) = 3
  /\ activeStep (@handle exampleHost ContinueToPassengers
                   (run [SubmitSearch; ClickCard "SB123"] arrived)) = Some 3
  /\ errors (@handle exampleHost ContinueToPassengers
               (run [SubmitSearch; ClickCard "SB123"] arrived))
     = errors (run [SubmitSearch; ClickCard "SB123"] arrived).
Proof.
  apply (@continue_needs_a_selected_flight exampleHost
           (run [SubmitSearch; ClickCard "SB123"] arrived));
    vm_compute; first [reflexivity | discriminate].
Defined.

Lemma passenger_details_guard_witness :
  fst (validatePassengerDetails beforeConfirm)
  = truthy (trim "Ada Obi") && truthy (trim "ada@example.org")
    && isValidEmail (trim "ada@example.org") && truthy (trim "0800 000 0000").
Proof.
  apply (passenger_details_guard beforeConfirm); vm_compute; reflexivity.
Defined.

End Instances.

(** ** The input listeners of the payment form *)

Section FieldFormats.
Import JS Data Validators.

Lemma list_of_filterChars (keep : ascii -> bool) (s : string) :
  list_ascii_of_string (filterChars keep s) = List.filter keep (list_ascii_of_string s).
Proof.
  induction s as [| c s IH]; [reflexivity |]. simpl.
  destruct (keep c); simpl; by rewrite IH.
Qed.

Lemma allChars_forallb (p : ascii -> bool) (s : string) :
  allChars p s = forallb p (list_ascii_of_string s).
Proof. induction s as [| c s IH]; [reflexivity |]. simpl. by rewrite IH. Qed.

Lemma forallb_filter_self (p : ascii -> bool) (l : list ascii) :
  forallb p (List.filter p l) = true.
Proof.
  induction l as [| c l IH]; [reflexivity |]. simpl.
  destruct (p c) eqn:Hc; simpl; [by rewrite Hc |]; done.
Qed.

Lemma substring_take (n : nat) (s : string) :
  String.substring 0 n s = string_of_list_ascii (take n (list_ascii_of_string s)).
Proof.
  revert n. induction s as [| c s IH]; intros [| n]; simpl; try reflexivity.
  by rewrite IH.
Qed.

Lemma string_length_list (s : string) :
  String.length s = length (list_ascii_of_string s).
Proof. induction s as [| c s IH]; [reflexivity |]. simpl. by rewrite IH. Qed.

Lemma digit_is_not_blank (c : ascii) : isDigit c = true -> isWhiteSpace c = false.
Proof. destruct c as [[] [] [] [] [] [] [] []]; vm_compute; congruence. Qed.

Lemma groupFours_step (a b c d e : ascii) (r : list ascii) :
  isDigit a = true -> isDigit b = true -> isDigit c = true -> isDigit d = true ->
  isDigit e = true ->
  groupFours (a :: b :: c :: d :: e :: r) = a :: b :: c :: d :: " "%char :: groupFours (e :: r).
Proof. intros Ha Hb Hc Hd He. cbn [groupFours]. by rewrite Ha, Hb, Hc, Hd, He. Qed.

Lemma keep_digit (a : ascii) (l : list ascii) :
  isDigit a = true ->
  List.filter (fun c => negb (isWhiteSpace c)) (a :: l)
  = a :: List.filter (fun c => negb (isWhiteSpace c)) l.
Proof. intros Ha. cbn [List.filter]. by rewrite (digit_is_not_blank a Ha). Qed.

Lemma drop_space (l : list ascii) :
  List.filter (fun c => negb (isWhiteSpace c)) (" "%char :: l)
  = List.filter (fun c => negb (isWhiteSpace c)) l.
Proof. reflexivity. Qed.

Ltac grouped Hd :=
  cbn [forallb] in Hd; repeat (apply andb_prop in Hd as [? Hd]);
  cbn [firstn];
  repeat rewrite groupFours_step by assumption;
  cbn [groupFours firstn];
  repeat first [rewrite keep_digit by assumption | rewrite drop_space];
  done.

(** The digits of a string of digits, grouped: what the field shows and what
    is read back from it. At most sixteen digits fit into the nineteen
    characters that are kept. *)
Lemma groupFours_nineteen (l : list ascii) :
  forallb isDigit l = true ->
  List.filter (fun c => negb (isWhiteSpace c)) (take 19 (groupFours l)) = take 16 l
  /\ take 19 (groupFours (take 16 l)) = take 19 (groupFours l).
Proof.
  intros Hd.
  do 17 (destruct l as [| ? l]; [grouped Hd |]).
  grouped Hd.
Qed.

Lemma filter_all (p : ascii -> bool) (l : list ascii) :
  forallb p l = true -> List.filter p l = l.
Proof.
  induction l as [| c l IH]; [reflexivity |]. simpl.
  intros [Hc Hl]%andb_prop. rewrite Hc. by rewrite IH.
Qed.

Lemma forallb_take (p : ascii -> bool) (n : nat) (l : list ascii) :
  forallb p l = true -> forallb p (take n l) = true.
Proof.
  revert n. induction l as [| c l IH]; intros [| n]; simpl; try done.
  intros [Hc Hl]%andb_prop. rewrite Hc. by apply IH.
Qed.

(** What [formatCardNumber] leaves in the field, as a list of characters. *)
Lemma formatCardNumber_list (value : string) :
  list_ascii_of_string (formatCardNumber value)
  = take 19 (groupFours (list_ascii_of_string
                           (removeNonDigits (removeWhiteSpace value)))).
Proof.
  unfold formatCardNumber, substring. cbv zeta.
  rewrite substring_take. rewrite !list_ascii_of_string_of_list_ascii. reflexivity.
Qed.

(** X6: whatever is typed into the card number field, [formatCardNumber]
    leaves at most nineteen characters there: the first sixteen digits of the
    input in groups of four. Read back without blanks, the field holds exactly
    those digits; it passes [isValidCardNumber] exactly when at least thirteen
    digits were typed (a seventeenth digit and the following ones are
    dropped, although the validator would take up to nineteen); and
    formatting the field again changes nothing. *)
Theorem card_field_keeps_sixteen_digits :
  forall value : string,
    let digits := removeNonDigits (removeWhiteSpace value) in
    removeWhiteSpace (formatCardNumber value) = substring 0 16 digits
    /\ len (formatCardNumber value) <= 19
    /\ (isValidCardNumber (formatCardNumber value) = true <-> 13 <= len digits)
    /\ formatCardNumber (formatCardNumber value) = formatCardNumber value.
Proof.
  intros value digits.
  assert (forallb isDigit (list_ascii_of_string digits) = true) as Hd.
  { unfold digits, removeNonDigits. rewrite list_of_filterChars.
    apply forallb_filter_self. }
  destruct (groupFours_nineteen _ Hd) as [Hread Hagain].
  assert (removeWhiteSpace (formatCardNumber value) = substring 0 16 digits) as Hfield.
  { rewrite <- (string_of_list_ascii_of_string (removeWhiteSpace (formatCardNumber value))).
    unfold removeWhiteSpace at 1. rewrite list_of_filterChars, formatCardNumber_list.
    fold digits. rewrite Hread. unfold substring. by rewrite substring_take. }
  assert (len (substring 0 16 digits) = Z.min 16 (len digits)) as Hlen.
  { unfold len, substring. rewrite substring_take, !string_length_list.
    rewrite list_ascii_of_string_of_list_ascii, length_take. lia. }
  assert (allChars isDigit (substring 0 16 digits) = true) as Hall.
  { unfold substring. rewrite substring_take, allChars_forallb.
    rewrite list_ascii_of_string_of_list_ascii. by apply forallb_take. }
  split; [exact Hfield |]. split; [| split].
  - unfold len. rewrite string_length_list, formatCardNumber_list, length_take. lia.
  - rewrite isValidCardNumber_iff, Hfield, Hlen, Hall. lia.
  - rewrite <- (string_of_list_ascii_of_string (formatCardNumber (formatCardNumber value))).
    rewrite <- (string_of_list_ascii_of_string (formatCardNumber value)) at 2.
    f_equal. rewrite (formatCardNumber_list (formatCardNumber value)).
    rewrite Hfield. unfold removeNonDigits.
    rewrite list_of_filterChars. unfold substring.
    rewrite substring_take, list_ascii_of_string_of_list_ascii.
    rewrite filter_all by by apply forallb_take.
    change (16 - 0)%nat with 16%nat. rewrite Hagain. by rewrite formatCardNumber_list.
Qed.

Lemma allChars_filterChars (p : ascii -> bool) (s : string) :
  allChars p (filterChars p s) = true.
Proof.
  induction s as [| c s IH]; [reflexivity |]. simpl.
  destruct (p c) eqn:Hc; simpl; [by rewrite Hc |]; done.
Qed.

Lemma filterChars_all (p : ascii -> bool) (s : string) :
  allChars p s = true -> filterChars p s = s.
Proof.
  induction s as [| c s IH]; [reflexivity |]. simpl.
  intros [Hc Hs]%andb_prop. rewrite Hc. by rewrite IH.
Qed.

Lemma substring_nothing (s : string) : String.substring 0 0 s = "".
Proof. by destruct s. Qed.

(** [formatExpiryDate] by the digits of the value: fewer than two are left
    as they are, otherwise a slash follows the second and two more at most
    are kept. *)
Lemma formatExpiryDate_digits (value : string) :
  formatExpiryDate value
  = match removeNonDigits value with
    | String a (String b r) => String a (String b (String "/" (String.substring 0 2 r)))
    | s => s
    end.
Proof.
  unfold formatExpiryDate. cbv zeta.
  destruct (removeNonDigits value) as [| a [| b r]]; [reflexivity | reflexivity |].
  destruct (Z.leb_spec 2 (len (String a (String b r)))) as [_ | Hlt];
    [| unfold len in Hlt; cbn [String.length] in Hlt; lia].
  unfold substring. destruct r as [| c [| d r]]; simpl; rewrite ?substring_nothing; simpl;
    rewrite ?substring_nothing; reflexivity.
Qed.

Ltac digit_facts H :=
  cbn [allChars] in H; repeat (apply andb_prop in H as [? H]).

Ltac use_digits :=
  repeat match goal with
         | Hx : isDigit ?a = true |- context [isDigit ?a] => rewrite Hx
         end.

Ltac expiry_norm :=
  unfold substring; cbn [String.substring Nat.sub]; rewrite ?substring_nothing.

Lemma expiry_conditions (fullYear monthIndex month year : Z) :
  (if (month <? 1) || (12 <? month) then false
   else if year <? fullYear mod 100 then false
        else if (year =? fullYear mod 100) && (month <? monthIndex + 1) then false
             else true) = true
  <-> 1 <= month <= 12
      /\ (fullYear mod 100 < year \/ (year = fullYear mod 100 /\ monthIndex + 1 <= month)).
Proof.
  destruct (Z.ltb_spec month 1), (Z.ltb_spec 12 month),
    (Z.ltb_spec year (fullYear mod 100)), (Z.eqb_spec year (fullYear mod 100)),
    (Z.ltb_spec month (monthIndex + 1)); cbn [orb andb]; split;
    try discriminate; try lia; done.
Qed.

(** X7: whatever is typed into the expiry field, [formatExpiryDate] leaves at
    most five characters there, made of the first four digits of the input
    with a slash after the second; formatting again changes nothing. The
    field passes [isValidExpiryDate] exactly when four digits were typed, the
    first two are a month from 1 to 12, and the last two, read as a year of the
    current century, with the month are not before the current month. *)
Theorem expiry_field_is_month_slash_year :
  forall (fullYear monthIndex : Z) (value : string),
    let digits := removeNonDigits value in
    let month := parseDigits (substring 0 2 digits) in
    let year := parseDigits (substring 2 4 digits) in
    len (formatExpiryDate value) <= 5
    /\ removeNonDigits (formatExpiryDate value) = substring 0 4 digits
    /\ formatExpiryDate (formatExpiryDate value) = formatExpiryDate value
    /\ (isValidExpiryDate fullYear monthIndex (formatExpiryDate value) = true <->
        4 <= len digits
        /\ 1 <= month <= 12
        /\ (fullYear mod 100 < year
            \/ (year = fullYear mod 100 /\ monthIndex + 1 <= month))).
Proof.
  intros fullYear monthIndex value digits month year.
  pose proof (allChars_filterChars isDigit value) as Hd.
  fold (removeNonDigits value) in Hd. fold digits in Hd.
  rewrite (formatExpiryDate_digits (formatExpiryDate value)).
  rewrite !(formatExpiryDate_digits value). fold digits.
  unfold month, year. clear month year.
  clearbody digits. unfold len.
  destruct digits as [| a [| b [| c [| d r]]]]; digit_facts Hd.
  - cbn. repeat split; try lia; try discriminate; try (intros (? & _); lia).
  - unfold removeNonDigits. cbn [filterChars]. use_digits. cbn.
    repeat split; try lia; try discriminate; try (intros (? & _); lia).
  - unfold removeNonDigits. expiry_norm. cbn [filterChars]. use_digits.
    change (isDigit "/") with false. cbv iota. expiry_norm.
    cbn [String.length]. repeat split; try lia; try discriminate; try (intros (? & _); lia).
  - unfold removeNonDigits. expiry_norm. cbn [filterChars]. use_digits.
    change (isDigit "/") with false. cbv iota. expiry_norm.
    cbn [String.length]. repeat split; try lia; try discriminate; try (intros (? & _); lia).
  - unfold removeNonDigits. expiry_norm. cbn [filterChars]. use_digits.
    change (isDigit "/") with false. cbv iota. expiry_norm.
    cbn [String.length]. split; [lia |]. split; [reflexivity |]. split; [reflexivity |].
    unfold isValidExpiryDate. cbn [list_ascii_of_string]. use_digits.
    change (Ascii.eqb "/" "/") with true. cbn [andb string_of_list_ascii].
    rewrite expiry_conditions. split; [intros ?; split; [lia | done] | tauto].
Qed.

End FieldFormats.

(** ** The email pattern *)

Section EmailFacts.
Import JS Data Validators.

Lemma append_cons (c : ascii) (a b : string) : String c a +:+ b = String c (a +:+ b).
Proof. reflexivity. Qed.

Lemma allChars_app (p : ascii -> bool) (a b : string) :
  allChars p (a +:+ b) = allChars p a && allChars p b.
Proof.
  induction a as [| c a IH]; [reflexivity |].
  rewrite append_cons. cbn [allChars]. rewrite IH. by rewrite andb_assoc.
Qed.

Lemma splitAt_some (s user rest : string) :
  splitAt s = Some (user, rest) ->
  s = user +:+ String "@" rest.
Proof.
  revert user rest. induction s as [| c s IH]; intros user rest; [discriminate |].
  cbn [splitAt]. destruct (Ascii.eqb_spec c "@") as [-> | Hc].
  - by intros [= <- <-].
  - destruct (splitAt s) as [[a b] |]; [| discriminate].
    intros [= <- <-]. rewrite append_cons. f_equal. by apply IH.
Qed.

Lemma splitAt_plain (user rest : string) :
  allChars plainChar user = true ->
  splitAt (user +:+ String "@" rest) = Some (user, rest).
Proof.
  induction user as [| c user IH]; [reflexivity |].
  cbn [allChars]. intros [Hc Hu]%andb_prop.
  rewrite append_cons. cbn [splitAt]. unfold plainChar in Hc. apply andb_prop in Hc as [_ Hc].
  destruct (Ascii.eqb c "@"); [discriminate |]. by rewrite IH.
Qed.

Lemma inner_dot_list (r : list ascii) :
  existsb (fun c => Ascii.eqb c ".") (removelast r) = true <->
  exists p q, r = (p ++ "."%char :: q)%list /\ q <> [].
Proof.
  induction r as [| c r IH].
  - split; [discriminate |]. intros (p & q & Heq & _). by destruct p.
  - destruct r as [| d r].
    + split; [discriminate |]. intros (p & q & Heq & Hq).
      destruct p as [| ? [| ? ?]]; cbn [app] in Heq; simplify_eq; done.
    + change (removelast (c :: d :: r)) with (c :: removelast (d :: r)).
      cbn [existsb]. rewrite orb_true_iff, IH. split.
      * intros [Hc | (p & q & Heq & Hq)].
        -- apply Ascii.eqb_eq in Hc as ->. by exists [], (d :: r).
        -- exists (c :: p), q. split; [by rewrite Heq | done].
      * intros (p & q & Heq & Hq). destruct p as [| c' p]; cbn [app] in Heq;
          injection Heq as -> Hr.
        -- left. apply Ascii.eqb_refl.
        -- right. by exists p, q.
Qed.

Lemma string_of_app (a b : list ascii) :
  string_of_list_ascii (a ++ b) = string_of_list_ascii a +:+ string_of_list_ascii b.
Proof.
  induction a as [| c a IH]; [reflexivity |].
  cbn [app string_of_list_ascii]. by rewrite append_cons, IH.
Qed.

Lemma list_of_app (a b : string) :
  list_ascii_of_string (a +:+ b) = (list_ascii_of_string a ++ list_ascii_of_string b)%list.
Proof.
  induction a as [| c a IH]; [reflexivity |].
  rewrite append_cons. cbn [app list_ascii_of_string]. by rewrite IH.
Qed.

Lemma hasInnerDot_iff (s : string) :
  hasInnerDot s = true <->
  exists host tld, s = host +:+ String "." tld /\ host <> "" /\ tld <> "".
Proof.
  unfold hasInnerDot. destruct s as [| c s].
  - split; [discriminate |]. intros (host & tld & Heq & Hh & _). by destruct host.
  - cbn [list_ascii_of_string]. rewrite inner_dot_list. split.
    + intros (p & q & Heq & Hq).
      exists (String c (string_of_list_ascii p)), (string_of_list_ascii q).
      split; [| split; [done |]].
      * rewrite append_cons. f_equal.
        rewrite <- (string_of_list_ascii_of_string s), Heq.
        by rewrite string_of_app.
      * by destruct q.
    + intros (host & tld & Heq & Hh & Ht). destruct host as [| c' host]; [done |].
      rewrite append_cons in Heq. injection Heq as -> ->.
      exists (list_ascii_of_string host), (list_ascii_of_string tld).
      split; [by rewrite list_of_app | by destruct tld].
Qed.

(** X8: [isValidEmail] accepts exactly the strings of the form
    user@host.tld, where user, host and tld are non-empty and contain neither
    a blank nor an [@] (dots are allowed in all three). *)
Theorem isValidEmail_iff_user_at_host_dot_tld :
  forall email : string,
    isValidEmail email = true <->
    exists user host tld : string,
      email = user +:+ "@" +:+ host +:+ "." +:+ tld
      /\ user <> "" /\ host <> "" /\ tld <> ""
      /\ allChars plainChar user = true
      /\ allChars plainChar host = true
      /\ allChars plainChar tld = true.
Proof.
  intros email. unfold isValidEmail. split.
  - destruct (splitAt email) as [[user rest] |] eqn:Hsplit; [| discriminate].
    apply splitAt_some in Hsplit as ->.
    intros [[[Hu Hpu]%andb_prop Hpr]%andb_prop Hdot]%andb_prop.
    apply hasInnerDot_iff in Hdot as (host & tld & -> & Hh & Ht).
    rewrite allChars_app in Hpr. apply andb_prop in Hpr as [Hph Hpt].
    cbn [allChars] in Hpt. apply andb_prop in Hpt as [_ Hpt].
    exists user, host, tld. repeat split; try done. by destruct user.
  - intros (user & host & tld & -> & Hu & Hh & Ht & Hpu & Hph & Hpt).
    change (user +:+ "@" +:+ host +:+ "." +:+ tld)
      with (user +:+ String "@" (host +:+ String "." tld)).
    rewrite splitAt_plain by done. rewrite Hpu, allChars_app, Hph. cbn [allChars andb].
    rewrite Hpt. change (plainChar ".") with true. cbn [andb].
    assert (hasInnerDot (host +:+ String "." tld) = true) as ->.
    { apply hasInnerDot_iff. by exists host, tld. }
    by destruct user.
Qed.

End EmailFacts.

(** ** The booking page: payment, selection and the stored session *)

Section SessionFacts.
Import JS Data Validators Booking.
Context `{Host}.

Ltac fields :=
  cbn [bookingState localStorage inputs elements texts display cards activeStep
       selector errors setState setStorage setInputs setTexts setDisplay setCards
       setActiveStep setSelector showError
       currentStep searchData selectedFlight passengerData paymentData bookingDetails
       withSearchData withCurrentStep withSelectedFlight withPassengerData
       withPaymentData withBookingDetails flightSearch bookingStateSlot] in *.

Lemma removeWhiteSpace_idem (s : string) :
  removeWhiteSpace (removeWhiteSpace s) = removeWhiteSpace s.
Proof. unfold removeWhiteSpace. apply filterChars_all, allChars_filterChars. Qed.

Lemma valid_card_number_is_not_empty (s : string) :
  isValidCardNumber s = true -> truthy (removeWhiteSpace s) = true.
Proof.
  intros (_ & Hlen)%isValidCardNumber_iff.
  destruct (removeWhiteSpace s); [unfold len in Hlen; simpl in Hlen; lia | done].
Qed.

Lemma isValidCardNumber_removeWhiteSpace (s : string) :
  isValidCardNumber (removeWhiteSpace s) = isValidCardNumber s.
Proof. unfold isValidCardNumber. by rewrite removeWhiteSpace_idem. Qed.

Lemma valid_expiry_is_not_empty (fullYear monthIndex : Z) (s : string) :
  isValidExpiryDate fullYear monthIndex s = true -> truthy s = true.
Proof. by destruct s. Qed.

Lemma valid_cvv_is_not_empty (s : string) : isValidCVV s = true -> truthy s = true.
Proof. by destruct s. Qed.

(** The payment form by the values of its four controls: the emptiness checks
    of the number, the expiry date and the CVV are subsumed by the format
    checks. *)
Lemma validatePaymentForm_cases env w cardName cardNumber cardExpiry cardCVV :
  inputs w !! "cardName" = Some cardName ->
  inputs w !! "cardNumber" = Some cardNumber ->
  inputs w !! "cardExpiry" = Some cardExpiry ->
  inputs w !! "cardCVV" = Some cardCVV ->
  exists message,
    validatePaymentForm env w
    = if truthy (trim cardName) && isValidCardNumber (trim cardNumber)
         && isValidExpiryDate (fullYear env) (monthIndex env) (trim cardExpiry)
         && isValidCVV (trim cardCVV)
      then (true,
            setState
              (withPaymentData
                 (Some (mkPaymentData (trim cardName)
                          (sliceLast 4 (removeWhiteSpace (trim cardNumber)))
                          (trim cardExpiry)))
                 (bookingState w)) w)
      else (false, showError message w).
Proof.
  intros Hn Hc Hx Hv. unfold validatePaymentForm, trimmedValue.
  rewrite Hn, Hc, Hx, Hv.
  cbn [fmap option_fmap option_map missing default from_option Datatypes.id].
  rewrite isValidCardNumber_removeWhiteSpace.
  destruct (truthy (trim cardName)); cbn [negb andb]; [| by eauto].
  destruct (isValidCardNumber (trim cardNumber)) eqn:Hnum; cbn [negb andb].
  - rewrite (valid_card_number_is_not_empty _ Hnum). cbn [negb].
    destruct (isValidExpiryDate _ _ (trim cardExpiry)) eqn:Hexp; cbn [negb andb].
    + rewrite (valid_expiry_is_not_empty _ _ _ Hexp). cbn [negb].
      destruct (isValidCVV (trim cardCVV)) eqn:Hcvv; cbn [negb andb].
      * rewrite (valid_cvv_is_not_empty _ Hcvv). cbn [negb]. by eauto.
      * destruct (truthy (trim cardCVV)); cbn [negb]; by eauto.
    + destruct (truthy (trim cardExpiry)); cbn [negb]; by eauto.
  - destruct (truthy (removeWhiteSpace (trim cardNumber))); cbn [negb]; by eauto.
Qed.

(** X9: with the four controls of the payment form, the confirm button and
    the confirmation panel in the document, [handlePayment] books exactly when
    the trimmed holder name is not empty, the trimmed card number has 13 to 19
    digits and nothing but digits and blanks, the trimmed expiry date passes
    [isValidExpiryDate] and the trimmed CVV has three or four digits. It then
    records the booking and, of the card, the name, the last four digits and
    the expiry date, at step 5, without an error; otherwise it shows one error
    and leaves the session record, the storage and the active step alone. *)
Theorem confirm_booking_guard :
  forall (env : Env) (w : World) (cardName cardNumber cardExpiry cardCVV : string),
    inputs w !! "cardName" = Some cardName ->
    inputs w !! "cardNumber" = Some cardNumber ->
    inputs w !! "cardExpiry" = Some cardExpiry ->
    inputs w !! "cardCVV" = Some cardCVV ->
    "confirmBookingBtn" ∈ elements w ->
    stepId 5 ∈ elements w ->
    let digits := removeWhiteSpace (trim cardNumber) in
    let guard :=
      truthy (trim cardName)
      && (allChars isDigit digits && (13 <=? len digits) && (len digits <=? 19))
      && isValidExpiryDate (fullYear env) (monthIndex env) (trim cardExpiry)
      && (allChars isDigit (trim cardCVV) && (3 <=? len (trim cardCVV))
          && (len (trim cardCVV) <=? 4)) in
    (guard = true ->
     createBooking env = Ok (mkBookingDetails
                               ("SKB-" +:+ toUpperCase (substr 2 6 (random36 env)))
                               (now env) (isoString env) "confirmed")
     /\ bookingState (handlePayment env w)
        = mkBookingState 5 (searchData (bookingState w)) (selectedFlight (bookingState w))
            (passengerData (bookingState w))
            (Some (mkPaymentData (trim cardName) (sliceLast 4 digits) (trim cardExpiry)))
            (Some (mkBookingDetails
                     ("SKB-" +:+ toUpperCase (substr 2 6 (random36 env)))
                     (now env) (isoString env) "confirmed"))
     /\ activeStep (handlePayment env w) = Some 5
     /\ errors (handlePayment env w) = errors w)
    /\ (guard = false ->
        bookingState (handlePayment env w) = bookingState w
        /\ localStorage (handlePayment env w) = localStorage w
        /\ activeStep (handlePayment env w) = activeStep w
        /\ exists message, errors (handlePayment env w) = (errors w ++ [message])%list).
Proof.
  intros env w n c x v Hn Hc Hx Hv Hbtn Hstep digits guard.
  assert (guard = truthy (trim n) && isValidCardNumber (trim c)
                  && isValidExpiryDate (fullYear env) (monthIndex env) (trim x)
                  && isValidCVV (trim v)) as Hguard.
  { unfold guard, digits, isValidCVV. do 3 f_equal.
    destruct (isValidCardNumber (trim c)) eqn:Hnum.
    - apply isValidCardNumber_iff in Hnum as (-> & Hlen). cbn [andb].
      destruct (Z.leb_spec 13 (len (removeWhiteSpace (trim c)))),
               (Z.leb_spec (len (removeWhiteSpace (trim c))) 19); lia.
    - apply not_true_iff_false. intros Hd. apply not_true_iff_false in Hnum. apply Hnum.
      apply isValidCardNumber_iff.
      apply andb_prop in Hd as [[Hd H13]%andb_prop H19]. split; [done | lia]. }
  destruct (validatePaymentForm_cases env w n c x v Hn Hc Hx Hv) as (msg & Hcases).
  rewrite <- Hguard in Hcases. unfold handlePayment. rewrite Hcases.
  destruct guard; cbn [negb]; (split; [try done | try done]); intros _;
    [| fields; by eauto].
  fields. case_decide; [| done].
  unfold confirmBooking, processPayment, createBooking. cbn [mbind result_bind].
  split; [reflexivity |].
  match goal with
  | |- context [updateConfirmation ?w0] =>
      destruct (updateConfirmation_sameSession w0) as (-> & _ & -> & _ & _ & ->)
  end.
  rewrite navigateToStep_errors.
  match goal with
  | |- context [navigateToStep 5 ?w0] =>
      destruct (navigateToStep_present 5 w0) as (-> & -> & _); [done |]
  end.
  done.
Qed.


(** *** Who writes which part of the session record, and the storage *)

Lemma navigateToStep_parts step w :
  searchData (bookingState (navigateToStep step w)) = searchData (bookingState w)
  /\ selectedFlight (bookingState (navigateToStep step w)) = selectedFlight (bookingState w)
  /\ passengerData (bookingState (navigateToStep step w)) = passengerData (bookingState w)
  /\ paymentData (bookingState (navigateToStep step w)) = paymentData (bookingState w)
  /\ bookingDetails (bookingState (navigateToStep step w)) = bookingDetails (bookingState w).
Proof.
  destruct (decide (stepId step ∈ elements w)) as [Hin | Hout];
    [ destruct (navigateToStep_present step w Hin) as (-> & _)
    | destruct (navigateToStep_absent step w Hout) as (-> & _) ]; done.
Qed.

(** [navigateToStep] leaves the pending search alone; the session slot is
    left alone or becomes the record the page now has. *)
Lemma navigateToStep_storage step w :
  flightSearch (localStorage (navigateToStep step w)) = flightSearch (localStorage w)
  /\ (bookingStateSlot (localStorage (navigateToStep step w))
      = bookingStateSlot (localStorage w)
      \/ bookingStateSlot (localStorage (navigateToStep step w))
         = Some (Json (bookingState (navigateToStep step w)))).
Proof.
  unfold navigateToStep, saveBookingState, JSON_stringify. fields.
  case_decide; fields; split; try done; [by right | by left].
Qed.

(** The three ways [handleSearch] ends. *)
Lemma handleSearch_shape w :
  handleSearch w = w
  \/ (exists message, handleSearch w = showError message w)
  \/ (exists searchData w3,
         handleSearch w = showLoading false (navigateToStep 2 w3)
         /\ bookingState w3 = withSearchData (Some searchData) (bookingState w)
         /\ localStorage w3 = localStorage w
         /\ errors w3 = errors w).
Proof.
  unfold handleSearch.
  destruct (inputs w !! "bookingFrom") as [f |]; [| by left].
  destruct (inputs w !! "bookingTo") as [t |]; [| by left].
  destruct (inputs w !! "bookingDeparture") as [d |]; [| by left].
  destruct (inputs w !! "bookingReturn") as [r |]; [| by left].
  cbv zeta. cbn [from to departureDate].
  destruct (truthy (trim f)); cbn [negb]; [| by eauto].
  destruct (truthy (trim t)); cbn [negb]; [| by eauto].
  destruct (strEq _ _); [by eauto |].
  destruct (truthy d); cbn [negb]; [| by eauto].
  right. right. do 2 eexists. split; [reflexivity |].
  match goal with
  | |- context [displayFlights ?fl (showLoading true ?w1)] =>
      destruct (displayFlights_core fl (showLoading true w1)) as (-> & -> & _ & -> & _);
      destruct (showLoading_sameSession true w1) as (-> & -> & _ & _ & _ & ->)
  end.
  done.
Qed.

(** The three ways [handlePayment] ends. *)
Lemma handlePayment_shape env w :
  (exists message, handlePayment env w = showError message w)
  \/ (exists payment,
         handlePayment env w
         = setState (withPaymentData (Some payment) (bookingState w)) w)
  \/ (exists payment booking,
         createBooking env = Ok booking
         /\ handlePayment env w
            = updateConfirmation
                (navigateToStep 5
                   (saveBookingState
                      (setState
                         (withCurrentStep 5
                            (withBookingDetails (Some booking)
                               (withPaymentData (Some payment) (bookingState w))))
                         w)))).
Proof.
  unfold handlePayment.
  destruct (validatePaymentForm env w) as [[|] w1] eqn:Hv; cbn [negb].
  - destruct (validatePaymentForm_true _ _ _ Hv) as (n & c & x & v & _ & _ & _ & _ & _ & ->).
    fields. case_decide; [| by eauto].
    right. right. do 2 eexists. split; reflexivity.
  - destruct (validatePaymentForm_false _ _ _ Hv) as (msg & ->). by eauto.
Qed.

Lemma selectorClick_session type action w :
  bookingState (selectorClick type action w) = bookingState w
  /\ localStorage (selectorClick type action w) = localStorage w
  /\ activeStep (selectorClick type action w) = activeStep w
  /\ errors (selectorClick type action w) = errors w.
Proof.
  unfold selectorClick. repeat case_match; try done;
    match goal with
    | |- context [setText ?e ?t ?w0] =>
        by destruct (setText_sameSession e t w0) as (-> & -> & -> & _ & _ & ->)
    end.
Qed.

Lemma selectorApply_session w :
  (exists d, bookingState (selectorApply w) = withSearchData d (bookingState w))
  /\ localStorage (selectorApply w) = localStorage w
  /\ activeStep (selectorApply w) = activeStep w
  /\ errors (selectorApply w) = errors w.
Proof.
  unfold selectorApply. destruct (selector w) as [p |].
  - cbv zeta. fields.
    match goal with
    | |- context [setText ?e ?t ?w0] =>
        destruct (setText_sameSession e t w0) as (-> & -> & -> & _ & _ & ->)
    end.
    split; [by eexists | done].
  - split; [| done]. exists (searchData (bookingState w)). by destruct (bookingState w).
Qed.

(** What any event other than a reload does to the storage. *)
Lemma handle_storage e w :
  (forall doc pending, e <> Reload doc pending) ->
  flightSearch (localStorage (handle e w)) = flightSearch (localStorage w)
  /\ (bookingStateSlot (localStorage (handle e w)) = bookingStateSlot (localStorage w)
      \/ bookingStateSlot (localStorage (handle e w))
         = Some (Json (bookingState (handle e w)))).
Proof.
  intros Hreload. destruct e; cbn [handle]; try (by destruct (Hreload doc pending)).
  - destruct (typeInto_sameSession elt value w) as (_ & -> & _). by split; [| left].
  - destruct (handleSearch_shape w) as [-> | [(msg & ->) | (sd & w3 & -> & _ & Hl & _)]];
      [by split; [| left] | by split; [| left] |].
    destruct (showLoading_sameSession false (navigateToStep 2 w3)) as (-> & -> & _).
    rewrite <- Hl. apply navigateToStep_storage.
  - destruct (selectorClick_session type action w) as (_ & -> & _). by split; [| left].
  - destruct (selectorApply_session w) as (_ & -> & _). by split; [| left].
  - unfold selectFlight. case_match; by split; [| left].
  - unfold validatePassengerStep.
    destruct (selectedFlight (bookingState w)); [| by split; [| left]].
    apply navigateToStep_storage.
  - apply navigateToStep_storage.
  - apply navigateToStep_storage.
  - destruct (validatePassengerDetails w) as [[|] w1] eqn:Hv.
    + destruct (validatePassengerDetails_true _ _ Hv) as (pd & ->).
      match goal with
      | |- context [updatePaymentSummary ?w0] =>
          destruct (updatePaymentSummary_sameSession w0) as (-> & -> & _)
      end.
      match goal with
      | |- context [navigateToStep 4 ?w0] => apply (navigateToStep_storage 4 w0)
      end.
    + destruct (validatePassengerDetails_false _ _ Hv) as (msg & ->). by split; [| left].
  - apply navigateToStep_storage.
  - destruct (handlePayment_shape env w) as [(msg & ->) | [(pd & ->) | (pd & bd & _ & ->)]];
      [by split; [| left] | by split; [| left] |].
    match goal with
    | |- context [updateConfirmation ?w0] =>
        destruct (updateConfirmation_sameSession w0) as (-> & -> & _)
    end.
    match goal with
    | |- context [navigateToStep 5 ?w0] =>
        destruct (navigateToStep_storage 5 w0) as (-> & [-> | ->]);
        destruct (decide (stepId 5 ∈ elements w0)) as [Hin | Hout];
        [ destruct (navigateToStep_present 5 w0 Hin) as (-> & _)
        | destruct (navigateToStep_absent 5 w0 Hout) as (-> & _)
        | destruct (navigateToStep_present 5 w0 Hin) as (-> & _)
        | destruct (navigateToStep_absent 5 w0 Hout) as (-> & _) ]
    end; unfold saveBookingState, JSON_stringify; fields; split; try done; by right.
  - apply navigateToStep_storage.
Qed.


(** *** Selecting a flight *)

Lemma find_first_with_id (flightId : string) (flights : list Flight) :
  match List.find (fun f => strEq (id f) flightId) flights with
  | Some flight => flight ∈ flights /\ id flight = flightId
  | None => forall flight, flight ∈ flights -> id flight <> flightId
  end.
Proof.
  induction flights as [| f flights IH]; cbn [List.find].
  - intros flight Hin. by apply elem_of_nil in Hin.
  - unfold strEq at 1. case_bool_decide as Hid.
    + split; [apply list_elem_of_here | done].
    + destruct (List.find _ flights) as [flight |].
      * destruct IH as [Hin Heq]. split; [by apply list_elem_of_further | done].
      * intros flight [-> | Hin]%elem_of_cons; [done | by apply IH].
Qed.

(** X10: a click on a flight card selects the first rendered flight with the
    id of the card and nothing else: when no rendered flight has the id the
    page is unchanged. The click moves to no other step and saves nothing, so
    a reload right after it comes up as if the card had not been clicked. *)
Theorem card_click_selects_a_rendered_flight_and_saves_nothing :
  forall (flightId : string) (w : World),
    ((exists flight : Flight,
         flight ∈ cardFlight <$> cards w /\ id flight = flightId
         /\ bookingState (selectFlight flightId w)
            = withSelectedFlight (Some flight) (bookingState w))
     \/ ((forall card : Card, card ∈ cards w -> id (cardFlight card) <> flightId)
         /\ selectFlight flightId w = w))
    /\ localStorage (selectFlight flightId w) = localStorage w
    /\ activeStep (selectFlight flightId w) = activeStep w
    /\ errors (selectFlight flightId w) = errors w
    /\ forall (doc : Document) (pending : option SearchData),
        handle (Reload doc pending) (selectFlight flightId w)
        = handle (Reload doc pending) w.
Proof.
  intros flightId w.
  assert (localStorage (selectFlight flightId w) = localStorage w) as Hl.
  { unfold selectFlight. by case_match. }
  split; [| split; [exact Hl | split; [| split]]].
  - pose proof (find_first_with_id flightId (cardFlight <$> cards w)) as Hfind.
    unfold selectFlight.
    destruct (List.find _ (cardFlight <$> cards w)) as [flight |].
    + left. exists flight. destruct Hfind. done.
    + right. split; [| done]. intros card Hin. apply Hfind.
      by apply list_elem_of_fmap_2.
  - unfold selectFlight. by case_match.
  - unfold selectFlight. by case_match.
  - intros doc pending. cbn [handle]. by rewrite Hl.
Qed.

Lemma navigateToStep_cards step w : cards (navigateToStep step w) = cards w.
Proof.
  unfold navigateToStep, saveBookingState. fields. by case_decide.
Qed.

(** The cards after a search that passes its checks. *)
Lemma handleSearch_cards w bookingFrom bookingTo bookingDeparture bookingReturn :
  inputs w !! "bookingFrom" = Some bookingFrom ->
  inputs w !! "bookingTo" = Some bookingTo ->
  inputs w !! "bookingDeparture" = Some bookingDeparture ->
  inputs w !! "bookingReturn" = Some bookingReturn ->
  "flightsResults" ∈ elements w ->
  truthy (trim bookingFrom) = true ->
  truthy (trim bookingTo) = true ->
  toLowerCase (trim bookingFrom) <> toLowerCase (trim bookingTo) ->
  truthy bookingDeparture = true ->
  cardFlight <$> cards (handleSearch w)
  = searchFlightsAPI
      (mkSearchData (trim bookingFrom) (trim bookingTo) bookingDeparture
                    (Some bookingReturn) None
                    (Some (passengersOrDefault (bookingState w)))).
Proof.
  intros Hf Ht Hd Hr Hres Hfrom Hto Hdiff Hdep. unfold handleSearch.
  rewrite Hf, Ht, Hd, Hr. cbv zeta. cbn [from to departureDate].
  rewrite Hfrom, Hto, Hdep. cbn [negb].
  unfold strEq. rewrite bool_decide_eq_false_2 by done.
  match goal with
  | |- context [showLoading false ?w4] =>
      destruct (showLoading_core false w4) as (_ & _ & _ & _ & _ & ->)
  end.
  rewrite navigateToStep_cards.
  rewrite displayFlights_cards.
  - rewrite <- list_fmap_compose. by rewrite list_fmap_id.
  - match goal with
    | |- context [showLoading true ?w1] =>
        destruct (showLoading_core true w1) as (_ & _ & _ & _ & -> & _)
    end.
    done.
Qed.

(** X11: after a search that passes its checks, each of the three offers
    SB123, SB456 and SB789 can be selected by its card, and the selected
    flight flies between the searched cities; a click with any other id
    selects nothing. *)
Theorem each_searched_offer_can_be_selected :
  forall (w : World) (bookingFrom bookingTo bookingDeparture bookingReturn : string),
    inputs w !! "bookingFrom" = Some bookingFrom ->
    inputs w !! "bookingTo" = Some bookingTo ->
    inputs w !! "bookingDeparture" = Some bookingDeparture ->
    inputs w !! "bookingReturn" = Some bookingReturn ->
    "flightsResults" ∈ elements w ->
    truthy (trim bookingFrom) = true ->
    truthy (trim bookingTo) = true ->
    toLowerCase (trim bookingFrom) <> toLowerCase (trim bookingTo) ->
    truthy bookingDeparture = true ->
    forall flightId : string,
      (flightId ∈ ["SB123"; "SB456"; "SB789"] ->
       exists flight : Flight,
         selectedFlight (bookingState (selectFlight flightId (handleSearch w)))
         = Some flight
         /\ id flight = flightId
         /\ departureCity flight = trim bookingFrom
         /\ arrivalCity flight = trim bookingTo)
      /\ (flightId ∉ ["SB123"; "SB456"; "SB789"] ->
          selectFlight flightId (handleSearch w) = handleSearch w).
Proof.
  intros w f t d r Hf Ht Hd Hr Hres Hfrom Hto Hdiff Hdep flightId.
  pose proof (handleSearch_cards w f t d r Hf Ht Hd Hr Hres Hfrom Hto Hdiff Hdep) as Hcards.
  unfold selectFlight. rewrite Hcards. unfold searchFlightsAPI.
  cbn [from to]. unfold orElse. rewrite Hfrom, Hto.
  cbn [List.find id]. unfold strEq.
  split.
  - intros Hin. repeat (apply elem_of_cons in Hin as [-> | Hin]);
      [| | | by apply elem_of_nil in Hin];
      repeat (case_bool_decide; [| done]); try done; fields;
      eexists; (split; [reflexivity | done]).
  - intros Hout.
    repeat (case_bool_decide; [exfalso; apply Hout; subst flightId; set_solver |]).
    done.
Qed.

(** X12: each part of the session record has its own writers. Apart from a
    reload, the selected flight is changed by a click on a card only, the
    passenger details by the button to continue to the payment only, the
    payment data and the booking by the confirm button only, and the search
    criteria by the search form and the Apply button of the passenger selector
    only. In particular a new search keeps the flight that was selected from
    the results of an earlier one. *)
Theorem each_part_of_the_session_has_its_writers :
  forall (e : Event) (w : World),
    (forall doc pending, e <> Reload doc pending) ->
    ((forall flightId, e <> ClickCard flightId) ->
     selectedFlight (bookingState (handle e w)) = selectedFlight (bookingState w))
    /\ (e <> ContinueToPayment ->
        passengerData (bookingState (handle e w)) = passengerData (bookingState w))
    /\ ((forall env, e <> ConfirmBooking env) ->
        paymentData (bookingState (handle e w)) = paymentData (bookingState w)
        /\ bookingDetails (bookingState (handle e w)) = bookingDetails (bookingState w))
    /\ (e <> SubmitSearch -> e <> SelectorApply ->
        searchData (bookingState (handle e w)) = searchData (bookingState w)).
Proof.
  intros e w Hreload. destruct e; cbn [handle]; try (by destruct (Hreload doc pending)).
  - by destruct (typeInto_sameSession elt value w) as (-> & _).
  - destruct (handleSearch_shape w) as [-> | [(msg & ->) | (sd & w3 & -> & Hs & _)]];
      [done | done |].
    destruct (showLoading_sameSession false (navigateToStep 2 w3)) as (-> & _).
    destruct (navigateToStep_parts 2 w3) as (_ & -> & -> & -> & ->).
    rewrite Hs. done.
  - by destruct (selectorClick_session type action w) as (-> & _).
  - destruct (selectorApply_session w) as ((d & ->) & _). done.
  - unfold selectFlight. case_match; [| done]. fields. split; [| done].
    intros Hne. by destruct (Hne flightId).
  - unfold validatePassengerStep.
    destruct (selectedFlight (bookingState w)) eqn:Hsel; [| fields; by rewrite Hsel].
    destruct (navigateToStep_parts 3 w) as (-> & -> & -> & -> & ->). by rewrite Hsel.
  - by destruct (navigateToStep_parts 1 w) as (-> & -> & -> & -> & ->).
  - by destruct (navigateToStep_parts 1 w) as (-> & -> & -> & -> & ->).
  - destruct (validatePassengerDetails w) as [[|] w1] eqn:Hv.
    + destruct (validatePassengerDetails_true _ _ Hv) as (pd & ->).
      match goal with
      | |- context [updatePaymentSummary ?w0] =>
          destruct (updatePaymentSummary_sameSession w0) as (-> & _)
      end.
      match goal with
      | |- context [navigateToStep 4 ?w0] =>
          destruct (navigateToStep_parts 4 w0) as (-> & -> & -> & -> & ->)
      end.
      done.
    + destruct (validatePassengerDetails_false _ _ Hv) as (msg & ->). done.
  - by destruct (navigateToStep_parts 2 w) as (-> & -> & -> & -> & ->).
  - destruct (handlePayment_shape env w) as [(msg & ->) | [(pd & ->) | (pd & bd & _ & ->)]].
    + done.
    + split; [done |]. split; [done |]. split; [| done].
      intros Hne. by destruct (Hne env).
    + match goal with
      | |- context [updateConfirmation ?w0] =>
          destruct (updateConfirmation_sameSession w0) as (-> & _)
      end.
      match goal with
      | |- context [navigateToStep 5 ?w0] =>
          destruct (navigateToStep_parts 5 w0) as (-> & -> & -> & -> & ->)
      end.
      unfold saveBookingState. fields.
      split; [done |]. split; [done |]. split; [| done].
      intros Hne. by destruct (Hne env).
  - by destruct (navigateToStep_parts 3 w) as (-> & -> & -> & -> & ->).
Qed.

(** *** The storage *)

Lemma initBookingFlow_slot doc storage :
  flightSearch (localStorage (initBookingFlow (freshWorld doc storage)))
  = flightSearch storage
  /\ (is_Some (bookingStateSlot storage) ->
      is_Some (bookingStateSlot (localStorage (initBookingFlow (freshWorld doc storage))))).
Proof.
  unfold initBookingFlow. cbn [freshWorld localStorage].
  destruct (getItemTruthy (bookingStateSlot storage)) as [[raw | | p] |];
    cbn [JSON_parse mbind result_bind restoreState]; try done.
  match goal with
  | |- context [navigateToStep ?k ?w0] =>
      destruct (navigateToStep_storage k w0) as (-> & [-> | ->])
  end; done.
Qed.

Lemma loadSearchData_slot w :
  bookingStateSlot (localStorage (loadSearchData w)) = bookingStateSlot (localStorage w).
Proof. by destruct (loadSearchData_keeps w) as (d & _ & -> & _). Qed.

Lemma pageLoad_slot doc storage :
  is_Some (bookingStateSlot storage) ->
  is_Some (bookingStateSlot (localStorage (pageLoad doc storage))).
Proof.
  intros Hsome. unfold pageLoad.
  destruct (initPassengerSelector_keeps
              (loadSearchData (initBookingFlow (freshWorld doc storage))))
    as (_ & -> & _).
  rewrite loadSearchData_slot. by apply initBookingFlow_slot.
Qed.

(** X13: no event removes the stored session. A session slot that holds
    something still holds something after any event, a reload included; and
    an event other than a reload leaves the pending search of the homepage
    alone and either leaves the session slot as it is or writes into it the
    session record that the page then has. *)
Theorem stored_session_is_written_never_removed :
  forall (e : Event) (w : World),
    (is_Some (bookingStateSlot (localStorage w)) ->
     is_Some (bookingStateSlot (localStorage (handle e w))))
    /\ ((forall doc pending, e <> Reload doc pending) ->
        flightSearch (localStorage (handle e w)) = flightSearch (localStorage w)
        /\ (bookingStateSlot (localStorage (handle e w))
            = bookingStateSlot (localStorage w)
            \/ bookingStateSlot (localStorage (handle e w))
               = Some (Json (bookingState (handle e w))))).
Proof.
  intros e w. split; [| apply handle_storage].
  intros Hsome.
  assert ((exists doc pending, e = Reload doc pending)
          \/ forall doc pending, e <> Reload doc pending) as [(doc & pending & ->) | Hno].
  { destruct e; try (by right); left; by eauto. }
  - cbn [handle]. apply pageLoad_slot. by destruct pending.
  - by destruct (handle_storage e w Hno) as (_ & [-> | ->]).
Qed.


(** *** Loading the page *)

(** What [initBookingFlow] makes of a stored session record. *)
Lemma initBookingFlow_restored doc storage p :
  bookingStateSlot storage = Some (Json p) ->
  let step := if currentStep p =? 0 then 1 else currentStep p in
  bookingState (initBookingFlow (freshWorld doc storage))
  = mkBookingState step (searchData p) (selectedFlight p) (passengerData p)
                   (paymentData p) (bookingDetails p)
  /\ activeStep (initBookingFlow (freshWorld doc storage))
     = (if decide (stepId step ∈ docElements doc) then Some step else None).
Proof.
  intros Hslot step. unfold initBookingFlow. cbn [freshWorld localStorage].
  rewrite Hslot. cbn [getItemTruthy JSON_parse mbind result_bind restoreState].
  fields. cbn [initialBookingState numOr]. fields. fold step.
  match goal with
  | |- context [navigateToStep ?k ?w0] =>
      destruct (decide (stepId k ∈ elements w0)) as [Hin | Hout];
      [ destruct (navigateToStep_present k w0 Hin) as (-> & -> & _)
      | destruct (navigateToStep_absent k w0 Hout) as (-> & -> & _) ]
  end; fields; (split; [done |]); case_decide; done.
Qed.

(** [loadSearchData] by what the pending slot holds. *)
Lemma loadSearchData_pending w :
  match getItemTruthy (flightSearch (localStorage w)) with
  | Some (Json d) =>
      bookingState (loadSearchData w) = withSearchData (Some d) (bookingState w)
      /\ localStorage (loadSearchData w)
         = mkStorage None (bookingStateSlot (localStorage w))
  | Some JsonNull =>
      bookingState (loadSearchData w) = withSearchData None (bookingState w)
      /\ localStorage (loadSearchData w) = localStorage w
  | _ => loadSearchData w = w
  end.
Proof.
  unfold loadSearchData.
  destruct (getItemTruthy (flightSearch (localStorage w))) as [[raw | | d] |];
    cbn [JSON_parse]; try done.
  cbv zeta.
  match goal with
  | |- context [setStorage _ ?w6] =>
      assert (sameSession
                (setState (withSearchData (Some d) (bookingState w)) w) w6)
        as (Hs & Hl & _)
  end.
  { repeat case_match;
      repeat first
        [ apply sameSession_refl
        | eapply sameSession_trans;
          [| first [ apply setText_sameSession | apply setValue_sameSession ] ] ]. }
  fields. by rewrite Hs, Hl.
Qed.

Lemma pageLoad_session doc storage :
  bookingState (pageLoad doc storage)
  = bookingState (loadSearchData (initBookingFlow (freshWorld doc storage)))
  /\ localStorage (pageLoad doc storage)
     = localStorage (loadSearchData (initBookingFlow (freshWorld doc storage)))
  /\ activeStep (pageLoad doc storage)
     = activeStep (initBookingFlow (freshWorld doc storage))
  /\ elements (pageLoad doc storage) = docElements doc
  /\ errors (pageLoad doc storage) = [].
Proof.
  unfold pageLoad.
  destruct (initPassengerSelector_keeps
              (loadSearchData (initBookingFlow (freshWorld doc storage))))
    as (-> & -> & -> & -> & ->).
  destruct (loadSearchData_keeps (initBookingFlow (freshWorld doc storage)))
    as (d & _ & _ & -> & -> & ->).
  split; [done |]. split; [done |]. split; [done |].
  unfold initBookingFlow. cbn [freshWorld localStorage].
  destruct (getItemTruthy (bookingStateSlot storage)) as [[raw | | p] |];
    cbn [JSON_parse mbind result_bind restoreState]; try done.
  rewrite navigateToStep_errors. unfold navigateToStep, saveBookingState. fields.
  by case_decide.
Qed.

(** A booking made by [handlePayment] is in the record and in the storage. *)
Lemma handlePayment_booked env w :
  fst (validatePaymentForm env w) = true ->
  "confirmBookingBtn" ∈ elements w ->
  exists booking,
    createBooking env = Ok booking
    /\ currentStep (bookingState (handlePayment env w)) = 5
    /\ bookingDetails (bookingState (handlePayment env w)) = Some booking
    /\ selectedFlight (bookingState (handlePayment env w)) = selectedFlight (bookingState w)
    /\ bookingStateSlot (localStorage (handlePayment env w))
       = Some (Json (bookingState (handlePayment env w))).
Proof.
  intros Hvalid Hbtn. unfold handlePayment.
  destruct (validatePaymentForm env w) as [valid w1] eqn:Hv. simpl in Hvalid. subst valid.
  destruct (validatePaymentForm_true _ _ _ Hv) as (n & c & e & v & _ & _ & _ & _ & _ & ->).
  cbn [negb]. fields. case_decide; [| done].
  eexists. split; [reflexivity |].
  unfold confirmBooking, processPayment, createBooking. cbn [mbind result_bind].
  match goal with
  | |- context [updateConfirmation ?w0] =>
      destruct (updateConfirmation_sameSession w0) as (-> & -> & _)
  end.
  unfold navigateToStep, saveBookingState, JSON_stringify. fields.
  case_decide; fields; done.
Qed.

(** X14: a confirmed booking comes back on every later load of the booking
    page. After [handlePayment] has booked, a load on the storage it left,
    with or without a new pending search from the homepage, restores step 5
    with the booking and the selected flight, and shows the confirmation panel
    when the document has one; a pending search only replaces the search
    criteria. *)
Theorem a_confirmed_booking_comes_back_on_every_load :
  forall (env : Env) (w : World) (doc : Document) (pending : option SearchData),
    fst (validatePaymentForm env w) = true ->
    "confirmBookingBtn" ∈ elements w ->
    exists booking : BookingDetails,
      createBooking env = Ok booking
      /\ let w' := handle (Reload doc pending) (handlePayment env w) in
         currentStep (bookingState w') = 5
         /\ bookingDetails (bookingState w') = Some booking
         /\ selectedFlight (bookingState w') = selectedFlight (bookingState w)
         /\ activeStep w'
            = (if decide (stepId 5 ∈ docElements doc) then Some 5 else None)
         /\ forall d, pending = Some d -> searchData (bookingState w') = Some d.
Proof.
  intros env w doc pending Hvalid Hbtn.
  destruct (handlePayment_booked env w Hvalid Hbtn) as (booking & Hb & Hstep & Hd & Hf & Hslot).
  exists booking. split; [done |]. cbn [handle].
  set (storage := match pending with
                  | Some d => mkStorage (Some (JSON_stringify d))
                                (bookingStateSlot (localStorage (handlePayment env w)))
                  | None => localStorage (handlePayment env w)
                  end).
  assert (bookingStateSlot storage = Some (Json (bookingState (handlePayment env w))))
    as Hstored by (by destruct pending).
  destruct (pageLoad_session doc storage) as (-> & _ & -> & _).
  destruct (initBookingFlow_restored doc storage _ Hstored) as (Hs & Ha).
  rewrite Hstep in Hs, Ha. cbn [Z.eqb] in Hs, Ha.
  pose proof (loadSearchData_pending (initBookingFlow (freshWorld doc storage))) as Hload.
  assert (flightSearch (localStorage (initBookingFlow (freshWorld doc storage)))
          = flightSearch storage) as Hpend by apply initBookingFlow_slot.
  rewrite Hpend in Hload.
  destruct (getItemTruthy (flightSearch storage)) as [[raw | | d] |] eqn:Hget.
  - rewrite Hload, Hs. fields. repeat (split; [done |]).
    intros d ->. by destruct raw.
  - destruct Hload as (-> & _). rewrite Hs. fields. repeat (split; [done |]).
    intros d ->. done.
  - destruct Hload as (-> & _). rewrite Hs. fields. repeat (split; [done |]).
    intros d' ->. cbn in Hget. by injection Hget as ->.
  - rewrite Hload, Hs. fields. repeat (split; [done |]).
    intros d ->. done.
Qed.

Lemma storage_eq (a b : Storage) :
  flightSearch a = flightSearch b -> bookingStateSlot a = bookingStateSlot b -> a = b.
Proof. destruct a, b. cbn. by intros -> ->. Qed.

(** The pending search plays no part in restoring the session. *)
Lemma initBookingFlow_pending doc pending slot :
  bookingState (initBookingFlow (freshWorld doc (mkStorage pending slot)))
  = bookingState (initBookingFlow (freshWorld doc (mkStorage None slot)))
  /\ bookingStateSlot (localStorage (initBookingFlow (freshWorld doc (mkStorage pending slot))))
     = bookingStateSlot (localStorage (initBookingFlow (freshWorld doc (mkStorage None slot))))
  /\ flightSearch (localStorage (initBookingFlow (freshWorld doc (mkStorage pending slot))))
     = pending.
Proof.
  unfold initBookingFlow, freshWorld. fields.
  destruct (getItemTruthy slot) as [[raw | | p] |];
    cbn [JSON_parse mbind result_bind restoreState]; try done.
  unfold navigateToStep, saveBookingState, JSON_stringify. fields.
  case_decide; fields; done.
Qed.

(** X15: the pending search of the homepage is consumed by the load that
    reads it. It becomes the search criteria of the page and is removed from
    the storage, and the storage is then what a load without a pending search
    leaves: nothing of the pending search is saved by the load, so the next
    load does not see it. Pending text that does not parse is ignored and
    stays in the storage; the pending text [null] empties the search criteria
    and stays as well. *)
Theorem pending_search_is_consumed_by_one_load :
  forall (doc : Document) (slot : option (text BookingState)),
    let plain := pageLoad doc (mkStorage None slot) in
    (forall d : SearchData,
        let w := pageLoad doc (mkStorage (Some (Json d)) slot) in
        searchData (bookingState w) = Some d
        /\ flightSearch (localStorage w) = None
        /\ localStorage w = localStorage plain)
    /\ (forall raw : string,
           let w := pageLoad doc (mkStorage (Some (Malformed raw)) slot) in
           bookingState w = bookingState plain
           /\ flightSearch (localStorage w) = Some (Malformed raw))
    /\ (let w := pageLoad doc (mkStorage (Some JsonNull) slot) in
        searchData (bookingState w) = None
        /\ flightSearch (localStorage w) = Some JsonNull).
Proof.
  intros doc slot plain.
  assert (forall pending,
             let w := pageLoad doc (mkStorage pending slot) in
             match getItemTruthy pending with
             | Some (Json d) =>
                 searchData (bookingState w) = Some d
                 /\ flightSearch (localStorage w) = None
                 /\ bookingStateSlot (localStorage w) = bookingStateSlot (localStorage plain)
             | Some JsonNull =>
                 searchData (bookingState w) = None
                 /\ flightSearch (localStorage w) = pending
             | _ =>
                 bookingState w = bookingState plain
                 /\ flightSearch (localStorage w) = pending
             end) as Hload.
  { intros pending w.
    destruct (pageLoad_session doc (mkStorage pending slot)) as (Hs & Hl & _).
    destruct (pageLoad_session doc (mkStorage None slot)) as (Hs0 & Hl0 & _).
    destruct (initBookingFlow_pending doc pending slot) as (Hb & Hslot & Hp).
    destruct (initBookingFlow_pending doc None slot) as (_ & _ & Hp0).
    pose proof (loadSearchData_pending
                  (initBookingFlow (freshWorld doc (mkStorage pending slot)))) as Hw.
    pose proof (loadSearchData_pending
                  (initBookingFlow (freshWorld doc (mkStorage None slot)))) as Hw0.
    rewrite Hp in Hw. rewrite Hp0 in Hw0. cbn [getItemTruthy] in Hw0.
    unfold w, plain. rewrite Hs, Hl, Hs0, Hl0, Hw0.
    destruct (getItemTruthy pending) as [[raw | | d] |].
    - by rewrite Hw, Hb, Hp.
    - destruct Hw as (-> & ->). by rewrite Hp.
    - destruct Hw as (-> & ->). fields. by rewrite Hslot.
    - by rewrite Hw, Hb, Hp. }
  split; [| split].
  - intros d w. subst w. unfold plain in *.
    pose proof (Hload (Some (Json d))) as Hj. pose proof (Hload None) as Hn.
    cbv zeta in Hj, Hn. cbn [getItemTruthy] in Hj, Hn.
    destruct Hj as (Hd & Hnone & Hslot). destruct Hn as (_ & Hn).
    split; [done |]. split; [done |]. apply storage_eq; [| done].
    by rewrite Hnone, Hn.
  - intros raw w. pose proof (Hload (Some (Malformed raw))) as Hraw.
    by destruct raw.
  - intros w. apply (Hload (Some JsonNull)).
Qed.


(** *** From the homepage to the first search of the wizard *)

Lemma trimEnd_idem (s : string) : trimEnd (trimEnd s) = trimEnd s.
Proof.
  induction s as [| c s IH]; [reflexivity |]. cbn [trimEnd].
  destruct (trimEnd s) as [| c' r'] eqn:Hs.
  - destruct (isWhiteSpace c) eqn:Hc; [reflexivity |]. cbn [trimEnd]. by rewrite Hc.
  - cbn [trimEnd] in *. by rewrite IH.
Qed.

Lemma trimEnd_head (c : ascii) (r : string) :
  isWhiteSpace c = false -> exists r', trimEnd (String c r) = String c r'.
Proof.
  intros Hc. cbn [trimEnd]. destruct (trimEnd r); [rewrite Hc |]; by eexists.
Qed.

Lemma trimStart_head (s : string) :
  trimStart s = "" \/ exists c r, trimStart s = String c r /\ isWhiteSpace c = false.
Proof.
  induction s as [| c s IH]; [by left |]. cbn [trimStart].
  destruct (isWhiteSpace c) eqn:Hc; [exact IH |]. right. by eauto.
Qed.

Lemma trim_idem (s : string) : trim (trim s) = trim s.
Proof.
  unfold trim. destruct (trimStart_head s) as [-> | (c & r & -> & Hc)]; [reflexivity |].
  destruct (trimEnd_head c r Hc) as (r' & Hr). rewrite Hr.
  cbn [trimStart]. rewrite Hc. rewrite <- Hr. apply trimEnd_idem.
Qed.

(** A search that the homepage accepted: the controls it read, what the
    checks found, and the search it stored. *)
Lemma homeSubmit_success (page : Home.Page) :
  Home.location page = None ->
  Home.location (Home.submitSearch page) = Some "/book/" ->
  exists fromCity toCity departure stored trip,
    Home.inputs page !! "fromCity" = Some fromCity
    /\ Home.inputs page !! "toCity" = Some toCity
    /\ Home.inputs page !! "departureDate" = Some departure
    /\ truthy (trim fromCity) = true /\ truthy (trim toCity) = true
    /\ toLowerCase (trim fromCity) <> toLowerCase (trim toCity)
    /\ truthy departure = true
    /\ Home.localStorage (Home.submitSearch page)
       = mkStorage (Some (Json stored)) (bookingStateSlot (Home.localStorage page))
    /\ from stored = trim fromCity /\ to stored = trim toCity
    /\ departureDate stored = departure
    /\ Data.passengers stored = Some (Home.passengers page)
    /\ tripType stored = Some trip /\ truthy trip = true
    /\ (trip = "round-trip" ->
        exists r, returnDate stored = Some r /\ truthy r = true
                  /\ Home.inputs page !! "returnDate" = Some r)
    /\ (trip <> "round-trip" -> returnDate stored = None).
Proof.
  intros Hnone. unfold Home.submitSearch.
  assert (forall m, Home.location (Home.showError m page) = Some "/book/" -> False)
    as Hstays.
  { intros m. destruct (homeShowError_frame m page) as (_ & -> & _). congruence. }
  destruct (Home.inputs page !! "fromCity") as [f |]; [| by intros ?%Hstays].
  destruct (Home.inputs page !! "toCity") as [t |]; [| by intros ?%Hstays].
  destruct (Home.inputs page !! "departureDate") as [d |]; [| by intros ?%Hstays].
  cbv zeta. cbn [from to departureDate Data.passengers].
  destruct (truthy (trim f)) eqn:Hf; cbn [negb]; [| by intros ?%Hstays].
  destruct (truthy (trim t)) eqn:Ht; cbn [negb]; [| by intros ?%Hstays].
  destruct (strEq (toLowerCase (trim f)) (toLowerCase (trim t))) eqn:Hdiff;
    [by intros ?%Hstays |].
  apply bool_decide_eq_false in Hdiff.
  destruct (truthy d) eqn:Hd; cbn [negb]; [| by intros ?%Hstays].
  set (trip := match Home.tripOption page with
               | Some t0 => if truthy t0 then t0 else "one-way"
               | None => "one-way"
               end).
  assert (truthy trip = true) as Htrip.
  { unfold trip. destruct (Home.tripOption page) as [t0 |]; [| done].
    by destruct (truthy t0) eqn:Ht0. }
  assert (mkPassengers (adults (Home.passengers page)) (children (Home.passengers page))
                       (infants (Home.passengers page)) = Home.passengers page) as Hp.
  { by destruct (Home.passengers page). }
  rewrite Hp.
  destruct (strEq trip "round-trip") eqn:Hround;
    [apply bool_decide_eq_true in Hround | apply bool_decide_eq_false in Hround].
  - destruct (Home.inputs page !! "returnDate") as [r |] eqn:Hr; [| by intros ?%Hstays].
    destruct (truthy r) eqn:Hret; [| by intros ?%Hstays].
    case_decide; [| congruence].
    intros _.
    match goal with
    | |- context [Home.storeAndRedirect ?fd page] =>
        destruct (storeAndRedirect_frame fd page) as (-> & _)
    end.
    do 5 eexists. repeat (split; [done || reflexivity |]).
    cbn [returnDate]. split; [by eauto | done].
  - case_decide; [| congruence].
    intros _.
    match goal with
    | |- context [Home.storeAndRedirect ?fd page] =>
        destruct (storeAndRedirect_frame fd page) as (-> & _)
    end.
    do 5 eexists. repeat (split; [done || reflexivity |]).
    cbn [returnDate]. split; done.
Qed.

Lemma navigateToStep_inputs step w : inputs (navigateToStep step w) = inputs w.
Proof. unfold navigateToStep, saveBookingState. fields. by case_decide. Qed.

Lemma initBookingFlow_inputs doc storage :
  inputs (initBookingFlow (freshWorld doc storage)) = docInputs doc.
Proof.
  unfold initBookingFlow, freshWorld. fields.
  destruct (getItemTruthy (bookingStateSlot storage)) as [[raw | | p] |];
    cbn [JSON_parse mbind result_bind restoreState]; try done.
  by rewrite navigateToStep_inputs.
Qed.

Lemma setText_inputs elt t w : inputs (setText elt t w) = inputs w.
Proof. unfold setText. by case_decide. Qed.

Lemma initPassengerSelector_inputs w : inputs (initPassengerSelector w) = inputs w.
Proof.
  unfold initPassengerSelector. case_decide; [| done]. by rewrite setText_inputs.
Qed.

Lemma setValue_lookup elt v w k :
  inputs (setValue elt v w) !! k
  = if decide (k = elt) then (fun _ => v) <$> inputs w !! elt else inputs w !! k.
Proof.
  unfold setValue. destruct (inputs w !! elt) as [old |] eqn:Hold; fields.
  - case_decide as Hk; [subst k; by rewrite lookup_insert_eq | by rewrite lookup_insert_ne].
  - case_decide as Hk; [by subst k | done].
Qed.

(** The search form after a load that found a pending search. *)
Lemma loadSearchData_inputs w d :
  getItemTruthy (flightSearch (localStorage w)) = Some (Json d) ->
  inputs (loadSearchData w) !! "bookingFrom"
  = (fun _ => orElse (from d) "") <$> inputs w !! "bookingFrom"
  /\ inputs (loadSearchData w) !! "bookingTo"
     = (fun _ => orElse (to d) "") <$> inputs w !! "bookingTo"
  /\ inputs (loadSearchData w) !! "bookingDeparture"
     = (fun _ => orElse (departureDate d) "") <$> inputs w !! "bookingDeparture"
  /\ (is_Some (inputs w !! "bookingReturn") ->
      is_Some (inputs (loadSearchData w) !! "bookingReturn")).
Proof.
  intros Hget. unfold loadSearchData. rewrite Hget. cbn [JSON_parse]. cbv zeta. fields.
  set (w1 := setState (withSearchData (Some d) (bookingState w)) w).
  assert (inputs w1 = inputs w) as Hw1 by done.
  set (w2 := setValue "bookingFrom" (orElse (from d) "") w1).
  set (w3 := setValue "bookingTo" (orElse (to d) "") w2).
  set (w4 := setValue "bookingDeparture" (orElse (departureDate d) "") w3).
  match goal with
  | |- context [inputs ?w6 !! "bookingFrom"] =>
      assert (forall k, k <> "bookingReturn" -> inputs w6 !! k = inputs w4 !! k) as Hother;
      [| assert (is_Some (inputs w4 !! "bookingReturn") ->
                 is_Some (inputs w6 !! "bookingReturn")) as Hret ]
  end.
  { intros k Hk. repeat case_match; rewrite ?setText_inputs, ?setValue_lookup;
      try case_decide; done. }
  { intros Hsome. repeat case_match; rewrite ?setText_inputs, ?setValue_lookup;
      try case_decide; try done; destruct Hsome as [x ->]; by eexists. }
  rewrite !Hother by done. unfold w4, w3, w2.
  rewrite !setValue_lookup. repeat (case_decide; try done). rewrite Hw1.
  repeat (split; [done |]).
  intros Hsome. apply Hret. unfold w4, w3, w2.
  rewrite !setValue_lookup. repeat (case_decide; try done).
Qed.

(** X16: a search accepted by the homepage passes the search of the wizard.
    When the homepage form has sent the visitor to the booking page, the load
    of that page on the storage the homepage left fills the search form, and
    submitting it as it stands moves to FlightResults (step 2) without an
    error: the criteria are then the trimmed cities, the departure date and
    the passengers of the homepage. The trip type is not among them any more,
    the wizard's form having none. *)
Theorem homepage_search_passes_the_wizard_search :
  forall (page : Home.Page) (doc : Document),
    Home.location page = None ->
    Home.location (Home.submitSearch page) = Some "/book/" ->
    is_Some (docInputs doc !! "bookingFrom") ->
    is_Some (docInputs doc !! "bookingTo") ->
    is_Some (docInputs doc !! "bookingDeparture") ->
    is_Some (docInputs doc !! "bookingReturn") ->
    stepId 2 ∈ docElements doc ->
    let w := handleSearch (pageLoad doc (Home.localStorage (Home.submitSearch page))) in
    activeStep w = Some 2
    /\ errors w = []
    /\ exists (criteria : SearchData) (fromCity toCity departure : string),
        Home.inputs page !! "fromCity" = Some fromCity
        /\ Home.inputs page !! "toCity" = Some toCity
        /\ Home.inputs page !! "departureDate" = Some departure
        /\ searchData (bookingState w) = Some criteria
        /\ from criteria = trim fromCity
        /\ to criteria = trim toCity
        /\ departureDate criteria = departure
        /\ passengers criteria = Some (Home.passengers page)
        /\ tripType criteria = None.
Proof.
  intros page doc Hnone Hsent [bf Hbf] [bt Hbt] [bd Hbd] [br Hbr] Hstep w.
  destruct (homeSubmit_success page Hnone Hsent)
    as (f & t & d & stored & trip & Hf & Ht & Hd & Hfrom & Hto & Hdiff & Hdep
        & Hstorage & Hsf & Hst & Hsd & Hsp & _).
  set (storage := Home.localStorage (Home.submitSearch page)) in *.
  set (w0 := pageLoad doc storage) in *.
  set (loaded := initBookingFlow (freshWorld doc storage)).
  assert (getItemTruthy (flightSearch (localStorage loaded)) = Some (Json stored)) as Hget.
  { unfold loaded. destruct (initBookingFlow_slot doc storage) as (-> & _).
    by rewrite Hstorage. }
  destruct (pageLoad_session doc storage) as (Hs0 & _ & _ & Hel & Herr).
  fold w0 in Hs0, Hel, Herr. fold loaded in Hs0.
  pose proof (loadSearchData_pending loaded) as Hpending. rewrite Hget in Hpending.
  destruct Hpending as (Hstate & _).
  assert (inputs w0 = inputs (loadSearchData loaded)) as Hinputs.
  { unfold w0, pageLoad. by rewrite initPassengerSelector_inputs. }
  destruct (loadSearchData_inputs loaded stored Hget) as (Hif & Hit & Hid & Hir).
  assert (inputs loaded = docInputs doc) as Hloaded by apply initBookingFlow_inputs.
  rewrite Hloaded in Hif, Hit, Hid, Hir.
  rewrite Hbf in Hif. rewrite Hbt in Hit. rewrite Hbd in Hid.
  cbn [fmap option_fmap option_map] in Hif, Hit, Hid.
  destruct Hir as [ret Hret]; [by rewrite Hbr |].
  rewrite <- Hinputs in Hif, Hit, Hid, Hret.
  rewrite Hsf in Hif. rewrite Hst in Hit. rewrite Hsd in Hid.
  unfold orElse in Hif, Hit, Hid. rewrite Hfrom in Hif. rewrite Hto in Hit.
  rewrite Hdep in Hid.
  pose proof (handleSearch_cases w0 (trim f) (trim t) d ret Hif Hit Hid Hret) as Hcases.
  cbv zeta in Hcases. rewrite !trim_idem in Hcases.
  rewrite Hfrom, Hto, Hdep in Hcases. unfold strEq in Hcases.
  rewrite bool_decide_eq_false_2 in Hcases by done. cbn [negb andb] in Hcases.
  destruct Hcases as (Hstate' & Hactive & Herrors & _); [by rewrite Hel |].
  fold w in Hstate', Hactive, Herrors.
  split; [done |]. split; [by rewrite Herrors |].
  eexists _, f, t, d. repeat (split; [done |]).
  rewrite Hstate'. fields. split; [reflexivity |]. cbn [from to departureDate passengers tripType].
  repeat (split; [done |]). split; [| done].
  unfold passengersOrDefault, statePassengers. rewrite Hs0, Hstate. fields.
  by rewrite Hsp.
Qed.


(** *** The dates and the passenger selector of the wizard *)

(** X17: when the departure date of the wizard is changed, a return date
    that is earlier (as a string) is emptied: afterwards the return date is
    empty or not before the departure date, and a return date that was not
    before it is kept. The session record and the storage are not touched.
    The return date field has no such listener: an earlier date typed into it
    stays. *)
Theorem departure_change_empties_an_earlier_return_date :
  forall (w : World) (value : string),
    is_Some (inputs w !! "bookingDeparture") ->
    let w' := typeInto "bookingDeparture" value w in
    inputs w' !! "bookingDeparture" = Some value
    /\ (forall r : string,
           inputs w' !! "bookingReturn" = Some r -> r = "" \/ String.ltb r value = false)
    /\ (forall r : string,
           inputs w !! "bookingReturn" = Some r -> String.ltb r value = false ->
           inputs w' !! "bookingReturn" = Some r)
    /\ bookingState w' = bookingState w
    /\ localStorage w' = localStorage w
    /\ (forall r : string,
           is_Some (inputs w' !! "bookingReturn") ->
           inputs (typeInto "bookingReturn" r w') !! "bookingReturn" = Some r
           /\ inputs (typeInto "bookingReturn" r w') !! "bookingDeparture" = Some value).
Proof.
  intros w value [old Hold] w'.
  destruct (typeInto_sameSession "bookingDeparture" value w) as (Hs & Hl & _).
  assert (inputs w' !! "bookingDeparture" = Some value
          /\ inputs w' !! "bookingReturn"
             = match inputs w !! "bookingReturn" with
               | Some r => Some (if truthy r && String.ltb r value then "" else r)
               | None => None
               end) as [Hdep Hret].
  { unfold w', typeInto. rewrite Hold. unfold strEq.
    rewrite !bool_decide_eq_false_2 by done. rewrite bool_decide_eq_true_2 by done.
    rewrite setValue_lookup. rewrite decide_False by done.
    destruct (inputs w !! "bookingReturn") as [r |] eqn:Hr.
    - destruct (truthy r && String.ltb r value); rewrite !setValue_lookup;
        rewrite ?decide_True by done; rewrite ?decide_False by done;
        rewrite ?setValue_lookup; rewrite ?decide_True by done;
        rewrite ?decide_False by done; by rewrite ?Hold, ?Hr.
    - rewrite !setValue_lookup. rewrite decide_True by done.
      rewrite decide_False by done. by rewrite Hold, Hr. }
  split; [done |]. split; [| split; [| split; [done | split; [done |]]]].
  - intros r. rewrite Hret. destruct (inputs w !! "bookingReturn") as [r0 |]; [| done].
    intros [= <-]. destruct r0 as [| c r0]; [by left |]. cbn [truthy andb].
    destruct (String.ltb (String c r0) value) eqn:Hlt; [by left | by right].
  - intros r Hr Hlt. rewrite Hret, Hr, Hlt. by rewrite andb_false_r.
  - intros r [r0 Hr0]. unfold typeInto. rewrite Hr0. unfold strEq.
    rewrite !bool_decide_eq_false_2 by done.
    rewrite !setValue_lookup. rewrite decide_True by done.
    rewrite decide_False by done. by rewrite Hr0.
Qed.

Lemma selectorClick_view type action w :
  inputs (selectorClick type action w) = inputs w
  /\ elements (selectorClick type action w) = elements w.
Proof.
  unfold selectorClick. repeat case_match; try done;
    rewrite setText_inputs;
    match goal with
    | |- context [elements (setText ?e ?t ?w0)] =>
        by destruct (setText_sameSession e t w0) as (_ & _ & _ & -> & _)
    end.
Qed.

(** What [handleSearch] reads is the same on two pages. *)
Lemma handleSearch_passengers w bookingFrom bookingTo bookingDeparture bookingReturn :
  inputs w !! "bookingFrom" = Some bookingFrom ->
  inputs w !! "bookingTo" = Some bookingTo ->
  inputs w !! "bookingDeparture" = Some bookingDeparture ->
  inputs w !! "bookingReturn" = Some bookingReturn ->
  stepId 2 ∈ elements w ->
  truthy (trim bookingFrom) = true ->
  truthy (trim bookingTo) = true ->
  toLowerCase (trim bookingFrom) <> toLowerCase (trim bookingTo) ->
  truthy bookingDeparture = true ->
  statePassengers (bookingState (handleSearch w))
  = Some (passengersOrDefault (bookingState w)).
Proof.
  intros Hf Ht Hd Hr Hstep Hfrom Hto Hdiff Hdep.
  pose proof (handleSearch_cases w _ _ _ _ Hf Ht Hd Hr Hstep) as Hcases.
  cbv zeta in Hcases. rewrite Hfrom, Hto, Hdep in Hcases. unfold strEq in Hcases.
  rewrite bool_decide_eq_false_2 in Hcases by done. cbn [negb andb] in Hcases.
  destruct Hcases as (-> & _). done.
Qed.

(** X18: the counts of the wizard's passenger selector reach the search by
    the Apply button only. With a search form that passes its checks, a search
    right after a click on a plus or minus button is still for the passengers
    the session had, and a search after Apply is for the counts of the
    selector; Apply keeps the other search criteria and saves nothing. *)
Theorem selector_counts_reach_the_search_by_apply_only :
  forall (w : World) (p : Passengers)
         (bookingFrom bookingTo bookingDeparture bookingReturn : string),
    selector w = Some p ->
    inputs w !! "bookingFrom" = Some bookingFrom ->
    inputs w !! "bookingTo" = Some bookingTo ->
    inputs w !! "bookingDeparture" = Some bookingDeparture ->
    inputs w !! "bookingReturn" = Some bookingReturn ->
    stepId 2 ∈ elements w ->
    truthy (trim bookingFrom) = true ->
    truthy (trim bookingTo) = true ->
    toLowerCase (trim bookingFrom) <> toLowerCase (trim bookingTo) ->
    truthy bookingDeparture = true ->
    (forall type action,
        statePassengers (bookingState (handleSearch (selectorClick type action w)))
        = Some (passengersOrDefault (bookingState w)))
    /\ statePassengers (bookingState (handleSearch (selectorApply w))) = Some p
    /\ (forall d : SearchData,
           searchData (bookingState w) = Some d ->
           searchData (bookingState (selectorApply w))
           = Some (mkSearchData (from d) (to d) (departureDate d) (returnDate d)
                                (tripType d) (Some p)))
    /\ localStorage (selectorApply w) = localStorage w.
Proof.
  intros w p f t d r Hsel Hf Ht Hd Hr Hstep Hfrom Hto Hdiff Hdep.
  assert (bookingState (selectorApply w)
          = withSearchData
              (Some match searchData (bookingState w) with
                    | Some d => mkSearchData (from d) (to d) (departureDate d)
                                             (returnDate d) (tripType d) (Some p)
                    | None => mkSearchData "" "" "" None None (Some p)
                    end) (bookingState w)
          /\ inputs (selectorApply w) = inputs w
          /\ elements (selectorApply w) = elements w
          /\ localStorage (selectorApply w) = localStorage w) as (Hs & Hi & He & Hl).
  { unfold selectorApply. rewrite Hsel. cbv zeta. fields. rewrite setText_inputs.
    match goal with
    | |- context [setText ?e ?t ?w0] =>
        destruct (setText_sameSession e t w0) as (-> & -> & _ & -> & _)
    end.
    done. }
  split; [| split; [| split; [| done]]].
  - intros type action.
    destruct (selectorClick_view type action w) as (Hi' & He').
    rewrite (handleSearch_passengers _ f t d r) by (by rewrite ?Hi', ?He').
    by destruct (selectorClick_session type action w) as (-> & _).
  - rewrite (handleSearch_passengers _ f t d r) by (by rewrite ?Hi, ?He).
    rewrite Hs. unfold passengersOrDefault, statePassengers. fields.
    by destruct (searchData (bookingState w)).
  - intros d0 Hd0. rewrite Hs. fields. by rewrite Hd0.
Qed.

(** X19: the plus and minus buttons of the wizard's passenger selector. A
    click leaves a selector; plus on adults or children always adds one, for
    these two have no upper limit here; counts that are at their minimum (one
    adult, no child, no infant) or above stay so; and infants within the
    adults stay within them under every click except minus on adults. *)
Theorem wizard_selector_click :
  forall (w : World) (p : Passengers) (type : Home.PassengerType) (action : Home.Action),
    selector w = Some p ->
    exists p' : Passengers,
      selector (selectorClick type action w) = Some p'
      /\ (action = Home.Increase -> type <> Home.Infants ->
          Home.count type p' = Home.count type p + 1)
      /\ (1 <= adults p -> 0 <= children p -> 0 <= infants p ->
          1 <= adults p' /\ 0 <= children p' /\ 0 <= infants p')
      /\ (infants p <= adults p ->
          ~ (type = Home.Adults /\ action = Home.Decrease) ->
          infants p' <= adults p').
Proof.
  intros w p type action Hsel. unfold selectorClick. rewrite Hsel.
  assert (forall e t w0 q, selector w0 = q -> selector (setText e t w0) = q) as Hkeep.
  { intros e t w0 q <-. by destruct (setText_sameSession e t w0) as (_ & _ & _ & _ & -> & _). }
  destruct p as [a c i].
  destruct action, type; cbn [Home.count Home.setCount adults children infants];
    repeat match goal with
           | |- context [if ?b then _ else _] => destruct b eqn:?
           end;
    eexists; (split; [first [apply Hkeep; reflexivity | eassumption] |]);
    cbn [Home.count adults children infants]; repeat split; intros; try done; try lia;
    try (exfalso; naive_solver).
Qed.


(** *** The restored step and the booking reference *)

(** X26: a stored session is shown at its step or not at all. On a load that
    finds a session record in the storage, the step of the page is the stored
    one (1 when the stored step is the falsy 0); the panel of that step is the
    active one when the document has it, and otherwise no panel is active:
    a stored step without a panel leaves the page blank. No error is shown in
    either case. *)
Theorem restored_step_is_shown_or_nothing_is :
  forall (doc : Document) (storage : Storage) (p : BookingState),
    bookingStateSlot storage = Some (Json p) ->
    let step := if currentStep p =? 0 then 1 else currentStep p in
    currentStep (bookingState (pageLoad doc storage)) = step
    /\ activeStep (pageLoad doc storage)
       = (if decide (stepId step ∈ docElements doc) then Some step else None)
    /\ errors (pageLoad doc storage) = [].
Proof.
  intros doc storage p Hslot step.
  destruct (pageLoad_session doc storage) as (-> & _ & -> & _ & ->).
  destruct (initBookingFlow_restored doc storage p Hslot) as (Hs & ->).
  destruct (loadSearchData_keeps (initBookingFlow (freshWorld doc storage)))
    as (d & -> & _).
  rewrite Hs. done.
Qed.

Lemma mapChars_cons (f : ascii -> ascii) (c : ascii) (s : string) :
  mapChars f (String c s) = String (f c) (mapChars f s).
Proof. reflexivity. Qed.

Lemma mapChars_length (f : ascii -> ascii) (s : string) :
  String.length (mapChars f s) = String.length s.
Proof.
  induction s as [| c s IH]; [reflexivity |].
  rewrite mapChars_cons. cbn [String.length]. by rewrite IH.
Qed.

Lemma substring_length_min (n m : nat) (s : string) :
  String.length (String.substring n m s) = Nat.min m (String.length s - n).
Proof.
  revert n m. induction s as [| c s IH]; intros n m.
  - destruct n, m; reflexivity.
  - destruct n as [| n]; cbn [String.substring String.length].
    + destruct m as [| m]; [reflexivity |]. cbn [String.length].
      rewrite IH. lia.
    + rewrite IH. cbn [Nat.sub]. reflexivity.
Qed.

Lemma upperChar_not_lower (c : ascii) :
  let n := N_of_ascii (upperChar c) in ((97 <=? n)%N && (n <=? 122)%N) = false.
Proof. destruct c as [[] [] [] [] [] [] [] []]; vm_compute; reflexivity. Qed.

(** X27: the booking reference is "SKB-" followed by the characters 3 to 8
    of the base-36 text of the random number, in upper case: at most six
    characters, fewer when the text is short, and no small letter among them.
    The reference depends on the random number only, and the booking carries
    the clock reading as its id. *)
Theorem booking_reference_shape :
  forall env : Env,
    exists suffix : string,
      createBooking env
      = Ok (mkBookingDetails ("SKB-" +:+ suffix) (now env) (isoString env) "confirmed")
      /\ len suffix = Z.min 6 (Z.max 0 (len (random36 env) - 2))
      /\ allChars (fun c => negb ((97 <=? N_of_ascii c)%N && (N_of_ascii c <=? 122)%N))
                  suffix = true
      /\ forall env' : Env,
          random36 env' = random36 env ->
          bookingReference <$> (match createBooking env' with
                                | Ok booking => Some booking
                                | Throw _ => None
                                end)
          = Some ("SKB-" +:+ suffix).
Proof.
  intros env. exists (toUpperCase (substr 2 6 (random36 env))).
  split; [reflexivity |]. split; [| split].
  - unfold len, toUpperCase, substr. rewrite mapChars_length, substring_length_min. lia.
  - unfold toUpperCase. generalize (substr 2 6 (random36 env)). intros s.
    induction s as [| c s IH]; [reflexivity |].
    rewrite mapChars_cons. cbn [allChars]. rewrite IH.
    pose proof (upperChar_not_lower c) as Hc. cbv zeta in Hc. by rewrite Hc.
  - intros env' Heq. unfold createBooking. cbn [fmap option_fmap option_map bookingReference].
    by rewrite Heq.
Qed.


End SessionFacts.

(** ** The homepage: the lookup form and the drop-down variant *)

Section HomeFacts.
Import JS Data Validators.

Lemma valid_email_is_not_empty (s : string) : isValidEmail s = true -> truthy s = true.
Proof. by destruct s. Qed.

(** X20: the lookup form of the homepage announces the lookup exactly when
    the trimmed booking reference is not empty and the trimmed email address
    has the form checked by [isValidEmail]; the two fields are then emptied.
    Otherwise one error message is built and the fields keep what was typed.
    Either message gets into the document exactly when the page has a form
    with a [.form-grid] or a [.bookings-form] descendant to put it in.
    Neither case touches the storage or leaves the page. *)
Theorem lookup_needs_a_reference_and_a_valid_email :
  forall (page : Home.Page) (bookingRef bookingEmail : string),
    Home.inputs page !! "bookingRef" = Some bookingRef ->
    Home.inputs page !! "bookingEmail" = Some bookingEmail ->
    let page' := HomeLookup.submitLookup page in
    let guard := truthy (trim bookingRef) && isValidEmail (trim bookingEmail) in
    (guard = true ->
     Home.successes page'
     = (if Home.hasMessageForm page
        then (Home.successes page ++ ["Searching for your booking..."])%list
        else Home.successes page)
     /\ Home.errors page' = Home.errors page
     /\ Home.inputs page'
        = <["bookingEmail" := ""]> (<["bookingRef" := ""]> (Home.inputs page)))
    /\ (guard = false ->
        (exists message,
            Home.errors page'
            = if Home.hasMessageForm page
              then (Home.errors page ++ [message])%list
              else Home.errors page)
        /\ Home.successes page' = Home.successes page
        /\ Home.inputs page' = Home.inputs page)
    /\ Home.localStorage page' = Home.localStorage page
    /\ Home.location page' = Home.location page.
Proof.
  intros page ref email Href Hemail page' guard.
  assert (forall m,
             (exists message,
                 Home.errors (Home.showError m page)
                 = if Home.hasMessageForm page
                   then (Home.errors page ++ [message])%list
                   else Home.errors page)
             /\ Home.successes (Home.showError m page) = Home.successes page
             /\ Home.inputs (Home.showError m page) = Home.inputs page
             /\ Home.localStorage (Home.showError m page) = Home.localStorage page
             /\ Home.location (Home.showError m page) = Home.location page) as Hrejected.
  { intros m. destruct (homeShowError_frame m page) as (-> & -> & -> & -> & ->).
    by eauto 10. }
  unfold page', guard, HomeLookup.submitLookup. rewrite Href, Hemail. cbv zeta.
  destruct (truthy (trim ref)); cbn [negb andb].
  - destruct (isValidEmail (trim email)) eqn:Hvalid; cbn [negb andb].
    + rewrite (valid_email_is_not_empty _ Hvalid). cbn [negb].
      unfold HomeLookup.setInputs.
      cbn [Home.successes Home.errors Home.inputs Home.localStorage Home.location].
      destruct (homeShowSuccess_frame "Searching for your booking..." page)
        as (-> & -> & -> & -> & ->).
      done.
    + destruct (truthy (trim email)); cbn [negb].
      * destruct (Hrejected "Please enter a valid email address") as (? & ? & ? & ? & ?).
        done.
      * destruct (Hrejected "Please enter your email address") as (? & ? & ? & ? & ?).
        done.
  - destruct (Hrejected "Please enter your booking reference") as (? & ? & ? & ? & ?).
    done.
Qed.

(** What a selection in a drop-down leaves: counts in the ranges of the
    lists, and an infants list built for the adults. *)
Lemma selectItem_range (type : Home.PassengerType) (i : Z) (s : HomeFields.Selector) :
  (1 <= adults (HomeFields.passengers s) <= 9
   /\ 0 <= children (HomeFields.passengers s) <= 6
   /\ 0 <= infants (HomeFields.passengers s) <= 9
   /\ HomeFields.infantsMax s = adults (HomeFields.passengers s)) ->
  let s' := HomeFields.selectItem type i s in
  1 <= adults (HomeFields.passengers s') <= 9
  /\ 0 <= children (HomeFields.passengers s') <= 6
  /\ 0 <= infants (HomeFields.passengers s') <= 9
  /\ HomeFields.infantsMax s' = adults (HomeFields.passengers s').
Proof.
  intros (Ha & Hc & Hi & Hmax). unfold HomeFields.selectItem, HomeFields.offered.
  destruct type; cbn zeta;
    match goal with
    | |- context [if ?a && ?b then _ else _] => destruct a eqn:Hlo, b eqn:Hhi
    end; cbn [andb HomeFields.passengers HomeFields.infantsMax HomeFields.populateInfants
              Home.setCount adults children infants]; try done; lia.
Qed.

(** X21: in the drop-down variant of the homepage, whatever items are
    selected, in any order, there are one to nine adults, zero to six children
    and zero to nine infants, and the infants list offers zero up to the
    adults; an infants item that is selected is within the adults at that
    moment. *)
Theorem drop_down_selections_stay_in_range :
  forall l : list (Home.PassengerType * Z),
    let s := fold_left (fun s c => HomeFields.selectItem (fst c) (snd c) s) l
                       HomeFields.initialSelector in
    1 <= adults (HomeFields.passengers s) <= 9
    /\ 0 <= children (HomeFields.passengers s) <= 6
    /\ 0 <= infants (HomeFields.passengers s) <= 9
    /\ HomeFields.infantsMax s = adults (HomeFields.passengers s)
    /\ forall i : Z,
        HomeFields.offered Home.Infants i s = true ->
        infants (HomeFields.passengers (HomeFields.selectItem Home.Infants i s)) = i
        /\ i <= adults (HomeFields.passengers (HomeFields.selectItem Home.Infants i s)).
Proof.
  intros l.
  assert (forall s0 : HomeFields.Selector,
             (1 <= adults (HomeFields.passengers s0) <= 9
              /\ 0 <= children (HomeFields.passengers s0) <= 6
              /\ 0 <= infants (HomeFields.passengers s0) <= 9
              /\ HomeFields.infantsMax s0 = adults (HomeFields.passengers s0)) ->
             let s := fold_left (fun s c => HomeFields.selectItem (fst c) (snd c) s) l s0 in
             1 <= adults (HomeFields.passengers s) <= 9
             /\ 0 <= children (HomeFields.passengers s) <= 6
             /\ 0 <= infants (HomeFields.passengers s) <= 9
             /\ HomeFields.infantsMax s = adults (HomeFields.passengers s)) as Hgen.
  { induction l as [| [type i] l IH]; intros s0 Hs0; [exact Hs0 |].
    cbn [fold_left fst snd]. apply IH. by apply selectItem_range. }
  intros s. destruct (Hgen HomeFields.initialSelector) as (Ha & Hc & Hi & Hmax).
  { cbn. lia. }
  fold s in Ha, Hc, Hi, Hmax. repeat (split; [done |]).
  intros i Hoff. unfold HomeFields.selectItem. rewrite Hoff.
  cbn [HomeFields.passengers Home.setCount infants adults].
  split; [done |]. unfold HomeFields.offered in Hoff. lia.
Qed.


(** X22: a search that the homepage form accepted is stored well formed: the
    cities are trimmed, not empty and differ without regard to case, the
    departure date is not empty, the passengers are the counts of the
    selector, and the trip type is a non-empty string (one-way when no option
    is active); a round trip carries a non-empty return date, any other trip
    none, whatever the return field holds. The wizard-session slot is left as
    it was. *)
Theorem homepage_stores_a_well_formed_search :
  forall page : Home.Page,
    Home.location page = None ->
    Home.location (Home.submitSearch page) = Some "/book/" ->
    exists (stored : SearchData) (trip : string),
      Home.localStorage (Home.submitSearch page)
      = mkStorage (Some (Json stored)) (bookingStateSlot (Home.localStorage page))
      /\ trim (from stored) = from stored /\ from stored <> ""
      /\ trim (to stored) = to stored /\ to stored <> ""
      /\ toLowerCase (from stored) <> toLowerCase (to stored)
      /\ departureDate stored <> ""
      /\ Data.passengers stored = Some (Home.passengers page)
      /\ tripType stored = Some trip /\ trip <> ""
      /\ (trip = "round-trip" -> exists r, returnDate stored = Some r /\ r <> "")
      /\ (trip <> "round-trip" -> returnDate stored = None).
Proof.
  intros page Hnone Hsent.
  destruct (homeSubmit_success page Hnone Hsent)
    as (f & t & d & stored & trip & _ & _ & _ & Hfrom & Hto & Hdiff & Hdep
        & Hstorage & Hsf & Hst & Hsd & Hp & Htrip & Htruthy & Hround & Hother).
  exists stored, trip. rewrite Hsf, Hst, Hsd, !trim_idem.
  split; [done |]. split; [done |]. split; [by destruct (trim f) |].
  split; [done |]. split; [by destruct (trim t) |].
  split; [done |]. split; [by destruct d |]. split; [done |]. split; [done |].
  split; [by destruct trip |]. split; [| done].
  intros Heq. destruct (Hround Heq) as (r & Hr & Hrt & _). exists r. by destruct r.
Qed.

(** The form of the drop-down variant, by the values it reads. *)
Lemma fieldsSubmit_cases (page : HomeFieldsForm.Page)
    (fromCity toCity departure ret : string) (trip : option string) :
  HomeFieldsForm.inputs page !! "fromCity" = Some fromCity ->
  HomeFieldsForm.inputs page !! "toCity" = Some toCity ->
  HomeFieldsForm.inputs page !! "departureDate" = Some departure ->
  HomeFieldsForm.inputs page !! "returnDate" = Some ret ->
  HomeFieldsForm.activeTrip page = Some trip ->
  HomeFieldsForm.submitSearch page
  = if truthy (trim fromCity) && truthy (trim toCity) && truthy departure
       && negb (strEq (toLowerCase (trim fromCity)) (toLowerCase (trim toCity)))
       && (negb (bool_decide (trip = Some "round-trip")) || truthy ret)
    then
      HomeFieldsForm.mkPage
        (HomeFieldsForm.passengers page) (HomeFieldsForm.selector page)
        (mkStorage
           (Some (Json (mkSearchData (trim fromCity) (trim toCity) departure
                          (if truthy ret then Some ret else None) trip
                          (Some (HomeFieldsForm.passengers page)))))
           (bookingStateSlot (HomeFieldsForm.localStorage page)))
        (HomeFieldsForm.inputs page) (HomeFieldsForm.activeTrip page)
        (HomeFieldsForm.returnGroupDisplay page) (Some "/book/")
    else page.
Proof.
  intros Hf Ht Hd Hr Htrip. unfold HomeFieldsForm.submitSearch.
  rewrite Hf, Ht, Hd, Hr, Htrip. cbv zeta. unfold HomeFieldsForm.showError.
  destruct (truthy (trim fromCity)); cbn [negb andb orb]; [| done].
  destruct (truthy (trim toCity)); cbn [negb andb orb]; [| done].
  destruct (truthy departure); cbn [negb andb orb]; [| done].
  destruct (strEq _ _); cbn [negb andb orb]; [done |].
  destruct (bool_decide (trip = Some "round-trip")); cbn [negb andb orb]; [| done].
  destruct (truthy ret); done.
Qed.

(** X23: the search form of the drop-down variant either stores a search and
    sends the visitor to the booking page, or leaves the page exactly as it
    is: a rejected search shows no message, the element that [showError]
    builds never being put into the document. With its four controls and an
    active trip option it stores exactly when the trimmed cities and the
    departure date are not empty, the cities differ without regard to case,
    and a round trip has a return date; the stored return date is [null] when
    the field is empty. *)
Theorem drop_down_form_stores_or_does_nothing :
  (forall page : HomeFieldsForm.Page,
      HomeFieldsForm.submitSearch page = page
      \/ exists stored : SearchData,
          HomeFieldsForm.localStorage (HomeFieldsForm.submitSearch page)
          = mkStorage (Some (Json stored))
                      (bookingStateSlot (HomeFieldsForm.localStorage page))
          /\ HomeFieldsForm.location (HomeFieldsForm.submitSearch page) = Some "/book/"
          /\ HomeFieldsForm.inputs (HomeFieldsForm.submitSearch page)
             = HomeFieldsForm.inputs page
          /\ from stored <> "" /\ to stored <> ""
          /\ toLowerCase (from stored) <> toLowerCase (to stored)
          /\ departureDate stored <> ""
          /\ returnDate stored <> Some ""
          /\ (tripType stored = Some "round-trip" -> returnDate stored <> None))
  /\ (forall (page : HomeFieldsForm.Page) (fromCity toCity departure ret : string)
             (trip : option string),
         HomeFieldsForm.inputs page !! "fromCity" = Some fromCity ->
         HomeFieldsForm.inputs page !! "toCity" = Some toCity ->
         HomeFieldsForm.inputs page !! "departureDate" = Some departure ->
         HomeFieldsForm.inputs page !! "returnDate" = Some ret ->
         HomeFieldsForm.activeTrip page = Some trip ->
         HomeFieldsForm.location page = None ->
         (HomeFieldsForm.location (HomeFieldsForm.submitSearch page) = Some "/book/"
          <-> trim fromCity <> "" /\ trim toCity <> "" /\ departure <> ""
              /\ toLowerCase (trim fromCity) <> toLowerCase (trim toCity)
              /\ (trip = Some "round-trip" -> ret <> ""))).
Proof.
  split.
  - intros page.
    destruct (HomeFieldsForm.inputs page !! "fromCity") as [f |] eqn:Hf;
      [| left; unfold HomeFieldsForm.submitSearch; by rewrite Hf].
    destruct (HomeFieldsForm.inputs page !! "toCity") as [t |] eqn:Ht;
      [| left; unfold HomeFieldsForm.submitSearch; by rewrite Hf, Ht].
    destruct (HomeFieldsForm.inputs page !! "departureDate") as [d |] eqn:Hd;
      [| left; unfold HomeFieldsForm.submitSearch; by rewrite Hf, Ht, Hd].
    destruct (HomeFieldsForm.inputs page !! "returnDate") as [r |] eqn:Hr;
      [| left; unfold HomeFieldsForm.submitSearch; by rewrite Hf, Ht, Hd, Hr].
    destruct (HomeFieldsForm.activeTrip page) as [trip |] eqn:Htrip;
      [| left; unfold HomeFieldsForm.submitSearch; by rewrite Hf, Ht, Hd, Hr, Htrip].
    rewrite (fieldsSubmit_cases page f t d r trip Hf Ht Hd Hr Htrip).
    destruct (truthy (trim f)) eqn:Hfrom; cbn [andb]; [| by left].
    destruct (truthy (trim t)) eqn:Hto; cbn [andb]; [| by left].
    destruct (truthy d) eqn:Hdep; cbn [andb]; [| by left].
    destruct (strEq _ _) eqn:Hsame; cbn [negb andb]; [by left |].
    apply bool_decide_eq_false in Hsame.
    destruct (negb (bool_decide (trip = Some "round-trip")) || truthy r) eqn:Hround;
      [| by left].
    right. eexists. cbn [HomeFieldsForm.localStorage HomeFieldsForm.location
                         HomeFieldsForm.inputs].
    split; [reflexivity |]. cbn [from to departureDate returnDate tripType].
    split; [done |]. split; [done |].
    split; [by destruct (trim f) |]. split; [by destruct (trim t) |].
    split; [done |]. split; [by destruct d |].
    split; [by destruct r |].
    intros ->. rewrite bool_decide_eq_true_2 in Hround by done.
    cbn [negb orb] in Hround. by rewrite Hround.
  - intros page f t d r trip Hf Ht Hd Hr Htrip Hnone.
    rewrite (fieldsSubmit_cases page f t d r trip Hf Ht Hd Hr Htrip).
    destruct (truthy (trim f)) eqn:Hfrom; cbn [andb];
      [| rewrite Hnone; split; [done | intros (Hne & _); by destruct (trim f)]].
    destruct (truthy (trim t)) eqn:Hto; cbn [andb];
      [| rewrite Hnone; split; [done | intros (_ & Hne & _); by destruct (trim t)]].
    destruct (truthy d) eqn:Hdep; cbn [andb];
      [| rewrite Hnone; split; [done | intros (_ & _ & Hne & _); by destruct d]].
    destruct (strEq _ _) eqn:Hsame; cbn [negb andb];
      [apply bool_decide_eq_true in Hsame | apply bool_decide_eq_false in Hsame].
    { rewrite Hnone. split; [done | intros (_ & _ & _ & Hne & _); done]. }
    case_bool_decide as Hround; cbn [negb orb].
    + destruct r as [| c r]; cbn [truthy].
      * rewrite Hnone. split; [done |]. intros (_ & _ & _ & _ & Hne). by destruct Hne.
      * cbn [HomeFieldsForm.location]. split; [| done]. intros _.
        split; [by destruct (trim f) |]. split; [by destruct (trim t) |].
        split; [by destruct d |]. done.
    + cbn [HomeFieldsForm.location]. split; [| done]. intros _.
      split; [by destruct (trim f) |]. split; [by destruct (trim t) |].
      split; [by destruct d |]. done.
Qed.

(** No listener writes to the global [passengers], and what the form stores
    carries it. *)
Lemma fieldsHandle_passengers (e : HomeFieldsForm.Event) (page : HomeFieldsForm.Page)
    (p : Passengers) :
  HomeFieldsForm.passengers page = p ->
  (forall stored,
      flightSearch (HomeFieldsForm.localStorage page) = Some (Json stored) ->
      Data.passengers stored = Some p) ->
  HomeFieldsForm.passengers (HomeFieldsForm.handle e page) = p
  /\ forall stored,
      flightSearch (HomeFieldsForm.localStorage (HomeFieldsForm.handle e page))
      = Some (Json stored) ->
      Data.passengers stored = Some p.
Proof.
  intros Hp Hstored. destruct e; cbn [HomeFieldsForm.handle].
  - done.
  - done.
  - unfold HomeFieldsForm.typeInto. by case_match.
  - unfold HomeFieldsForm.submitSearch, HomeFieldsForm.showError.
    repeat case_match; try (split; [done | done]);
      (split; [done |]); intros stored;
      cbn [HomeFieldsForm.localStorage flightSearch];
      unfold JSON_stringify; intros [= <-]; cbn [Data.passengers]; by rewrite Hp.
Qed.

(** X24: in the drop-down variant the stored search is always for one adult,
    no child and no infant, whatever was selected in the drop-downs: the
    listeners of the lists write to the selector's own [passengers], the form
    stores the global one, and nothing writes to that. A selection of three
    adults is in the selector and not in the global counts. *)
Theorem drop_down_selection_never_reaches_the_stored_search :
  forall (controls : gmap string string) (trip : option (option string))
         (display : option string) (slot : option (text BookingState))
         (events : list HomeFieldsForm.Event),
    let page :=
      HomeFieldsForm.run events
        (HomeFieldsForm.loaded controls trip display (mkStorage None slot)) in
    HomeFieldsForm.passengers page = mkPassengers 1 0 0
    /\ (forall stored : SearchData,
           flightSearch (HomeFieldsForm.localStorage page) = Some (Json stored) ->
           Data.passengers stored = Some (mkPassengers 1 0 0))
    /\ HomeFields.passengers
         (HomeFieldsForm.selector
            (HomeFieldsForm.handle (HomeFieldsForm.SelectItem Home.Adults 3) page))
       = Home.setCount Home.Adults 3 (HomeFields.passengers (HomeFieldsForm.selector page)).
Proof.
  intros controls trip display slot events page.
  assert (forall page0 : HomeFieldsForm.Page,
             HomeFieldsForm.passengers page0 = mkPassengers 1 0 0 ->
             (forall stored,
                 flightSearch (HomeFieldsForm.localStorage page0) = Some (Json stored) ->
                 Data.passengers stored = Some (mkPassengers 1 0 0)) ->
             HomeFieldsForm.passengers (HomeFieldsForm.run events page0)
             = mkPassengers 1 0 0
             /\ forall stored,
                 flightSearch (HomeFieldsForm.localStorage (HomeFieldsForm.run events page0))
                 = Some (Json stored) ->
                 Data.passengers stored = Some (mkPassengers 1 0 0)) as Hgen.
  { unfold HomeFieldsForm.run.
    induction events as [| e events IH]; intros page0 Hp Hstored; [done |].
    cbn [fold_left].
    destruct (fieldsHandle_passengers e page0 _ Hp Hstored) as (Hp' & Hstored').
    by apply IH. }
  destruct (Hgen (HomeFieldsForm.loaded controls trip display (mkStorage None slot)))
    as (Hp & Hstored); [done | done |].
  fold page in Hp, Hstored. split; [done |]. split; [done |].
  reflexivity.
Qed.

(** X25: in the drop-down variant, a click on the one-way option hides the
    return date group and empties the return date; a search submitted right
    after it, when it is accepted, is stored as a one-way trip with the return
    date [null]. *)
Theorem switching_to_one_way_drops_the_return_date :
  forall page : HomeFieldsForm.Page,
    HomeFieldsForm.location page = None ->
    let switched := HomeFieldsForm.chooseTrip (Some "one-way") page in
    HomeFieldsForm.location (HomeFieldsForm.submitSearch switched) = Some "/book/" ->
    HomeFieldsForm.returnGroupDisplay switched = Some "none"
    /\ HomeFieldsForm.inputs switched !! "returnDate" = Some ""
    /\ exists stored : SearchData,
        flightSearch (HomeFieldsForm.localStorage (HomeFieldsForm.submitSearch switched))
        = Some (Json stored)
        /\ tripType stored = Some "one-way"
        /\ returnDate stored = None.
Proof.
  intros page Hnone switched.
  assert (HomeFieldsForm.location switched = None) as Hloc by done.
  assert (HomeFieldsForm.activeTrip switched = Some (Some "one-way")) as Htrip by done.
  assert (HomeFieldsForm.inputs switched !! "returnDate"
          = (fun _ => "") <$> HomeFieldsForm.inputs page !! "returnDate") as Hret.
  { unfold switched, HomeFieldsForm.chooseTrip. rewrite bool_decide_eq_true_2 by done.
    cbn [HomeFieldsForm.inputs].
    destruct (HomeFieldsForm.inputs page !! "returnDate") as [r |] eqn:Hr;
      [by rewrite lookup_insert_eq | by rewrite Hr]. }
  intros Hsent.
  destruct (HomeFieldsForm.inputs switched !! "fromCity") as [f |] eqn:Hf;
    [| unfold HomeFieldsForm.submitSearch in Hsent; rewrite Hf in Hsent; congruence].
  destruct (HomeFieldsForm.inputs switched !! "toCity") as [t |] eqn:Ht;
    [| unfold HomeFieldsForm.submitSearch in Hsent; rewrite Hf, Ht in Hsent; congruence].
  destruct (HomeFieldsForm.inputs switched !! "departureDate") as [d |] eqn:Hd;
    [| unfold HomeFieldsForm.submitSearch in Hsent; rewrite Hf, Ht, Hd in Hsent;
       congruence].
  destruct (HomeFieldsForm.inputs page !! "returnDate") as [r |] eqn:Hr;
    cbn [fmap option_fmap option_map] in Hret;
    [| unfold HomeFieldsForm.submitSearch in Hsent; rewrite Hf, Ht, Hd, Hret in Hsent;
       congruence].
  rewrite (fieldsSubmit_cases switched f t d "" (Some "one-way") Hf Ht Hd Hret Htrip)
    in Hsent |- *.
  match type of Hsent with
  | context [if ?b then _ else _] => destruct b; [| congruence]
  end.
  split; [done |]. split; [done |].
  cbn [HomeFieldsForm.localStorage flightSearch truthy].
  eexists. split; [reflexivity |]. done.
Qed.

End HomeFacts.

(** ** The further properties at concrete pages *)

Section MoreInstances.
Import JS Data Validators Booking Examples HomeExamples.

Lemma confirm_booking_guard_witness :
  activeStep (handlePayment exampleEnv beforeConfirm) = Some 5
  /\ errors (handlePayment exampleEnv beforeConfirm) = errors beforeConfirm.
Proof.
  destruct (confirm_booking_guard exampleEnv beforeConfirm
              "Ada Obi" "4111 1111 1111 1111" "12/27" "123") as [Hbooked _];
    try (vm_compute; reflexivity).
  destruct Hbooked as (_ & _ & Hactive & Herrors); [vm_compute; reflexivity |].
  split; assumption.
Defined.

Lemma each_searched_offer_witness :
  exists flight : Flight,
    selectedFlight (bookingState (selectFlight "SB456" (@handleSearch exampleHost arrived)))
    = Some flight
    /\ id flight = "SB456"
    /\ departureCity flight = trim "Abuja"
    /\ arrivalCity flight = trim "Lagos".
Proof.
  apply (@each_searched_offer_can_be_selected exampleHost
           arrived "Abuja" "Lagos" "2026-12-01" "");
    try (vm_compute; first [reflexivity | discriminate]).
  set_solver.
Defined.

Lemma each_part_of_the_session_witness :
  selectedFlight (bookingState (@handle exampleHost SubmitSearch beforeConfirm))
  = selectedFlight (bookingState beforeConfirm).
Proof.
  apply (@each_part_of_the_session_has_its_writers exampleHost SubmitSearch beforeConfirm);
    discriminate.
Defined.

Lemma a_confirmed_booking_comes_back_witness :
  exists booking : BookingDetails,
    createBooking exampleEnv = Ok booking
    /\ let w' := @handle exampleHost (Reload exampleDoc (Some roundTripSearch))
                   (handlePayment exampleEnv beforeConfirm) in
       currentStep (bookingState w') = 5
       /\ bookingDetails (bookingState w') = Some booking
       /\ selectedFlight (bookingState w') = selectedFlight (bookingState beforeConfirm)
       /\ activeStep w'
          = (if decide (stepId 5 ∈ docElements exampleDoc) then Some 5 else None)
       /\ forall d, Some roundTripSearch = Some d -> searchData (bookingState w') = Some d.
Proof.
  apply (@a_confirmed_booking_comes_back_on_every_load exampleHost
           exampleEnv beforeConfirm exampleDoc (Some roundTripSearch));
    vm_compute; reflexivity.
Defined.

Lemma homepage_search_passes_witness :
  activeStep (@handleSearch exampleHost
                (pageLoad exampleDoc (Home.localStorage (Home.submitSearch homeOneWay))))
  = Some 2.
Proof.
  apply (@homepage_search_passes_the_wizard_search exampleHost homeOneWay exampleDoc);
    try (vm_compute; first [reflexivity | by eexists]).
Defined.

Lemma departure_change_witness :
  inputs (typeInto "bookingDeparture" "2026-12-20"
            (pageLoad exampleDoc (mkStorage (Some (Json roundTripSearch)) None)))
  !! "bookingDeparture" = Some "2026-12-20".
Proof.
  destruct (departure_change_empties_an_earlier_return_date
              (pageLoad exampleDoc (mkStorage (Some (Json roundTripSearch)) None))
              "2026-12-20") as (Hdeparture & _);
    [vm_compute; by eexists | exact Hdeparture].
Defined.

Lemma selector_counts_witness :
  statePassengers (bookingState (@handleSearch exampleHost (selectorApply arrived)))
  = Some (mkPassengers 2 1 1).
Proof.
  apply (@selector_counts_reach_the_search_by_apply_only exampleHost
           arrived (mkPassengers 2 1 1) "Abuja" "Lagos" "2026-12-01" "");
    vm_compute; first [reflexivity | discriminate].
Defined.

Lemma wizard_selector_click_witness :
  exists p' : Passengers,
    selector (selectorClick Home.Adults Home.Increase arrived) = Some p'
    /\ (Home.Increase = Home.Increase -> Home.Adults <> Home.Infants ->
        Home.count Home.Adults p' = Home.count Home.Adults (mkPassengers 2 1 1) + 1)
    /\ (1 <= adults (mkPassengers 2 1 1) -> 0 <= children (mkPassengers 2 1 1) ->
        0 <= infants (mkPassengers 2 1 1) ->
        1 <= adults p' /\ 0 <= children p' /\ 0 <= infants p')
    /\ (infants (mkPassengers 2 1 1) <= adults (mkPassengers 2 1 1) ->
        ~ (Home.Adults = Home.Adults /\ Home.Increase = Home.Decrease) ->
        infants p' <= adults p').
Proof.
  apply (wizard_selector_click arrived (mkPassengers 2 1 1) Home.Adults Home.Increase).
  vm_compute. reflexivity.
Defined.

Lemma lookup_witness :
  Home.successes (HomeLookup.submitLookup homeOneWay) = ["Searching for your booking..."]
  /\ Home.errors (HomeLookup.submitLookup homeOneWay) = []
  /\ Home.inputs (HomeLookup.submitLookup homeOneWay)
     = <["bookingEmail" := ""]> (<["bookingRef" := ""]> (Home.inputs homeOneWay)).
Proof.
  apply (lookup_needs_a_reference_and_a_valid_email homeOneWay
           "SKB-K3J5H2" "ada@example.org");
    vm_compute; reflexivity.
Defined.

Lemma homepage_stores_witness :
  exists (stored : SearchData) (trip : string),
    Home.localStorage (Home.submitSearch homeOneWay)
    = mkStorage (Some (Json stored)) (bookingStateSlot (Home.localStorage homeOneWay))
    /\ trim (from stored) = from stored /\ from stored <> ""
    /\ trim (to stored) = to stored /\ to stored <> ""
    /\ toLowerCase (from stored) <> toLowerCase (to stored)
    /\ departureDate stored <> ""
    /\ Data.passengers stored = Some (Home.passengers homeOneWay)
    /\ tripType stored = Some trip /\ trip <> ""
    /\ (trip = "round-trip" -> exists r, returnDate stored = Some r /\ r <> "")
    /\ (trip <> "round-trip" -> returnDate stored = None).
Proof.
  apply (homepage_stores_a_well_formed_search homeOneWay); vm_compute; reflexivity.
Defined.

Lemma switching_to_one_way_witness :
  HomeFieldsForm.returnGroupDisplay
    (HomeFieldsForm.chooseTrip (Some "one-way") fieldsRoundTrip) = Some "none"
  /\ HomeFieldsForm.inputs (HomeFieldsForm.chooseTrip (Some "one-way") fieldsRoundTrip)
     !! "returnDate" = Some ""
  /\ exists stored : SearchData,
      flightSearch
        (HomeFieldsForm.localStorage
           (HomeFieldsForm.submitSearch
              (HomeFieldsForm.chooseTrip (Some "one-way") fieldsRoundTrip)))
      = Some (Json stored)
      /\ tripType stored = Some "one-way"
      /\ returnDate stored = None.
Proof.
  apply (switching_to_one_way_drops_the_return_date fieldsRoundTrip);
    vm_compute; reflexivity.
Defined.

Lemma restored_step_witness :
  currentStep (bookingState (pageLoad exampleDoc paymentStepOnly)) = 4
  /\ activeStep (pageLoad exampleDoc paymentStepOnly)
     = (if decide (stepId 4 ∈ docElements exampleDoc) then Some 4 else None)
  /\ errors (pageLoad exampleDoc paymentStepOnly) = [].
Proof.
  apply (restored_step_is_shown_or_nothing_is exampleDoc paymentStepOnly
           (mkBookingState 4 None None None None None)).
  reflexivity.
Defined.

End MoreInstances.
